(** * SPARKX: particle records, reaction-plane flow and the JETSCAPE loader

    A shallow embedding of three source files of the SPARKX package,

      - [src/sparkx/Particle.py]                (module [Particle]),
      - [src/sparkx/flow/ReactionPlaneFlow.py]  (module [ReactionPlaneFlow]),
      - [src/sparkx/Loader/JetscapeLoader.py]   (module [JetscapeLoader]),

    followed by the properties established about them.

    Conventions of the embedding.

      - A Python object is a [pyval]; Python's dynamic typing is kept: an
        arithmetic operation applied to a string raises [TypeError].
      - A call that may raise returns a [result]: [Ok v] or [Raise e].
      - IEEE doubles are idealised as real numbers.  The only non-finite
        value the flow code can produce from finite inputs, the [nan] of
        [0/0], is a value of its own ([Cnan]); the non-finite results of the
        rapidity formulas are [NotFinite].
      - The external PDG table (package [particle]) and the filter functions
        of [sparkx.Filter] are parameters. *)

From Stdlib Require Import Reals Lra Lia ZArith List String Ascii Bool Sorted.
Import ListNotations.

Set Warnings "-register-all".

Local Open Scope string_scope.
Local Open Scope Z_scope.

(* ================================================================== *)
(** * Python values, exceptions and built-ins *)
(* ================================================================== *)

Module Py.

(** The exceptions the modelled code raises, with the message of the
    [raise] statement where the source gives one. *)
Inductive exn : Type :=
| ValueError (msg : string)
| TypeError (msg : string)
| IndexError (msg : string)
| ZeroDivisionError (msg : string)
| KeyError (msg : string)
| OSError (msg : string)
| FileNotFoundError (msg : string).

Inductive result (A : Type) : Type :=
| Ok (a : A)
| Raise (e : exn).

Arguments Ok {A} a.
Arguments Raise {A} e.

Definition bind {A B : Type} (c : result A) (k : A -> result B) : result B :=
  match c with
  | Ok a => k a
  | Raise e => Raise e
  end.

Definition is_ok {A : Type} (c : result A) : bool :=
  match c with
  | Ok _ => true
  | Raise _ => false
  end.

(** Python objects: [None], [bool], [int], [float], [str], tuples and
    dictionaries (insertion-ordered, as association lists). *)
Inductive pyval : Type :=
| PyNone
| PyBool (b : bool)
| PyInt (z : Z)
| PyFloat (r : R)
| PyStr (s : string)
| PyTuple (items : list pyval)
| PyDict (entries : list (string * pyval)).

(** [x == None] *)
Definition is_none (v : pyval) : bool :=
  match v with
  | PyNone => true
  | _ => false
  end.

(** Truth value testing, as [if x:] and [not x] use it. *)
Definition truthy (v : pyval) : bool :=
  match v with
  | PyNone => false
  | PyBool b => b
  | PyInt z => negb (z =? 0)
  | PyFloat r => if Req_dec_T r 0%R then false else true
  | PyStr s => negb (String.eqb s "")
  | PyTuple items => negb (Nat.eqb (List.length items) 0)
  | PyDict entries => negb (Nat.eqb (List.length entries) 0)
  end.

(** [isinstance(x, int)]: [bool] is a subclass of [int]. *)
Definition isinstance_int (v : pyval) : bool :=
  match v with
  | PyInt _ | PyBool _ => true
  | _ => false
  end.

Definition isinstance_str (v : pyval) : bool :=
  match v with
  | PyStr _ => true
  | _ => false
  end.

Definition isinstance_tuple (v : pyval) : bool :=
  match v with
  | PyTuple _ => true
  | _ => false
  end.

(** The numbers: what arithmetic accepts as an operand. *)
Definition is_number (v : pyval) : bool :=
  match v with
  | PyBool _ | PyInt _ | PyFloat _ => true
  | _ => false
  end.

Definition unsupported_operand : exn :=
  TypeError "unsupported operand type(s)".

(** The numeric value of an operand of [+], [-], [*], [**], [abs] and of the
    comparisons; anything but a number raises [TypeError]. *)
Definition to_real (v : pyval) : result R :=
  match v with
  | PyBool b => Ok (if b then 1%R else 0%R)
  | PyInt z => Ok (IZR z)
  | PyFloat r => Ok r
  | _ => Raise unsupported_operand
  end.

(** Truncation towards zero, [int(x)] of a float. *)
Definition Rtrunc (r : R) : Z :=
  if Rle_dec 0 r then Int_part r else (- Int_part (- r)).

(** ** Strings *)

Definition newline : ascii := ascii_of_nat 10.
Definition tab : ascii := ascii_of_nat 9.
Definition space : ascii := ascii_of_nat 32.
Definition double_quote : ascii := ascii_of_nat 34.

(** [text] between double quotes, as it stands inside a message. *)
Definition quoted (text : string) : string :=
  String double_quote (text ++ String double_quote EmptyString).

(** [str.isspace] on the ASCII range. *)
Definition is_space (c : ascii) : bool :=
  let n := nat_of_ascii c in
  (Nat.leb 9 n && Nat.leb n 13) || (Nat.leb 28 n && Nat.leb n 32).

Definition is_digit (c : ascii) : bool :=
  let n := nat_of_ascii c in
  Nat.leb 48 n && Nat.leb n 57.

(** [needle in hay] *)
Fixpoint contains (needle hay : string) : bool :=
  String.prefix needle hay ||
  match hay with
  | EmptyString => false
  | String _ rest => contains needle rest
  end.

(** [s.replace(c, '')] for a one-character [c] *)
Fixpoint remove_char (c : ascii) (s : string) : string :=
  match s with
  | EmptyString => EmptyString
  | String d rest =>
      if Ascii.eqb d c then remove_char c rest
      else String d (remove_char c rest)
  end.

(** [s.replace(c, d)] for one-character [c] and [d] *)
Fixpoint replace_char (c d : ascii) (s : string) : string :=
  match s with
  | EmptyString => EmptyString
  | String e rest =>
      String (if Ascii.eqb e c then d else e) (replace_char c d rest)
  end.

(** The pieces of [s] between the characters satisfying [sep]; never empty:
    a string without separator is its own single piece. *)
Fixpoint split_at (sep : ascii -> bool) (s : string) : list string :=
  match s with
  | EmptyString => [EmptyString]
  | String c rest =>
      let pieces := split_at sep rest in
      if sep c then EmptyString :: pieces
      else match pieces with
           | piece :: others => String c piece :: others
           | [] => [String c EmptyString]
           end
  end.

(** [s.split(' ')]: consecutive spaces give empty pieces. *)
Definition split_space (s : string) : list string :=
  split_at (Ascii.eqb space) s.

Definition nonempty (s : string) : bool :=
  match s with
  | EmptyString => false
  | String _ _ => true
  end.

(** [s.split()]: the maximal runs of non-whitespace characters. *)
Definition split_whitespace (s : string) : list string :=
  filter nonempty (split_at is_space s).

Fixpoint lstrip (s : string) : string :=
  match s with
  | EmptyString => EmptyString
  | String c rest => if is_space c then lstrip rest else s
  end.

Fixpoint rstrip (s : string) : string :=
  match s with
  | EmptyString => EmptyString
  | String c rest =>
      let rest' := rstrip rest in
      if is_space c && negb (nonempty rest') then EmptyString
      else String c rest'
  end.

(** [s.strip()] *)
Definition strip (s : string) : string := rstrip (lstrip s).

(** ** [int(...)] *)

(** Decimal digits, single underscores allowed between two digits. *)
Fixpoint digits_value (s : string) (acc : Z) (after_digit : bool) : option Z :=
  match s with
  | EmptyString => if after_digit then Some acc else None
  | String c rest =>
      if is_digit c then
        digits_value rest (10 * acc + Z.of_nat (nat_of_ascii c - 48)) true
      else if Ascii.eqb c "_" && after_digit then digits_value rest acc false
      else None
  end.

(** [int(s)] for a string: surrounding whitespace, an optional sign, then
    digits. *)
Definition int_of_string (s : string) : option Z :=
  match strip s with
  | String "+" rest => digits_value rest 0 false
  | String "-" rest => option_map Z.opp (digits_value rest 0 false)
  | t => digits_value t 0 false
  end.

Definition invalid_literal : exn :=
  ValueError "invalid literal for int() with base 10".

(** The built-in [int(x)]. *)
Definition py_int (v : pyval) : result Z :=
  match v with
  | PyBool b => Ok (if b then 1 else 0)
  | PyInt z => Ok z
  | PyFloat r => Ok (Rtrunc r)
  | PyStr s =>
      match int_of_string s with
      | Some z => Ok z
      | None => Raise invalid_literal
      end
  | _ => Raise (TypeError "int() argument must be a string or a number")
  end.

(** ** Sequences and dictionaries *)

Definition index_out_of_range : exn := IndexError "index out of range".

(** [l[i]] for a list and [0 <= i] *)
Definition list_get {A : Type} (l : list A) (i : nat) : result A :=
  match nth_error l i with
  | Some a => Ok a
  | None => Raise index_out_of_range
  end.

(** [v[i]] for an object and [0 <= i] *)
Definition py_getitem (v : pyval) (i : nat) : result pyval :=
  match v with
  | PyTuple items => list_get items i
  | PyStr s =>
      match String.get i s with
      | Some c => Ok (PyStr (String c EmptyString))
      | None => Raise index_out_of_range
      end
  | _ => Raise (TypeError "object is not subscriptable")
  end.

(** [key in d.keys()] and [d[key]] for an insertion-ordered dictionary *)
Fixpoint dict_get {A : Type} (key : string) (d : list (string * A)) : option A :=
  match d with
  | [] => None
  | (k, v) :: rest => if String.eqb key k then Some v else dict_get key rest
  end.

Definition dict_has {A : Type} (key : string) (d : list (string * A)) : bool :=
  match dict_get key d with
  | Some _ => true
  | None => false
  end.

End Py.

Notation "x <- c ;; k" := (Py.bind c (fun x => k))
  (at level 61, c at next level, right associativity).
Notation "' pat <- c ;; k" := (Py.bind c (fun x => match x with pat => k end))
  (at level 61, pat pattern, c at next level, right associativity).

(* ================================================================== *)
(** * Particle.py *)
(* ================================================================== *)

Module Particle.
Import Py.

(** The instance attributes [__init__] creates, all bound to [None]. *)
Inductive attr : Type :=
| t_ | x_ | y_ | z_ | mass_ | E_ | px_ | py_ | pz_ | pdg_ | pdg_valid_
| ID_ | charge_
| ncoll_ | form_time_ | xsecfac_ | proc_id_origin_ | proc_type_origin_
| t_last_coll_ | pdg_mother1_ | pdg_mother2_ | baryon_number_ | strangeness_
| weight_
| status_.

Scheme Equality for attr.

(** A particle object is its attribute dictionary. *)
Definition Particle : Type := attr -> pyval.

Definition blank : Particle := fun _ => PyNone.

Definition setattr (self : Particle) (a : attr) (v : pyval) : Particle :=
  fun b => if attr_beq a b then v else self b.

Inductive warning : Type :=
| PDGNotValid (code : pyval)
| NotSet (what : string).

(** ** The PDG table (class [PDGID] of the package [particle]) *)

Record PDGTable : Type := {
  pdg_is_valid : Z -> bool;
  pdg_charge : Z -> pyval;
  pdg_is_meson : Z -> bool;
  pdg_is_baryon : Z -> bool;
  pdg_is_hadron : Z -> bool;
  pdg_has_strange : Z -> bool;
  pdg_has_charm : Z -> bool;
  pdg_has_bottom : Z -> bool;
  pdg_has_top : Z -> bool;
  pdg_J : Z -> pyval;
  pdg_j_spin : Z -> pyval
}.

(** [PDGID(x)]: [PDGID] subclasses [int]. *)
Definition PDGID (v : pyval) : result Z := py_int v.

(** ** Property getters *)

Definition getter (a : attr) (name : string) (self : Particle) : result pyval :=
  if is_none (self a) then Raise (ValueError (name ++ " not set"))
  else Ok (self a).

Definition t := getter t_ "t".
Definition x := getter x_ "x".
Definition y := getter y_ "y".
Definition z := getter z_ "z".
Definition mass := getter mass_ "mass".
Definition E := getter E_ "E".
Definition px := getter px_ "px".
Definition py := getter py_ "py".
Definition pz := getter pz_ "pz".
Definition pdg := getter pdg_ "pdg".
Definition ID := getter ID_ "ID".
Definition charge := getter charge_ "charge".
Definition ncoll := getter ncoll_ "ncoll".
Definition form_time := getter form_time_ "form_time".
Definition xsecfac := getter xsecfac_ "xsecfac".
Definition proc_id_origin := getter proc_id_origin_ "proc_id_origin".
Definition proc_type_origin := getter proc_type_origin_ "proc_type_origin".
Definition t_last_coll := getter t_last_coll_ "t_last_coll".
Definition pdg_mother1 := getter pdg_mother1_ "pdg_mother1".
Definition pdg_mother2 := getter pdg_mother2_ "pdg_mother2".
Definition status := getter status_ "status".
Definition weight := getter weight_ "weight".

(** [baryon_number] and [strangeness] warn and return [None] when unset. *)
Definition soft_getter (a : attr) (what : string) (self : Particle)
  : pyval * list warning :=
  if is_none (self a) then (PyNone, [NotSet what]) else (self a, []).

Definition baryon_number := soft_getter baryon_number_ "baryon number".
Definition strangeness := soft_getter strangeness_ "strangeness".

(** ** Kinematics *)

Local Open Scope R_scope.

(** A numpy double: a real, or one of [nan], [inf], [-inf]. *)
Inductive npfloat : Type :=
| Finite (v : R)
| NotFinite.

(** [v ** 2.] *)
Definition pow2 (v : pyval) : result R :=
  r <- to_real v ;; Ok (r ^ 2).

(** [a - b] and [a + b] on attribute values *)
Definition py_sub (a b : pyval) : result R :=
  ra <- to_real a ;; rb <- to_real b ;; Ok (ra - rb).

Definition py_add (a b : pyval) : result R :=
  ra <- to_real a ;; rb <- to_real b ;; Ok (ra + rb).

(** [np.abs(v)] *)
Definition np_abs (v : pyval) : result R :=
  r <- to_real v ;; Ok (Rabs r).

(** [a / b] on numpy doubles: a zero divisor gives [inf] or [nan] and a
    warning, no exception (the attributes come from a numpy array, as the
    constructor documents). *)
Definition np_div (a b : R) : npfloat :=
  if Req_dec_T b 0 then NotFinite else Finite (a / b).

(** [np.log]: [-inf] at 0, [nan] below. *)
Definition np_log (a : npfloat) : npfloat :=
  match a with
  | Finite v => if Rlt_dec 0 v then Finite (ln v) else NotFinite
  | NotFinite => NotFinite
  end.

Definition np_scale (c : R) (a : npfloat) : npfloat :=
  match a with
  | Finite v => Finite (c * v)
  | NotFinite => NotFinite
  end.

(** [math.atan2(y, x)] *)
Definition atan2 (y x : R) : R :=
  if Rlt_dec 0 x then atan (y / x)
  else if Rlt_dec x 0 then
         (if Rle_dec 0 y then atan (y / x) + PI else atan (y / x) - PI)
  else if Rlt_dec 0 y then PI / 2
  else if Rlt_dec y 0 then - (PI / 2)
  else 0.

Definition momentum_rapidity_Y (self : Particle) : result npfloat :=
  e <- E self ;; pz1 <- pz self ;; d <- py_sub e pz1 ;;
  denominator <-
    (if Rlt_dec (Rabs d) 1e-10
     then (e <- E self ;; pz2 <- pz self ;; d' <- py_sub e pz2 ;;
           Ok (d' + 1e-10))
     else (e <- E self ;; pz2 <- pz self ;; py_sub e pz2)) ;;
  e <- E self ;; pz3 <- pz self ;; num <- py_add e pz3 ;;
  Ok (np_scale 0.5 (np_log (np_div num denominator))).

Definition p_abs (self : Particle) : result R :=
  vx <- px self ;; x2 <- pow2 vx ;;
  vy <- py self ;; y2 <- pow2 vy ;;
  vz <- pz self ;; z2 <- pow2 vz ;;
  Ok (sqrt (x2 + y2 + z2)).

Definition pt_abs (self : Particle) : result R :=
  vx <- px self ;; x2 <- pow2 vx ;;
  vy <- py self ;; y2 <- pow2 vy ;;
  Ok (sqrt (x2 + y2)).

Definition phi (self : Particle) : result R :=
  let angle :=
    vy <- py self ;; vx <- px self ;;
    ry <- to_real vy ;; rx <- to_real vx ;;
    Ok (atan2 ry rx) in
  vx <- px self ;; ax <- np_abs vx ;;
  if Rlt_dec ax 1e-6 then
    vy <- py self ;; ay <- np_abs vy ;;
    if Rlt_dec ay 1e-6 then Ok 0 else angle
  else angle.

(** [pseudorapidity()].  The floats are read as reals, where the square
    root does not round: for a transverse momentum far below [|pz|] the
    double [|p|] can equal [|pz|], so that what is proved of this function
    is kept to the momenta for which rounding decides nothing. *)
Definition pseudorapidity (self : Particle) : result npfloat :=
  p1 <- p_abs self ;; pz1 <- pz self ;; rz1 <- to_real pz1 ;;
  denominator <-
    (if Rlt_dec (Rabs (p1 - rz1)) 1e-10
     then (p2 <- p_abs self ;; pz2 <- pz self ;; rz2 <- to_real pz2 ;;
           Ok (p2 - rz2 + 1e-10))
     else (p2 <- p_abs self ;; pz2 <- pz self ;; rz2 <- to_real pz2 ;;
           Ok (p2 - rz2))) ;;
  p3 <- p_abs self ;; pz3 <- pz self ;; rz3 <- to_real pz3 ;;
  Ok (np_scale 0.5 (np_log (np_div (p3 + rz3) denominator))).

Definition compute_mass_from_energy_momentum (self : Particle) : result pyval :=
  e <- E self ;; e2 <- pow2 e ;; p <- p_abs self ;;
  if Rlt_dec 1e-6 (Rabs (e2 - p ^ 2)) then
    e <- E self ;; e2 <- pow2 e ;; p <- p_abs self ;;
    if Rlt_dec 0 (e2 - p ^ 2) then
      e <- E self ;; e2 <- pow2 e ;; p <- p_abs self ;;
      Ok (PyFloat (sqrt (e2 - p ^ 2)))
    else Ok (PyFloat 0)
  else Ok (PyFloat 0).

(** [np.arccos]: [nan] outside [[-1, 1]]. *)
Definition np_arccos (a : npfloat) : npfloat :=
  match a with
  | Finite v =>
      if Rle_dec (-1) v then
        if Rle_dec v 1 then Finite (acos v) else NotFinite
      else NotFinite
  | NotFinite => NotFinite
  end.

(** [np.sqrt]: [nan] below 0. *)
Definition np_sqrt (v : R) : npfloat :=
  if Rle_dec 0 v then Finite (sqrt v) else NotFinite.

(** [theta()]: 0 for a momentum of magnitude 0, else
    [np.arccos(self.pz / self.p_abs())]. *)
Definition theta (self : Particle) : result npfloat :=
  p <- p_abs self ;;
  if Req_dec_T p 0 then Ok (Finite 0)
  else
    pz1 <- pz self ;; rz <- to_real pz1 ;; p' <- p_abs self ;;
    Ok (np_arccos (np_div rz p')).

(** The test [self.t > np.abs(self.z)] both functions of the proper-time
    coordinates start with. *)
Definition inside_light_cone (self : Particle) : result bool :=
  t1 <- t self ;; z1 <- z self ;; az <- np_abs z1 ;; rt <- to_real t1 ;;
  Ok (if Rlt_dec az rt then true else false).

(** [spatial_rapidity()]; under the test the divisor [t - z] is positive,
    so that the division raises nothing. *)
Definition spatial_rapidity (self : Particle) : result npfloat :=
  inside <- inside_light_cone self ;;
  if inside then
    t1 <- t self ;; z1 <- z self ;; num <- py_add t1 z1 ;;
    t2 <- t self ;; z2 <- z self ;; den <- py_sub t2 z2 ;;
    Ok (np_scale 0.5 (np_log (np_div num den)))
  else Raise (ValueError "|z| < t not fulfilled").

(** [proper_time()] *)
Definition proper_time (self : Particle) : result npfloat :=
  inside <- inside_light_cone self ;;
  if inside then
    t1 <- t self ;; t2 <- pow2 t1 ;; z1 <- z self ;; z2 <- pow2 z1 ;;
    Ok (np_sqrt (t2 - z2))
  else Raise (ValueError "|z| < t not fulfilled").

Local Close Scope R_scope.

(** ** Queries derived from the PDG code *)

Section PDGQueries.

Variable table : PDGTable.

(** [not self.pdg_valid_] *)
Definition pdg_not_valid (self : Particle) : bool :=
  negb (truthy (self pdg_valid_)).

Definition pdg_query {A : Type} (default : A) (field : Z -> A)
  (self : Particle) : result A :=
  if pdg_not_valid self then Ok default
  else (code <- pdg self ;; id <- PDGID code ;; Ok (field id)).

Definition compute_charge_from_pdg : Particle -> result pyval :=
  pdg_query PyNone (pdg_charge table).

Definition is_meson : Particle -> result bool :=
  pdg_query false (pdg_is_meson table).

Definition is_baryon : Particle -> result bool :=
  pdg_query false (pdg_is_baryon table).

Definition is_hadron : Particle -> result bool :=
  pdg_query false (pdg_is_hadron table).

Definition is_strange : Particle -> result bool :=
  pdg_query false (pdg_has_strange table).

Definition is_heavy_flavor (self : Particle) : result bool :=
  if pdg_not_valid self then Ok false
  else
    code <- pdg self ;; id <- PDGID code ;;
    if pdg_has_charm table id then Ok true
    else
      code <- pdg self ;; id <- PDGID code ;;
      if pdg_has_bottom table id then Ok true
      else
        code <- pdg self ;; id <- PDGID code ;;
        Ok (pdg_has_top table id).

Definition spin : Particle -> result pyval :=
  pdg_query PyNone (pdg_J table).

Definition spin_degeneracy : Particle -> result pyval :=
  pdg_query PyNone (pdg_j_spin table).

(** The validation both the constructor and the [pdg] setter end with. *)
Definition validate_pdg (self : Particle)
  : result (Particle * list warning) :=
  id <- PDGID (self pdg_) ;;
  let valid := pdg_is_valid table id in
  Ok (setattr self pdg_valid_ (PyBool valid),
      if valid then [] else [PDGNotValid (self pdg_)]).

(** [self.pdg = value] *)
Definition set_pdg (self : Particle) (value : pyval)
  : result (Particle * list warning) :=
  validate_pdg (setattr self pdg_ value).

(** ** Construction from an array *)

Definition Oscar2013_columns : list (attr * nat) :=
  [(t_, 0); (x_, 1); (y_, 2); (z_, 3); (mass_, 4); (E_, 5); (px_, 6);
   (py_, 7); (pz_, 8); (pdg_, 9); (ID_, 10); (charge_, 11)]%nat.

Definition Oscar2013Extended_columns : list (attr * nat) :=
  [(t_, 0); (x_, 1); (y_, 2); (z_, 3); (mass_, 4); (E_, 5); (px_, 6);
   (py_, 7); (pz_, 8); (pdg_, 9); (ID_, 10); (charge_, 11); (ncoll_, 12);
   (form_time_, 13); (xsecfac_, 14); (proc_id_origin_, 15);
   (proc_type_origin_, 16); (t_last_coll_, 17); (pdg_mother1_, 18);
   (pdg_mother2_, 19); (baryon_number_, 20); (strangeness_, 21)]%nat.

Definition Oscar2013Extended_Photons_columns : list (attr * nat) :=
  [(t_, 0); (x_, 1); (y_, 2); (z_, 3); (mass_, 4); (E_, 5); (px_, 6);
   (py_, 7); (pz_, 8); (pdg_, 9); (ID_, 10); (charge_, 11); (ncoll_, 12);
   (form_time_, 13); (xsecfac_, 14); (proc_id_origin_, 15);
   (proc_type_origin_, 16); (t_last_coll_, 17); (pdg_mother1_, 18);
   (pdg_mother2_, 19); (weight_, 20)]%nat.

Definition JETSCAPE_columns : list (attr * nat) :=
  [(ID_, 0); (pdg_, 1); (status_, 2); (E_, 3); (px_, 4); (py_, 5);
   (pz_, 6)]%nat.

Definition attribute_mapping : list (string * list (attr * nat)) :=
  [("Oscar2013", Oscar2013_columns);
   ("Oscar2013Extended", Oscar2013Extended_columns);
   ("Oscar2013Extended_IC", Oscar2013Extended_columns);
   ("Oscar2013Extended_Photons", Oscar2013Extended_Photons_columns);
   ("JETSCAPE", JETSCAPE_columns)].

(** The length test of [__initialize_from_array]. *)
Definition length_accepted (input_format : string) (columns : list (attr * nat))
  (len : nat) : bool :=
  Nat.eqb len (List.length columns) ||
  ((String.eqb input_format "Oscar2013Extended" ||
    String.eqb input_format "Oscar2013Extended_IC") &&
   Nat.leb len (List.length columns) &&
   Nat.leb (List.length columns - 2) len).

(** The [for attribute, index in ...items()] loop. *)
Definition assign_columns (particle_array : list pyval)
  (columns : list (attr * nat)) (self : Particle) : Particle :=
  fold_left
    (fun self '(attribute, index) =>
       if Nat.ltb (List.length particle_array) (index + 1)
       then setattr self attribute PyNone
       else setattr self attribute (nth index particle_array PyNone))
    columns self.

Definition initialize_from_array (self : Particle) (input_format : string)
  (particle_array : list pyval) : result (Particle * list warning) :=
  match dict_get input_format attribute_mapping with
  | Some columns =>
      if length_accepted input_format columns (List.length particle_array)
      then
        let self := assign_columns particle_array columns self in
        self <-
          (if String.eqb input_format "JETSCAPE" then
             m <- compute_mass_from_energy_momentum self ;;
             let self := setattr self mass_ m in
             c <- compute_charge_from_pdg self ;;
             Ok (setattr self charge_ c)
           else Ok self) ;;
        validate_pdg self
      else Raise (ValueError "The input file is corrupted!")
  | None =>
      Raise (ValueError ("Unsupported input format '" ++ input_format ++ "'"))
  end.

(** [Particle(input_format, particle_array)]; an argument left out is
    [None]. *)
Definition init (input_format : option string)
  (particle_array : option (list pyval)) : result (Particle * list warning) :=
  match input_format, particle_array with
  | None, None => Ok (blank, [])
  | Some f, Some a => initialize_from_array blank f a
  | _, _ => Raise (ValueError "'input_format' or 'particle_array' not given")
  end.

End PDGQueries.

(** ** Vocabulary of the properties *)

(** The column count each format declares. *)
Definition declared_columns : list (string * nat) :=
  [("Oscar2013", 12); ("Oscar2013Extended", 22); ("Oscar2013Extended_IC", 22);
   ("Oscar2013Extended_Photons", 21); ("JETSCAPE", 7)]%nat.

(** The two dialects that tolerate missing trailing columns. *)
Definition tolerant (input_format : string) : Prop :=
  input_format = "Oscar2013Extended" \/ input_format = "Oscar2013Extended_IC".

Definition accepted_length (input_format : string) (N len : nat) : Prop :=
  len = N \/ (tolerant input_format /\ (N - 2 <= len <= N)%nat).

(** An array of numbers, as the constructor documents its argument. *)
Definition numeric (particle_array : list pyval) : Prop :=
  Forall (fun v => is_number v = true) particle_array.

(** The value both rapidity formulas compute from their numerator [num] and
    the difference [diff] they divide by: half the logarithm of the
    quotient, the difference being shifted by [1e-10] when it is smaller
    than that in magnitude. *)
Definition regularised (num diff : R) : npfloat :=
  np_scale 0.5
    (np_log (np_div num (if Rlt_dec (Rabs diff) 1e-10 then (diff + 1e-10)%R
                         else diff))).

End Particle.

(* ================================================================== *)
(** * flow/ReactionPlaneFlow.py *)
(* ================================================================== *)

Module ReactionPlaneFlow.
Import Py Particle.

Local Open Scope R_scope.

(** A complex value of the flow computation: a complex number, or the
    [nan+nanj] numpy returns for [0/0]. *)
Inductive npcomplex : Type :=
| Cfin (re im : R)
| Cnan.

(** [0. + 0.j] *)
Definition czero : npcomplex := Cfin 0 0.

Definition cadd (a b : npcomplex) : npcomplex :=
  match a, b with
  | Cfin r1 i1, Cfin r2 i2 => Cfin (r1 + r2) (i1 + i2)
  | _, _ => Cnan
  end.

(** Product of a real and a complex value. *)
Definition cscale (c : R) (a : npcomplex) : npcomplex :=
  match a with
  | Cfin r i => Cfin (c * r) (c * i)
  | Cnan => Cnan
  end.

(** [np.exp(1j * theta)] *)
Definition cexp_i (theta : R) : npcomplex := Cfin (cos theta) (sin theta).

(** Division of a numpy complex by a real.  A zero divisor gives [nan] for a
    zero dividend; for a non-zero dividend numpy gives an infinite value,
    which the flow code never meets: its one unguarded division has the
    dividend [pt**n * exp(..)] and the divisor [pt**n] (lemma
    [flow_factor_dividend]). *)
Definition np_cdiv (a : npcomplex) (d : R) : npcomplex :=
  match a with
  | Cfin r i => if Req_dec_T d 0 then Cnan else Cfin (r / d) (i / d)
  | Cnan => Cnan
  end.

(** Division of the Python complex [flow_event_average] in
    [integrated_flow]: Python raises on a zero divisor.  (Whenever the
    divisor is zero there, the dividend is the Python literal [0. + 0.j],
    not a numpy value: lemma [zero_weight_average_reset].) *)
Definition py_cdiv (a : npcomplex) (d : R) : result npcomplex :=
  if Req_dec_T d 0 then Raise (ZeroDivisionError "complex division by zero")
  else Ok (np_cdiv a d).

Record ReactionPlaneFlow : Type := { n_ : Z }.

(** [ReactionPlaneFlow(n)] *)
Definition init (n : pyval) : result ReactionPlaneFlow :=
  if isinstance_int n then
    z <- py_int n ;;
    if (z <=? 0)%Z
    then Raise (ValueError "n-th harmonic with value n<=0 can not be computed")
    else Ok {| n_ := z |}
  else Raise (TypeError "n has to be int").

(** [pt**n * np.exp(1j*n*phi) / pt**n] *)
Definition flow_factor (n : Z) (pt phi : R) : npcomplex :=
  np_cdiv (cscale (pt ^ Z.to_nat n) (cexp_i (IZR n * phi))) (pt ^ Z.to_nat n).

(** [1. if p.weight is None else p.weight]: the property [weight] is read,
    compared with [None], and read again. *)
Definition flow_weight (p : Particle) : result pyval :=
  w <- weight p ;;
  if is_none w then Ok (PyFloat 1) else weight p.

(** The body of the loop over the particles of one event; the same five
    lines in [integrated_flow] and in [__differential_flow_calculation]. *)
Definition particle_step (n : Z) (p : Particle) (acc : npcomplex * R)
  : result (npcomplex * R) :=
  let '(flow_event, number_particles) := acc in
  w <- flow_weight p ;;
  pt <- pt_abs p ;;
  ph <- phi p ;;
  wr <- to_real w ;;
  Ok (cadd flow_event (cscale wr (flow_factor n pt ph)), number_particles + wr).

Fixpoint event_loop (n : Z) (event : list Particle) (acc : npcomplex * R)
  : result (npcomplex * R) :=
  match event with
  | [] => Ok acc
  | p :: rest => acc' <- particle_step n p acc ;; event_loop n rest acc'
  end.

(** The loop over the events in [integrated_flow]; the state is
    [(flow_event_average, number_particles)]. *)
Fixpoint ensemble_loop (n : Z) (particle_data : list (list Particle))
  (acc : npcomplex * R) : result (npcomplex * R) :=
  match particle_data with
  | [] => Ok acc
  | event :: rest =>
      let '(flow_event_average, number_particles) := acc in
      '(flow_event, number_particles) <-
         event_loop n event (czero, number_particles) ;;
      if Req_dec_T number_particles 0
      then ensemble_loop n rest (czero, number_particles)
      else ensemble_loop n rest
             (cadd flow_event_average flow_event, number_particles)
  end.

Definition integrated_flow (self : ReactionPlaneFlow)
  (particle_data : list (list Particle)) : result npcomplex :=
  '(flow_event_average, number_particles) <-
     ensemble_loop (n_ self) particle_data (czero, 0) ;;
  py_cdiv flow_event_average number_particles.

(** ** Differential flow *)

Fixpoint mapM {A B : Type} (f : A -> result B) (l : list A) : result (list B) :=
  match l with
  | [] => Ok []
  | a :: rest => b <- f a ;; bs <- mapM f rest ;; Ok (b :: bs)
  end.

(** [val] of the innermost loop of [differential_flow] (the [print(val)] of
    the pseudorapidity branch writes to the standard output and changes no
    value). *)
Definition observable (flow_as_function_of : string) (particle : Particle)
  : result npfloat :=
  if String.eqb flow_as_function_of "pt" then
    v <- pt_abs particle ;; Ok (Finite v)
  else if String.eqb flow_as_function_of "rapidity" then
    momentum_rapidity_Y particle
  else if String.eqb flow_as_function_of "pseudorapidity" then
    pseudorapidity particle
  else Ok (Finite 0).

(** [val >= lo and val < hi]; a comparison with [nan] is false, and an
    infinite value is never inside two finite boundaries. *)
Definition in_bin (val : npfloat) (lo hi : R) : bool :=
  match val with
  | Finite v =>
      (if Rle_dec lo v then true else false) &&
      (if Rlt_dec v hi then true else false)
  | NotFinite => false
  end.

(** [particles_event] for one event and one bin. *)
Fixpoint select_event (flow_as_function_of : string) (bins : list R)
  (bin : nat) (event : list Particle) : result (list Particle) :=
  match event with
  | [] => Ok []
  | particle :: rest =>
      val <- observable flow_as_function_of particle ;;
      selected <- select_event flow_as_function_of bins bin rest ;;
      Ok (if in_bin val (nth bin bins 0) (nth (bin + 1) bins 0)
          then particle :: selected else selected)
  end.

(** [particles_bin]: for every bin, for every event, the selected
    particles. *)
Definition bin_particles (flow_as_function_of : string) (bins : list R)
  (particle_data : list (list Particle))
  : result (list (list (list Particle))) :=
  mapM (fun bin => mapM (select_event flow_as_function_of bins bin)
                        particle_data)
       (seq 0 (List.length bins - 1)).

(** The loop over the events of one bin. *)
Fixpoint bin_loop (n : Z) (events : list (list Particle))
  (acc : npcomplex * R) : result (npcomplex * R) :=
  match events with
  | [] => Ok acc
  | event :: rest =>
      let '(flow_event_average, number_particles) := acc in
      '(flow_event, number_particles) <-
         event_loop n event (czero, number_particles) ;;
      bin_loop n rest (cadd flow_event_average flow_event, number_particles)
  end.

Definition bin_flow (n : Z) (events : list (list Particle))
  : result npcomplex :=
  '(flow_event_average, number_particles) <- bin_loop n events (czero, 0) ;;
  if Req_dec_T number_particles 0 then Ok czero
  else Ok (np_cdiv flow_event_average number_particles).

Definition differential_flow_calculation (self : ReactionPlaneFlow)
  (binned_particle_data : list (list (list Particle)))
  : result (list npcomplex) :=
  mapM (bin_flow (n_ self)) binned_particle_data.

(** [differential_flow(particle_data, bins, flow_as_function_of)]; [bins] is
    a list (or array) of numbers. *)
Definition differential_flow (self : ReactionPlaneFlow)
  (particle_data : list (list Particle)) (bins : list R)
  (flow_as_function_of : pyval) : result (list npcomplex) :=
  match flow_as_function_of with
  | PyStr name =>
      if String.eqb name "pt" || String.eqb name "rapidity" ||
         String.eqb name "pseudorapidity"
      then
        particles_bin <- bin_particles name bins particle_data ;;
        differential_flow_calculation self particles_bin
      else Raise (ValueError
        "flow_as_function_of must be either 'pt', 'rapidity', 'pseudorapidity'")
  | _ => Raise (TypeError "flow_as_function_of is not a string")
  end.

(** ** Vocabulary of the properties *)

Definition Rsum (l : list R) : R := fold_right Rplus 0 l.

(** The weight the specification gives a particle: its weight, or 1 when the
    weight is unset. *)
Definition weight_or_one (p : Particle) : R :=
  match p weight_ with
  | PyNone => 1
  | v => match to_real v with Ok r => r | Raise _ => 0 end
  end.

(** The azimuthal angle of a particle whose [px] and [py] are numbers. *)
Definition angle (p : Particle) : R :=
  match phi p with Ok r => r | Raise _ => 0 end.

Definition weighted_cos (n : Z) (p : Particle) : R :=
  weight_or_one p * cos (IZR n * angle p).

Definition weighted_sin (n : Z) (p : Particle) : R :=
  weight_or_one p * sin (IZR n * angle p).

(** The specification's value of the integrated flow: the sum of
    [w * exp(i n phi)] over all particles of all events, divided by the sum
    of the weights. *)
Definition flat_average (n : Z) (particle_data : list (list Particle))
  : npcomplex :=
  let particles := List.concat particle_data in
  let total := Rsum (map weight_or_one particles) in
  Cfin (Rsum (map (weighted_cos n) particles) / total)
       (Rsum (map (weighted_sin n) particles) / total).

(** A particle the accumulation reads without an exception and with a
    finite term: [px], [py] and [weight] are numbers and [pt] is not 0. *)
Definition contributes (p : Particle) : Prop :=
  is_number (p px_) = true /\ is_number (p py_) = true /\
  is_number (p weight_) = true /\ pt_abs p <> Ok 0.

(** The reset of the running average at the end of an event (taken when the
    running weight is zero) discards nothing: up to the end of each event, a
    zero sum of weights comes with a zero flow sum.  Weights that are not
    negative are the plain case. *)
Definition never_discards (n : Z) (particle_data : list (list Particle))
  : Prop :=
  forall k, (k <= List.length particle_data)%nat ->
    Rsum (map weight_or_one (List.concat (firstn k particle_data))) = 0 ->
    Rsum (map (weighted_cos n) (List.concat (firstn k particle_data))) = 0 /\
    Rsum (map (weighted_sin n) (List.concat (firstn k particle_data))) = 0.

(** A particle the accumulation reads without an exception: [px], [py] and
    [weight] are numbers. *)
Definition flow_ready (p : Particle) : Prop :=
  is_number (p px_) = true /\ is_number (p py_) = true /\
  is_number (p weight_) = true.

(** A particle all of whose kinematic attributes and weight are numbers. *)
Definition readable (p : Particle) : Prop :=
  is_number (p E_) = true /\ is_number (p px_) = true /\
  is_number (p py_) = true /\ is_number (p pz_) = true /\
  is_number (p weight_) = true.

(** The test that puts [p] into bin [bin]. *)
Definition placed (name : string) (bins : list R) (bin : nat) (p : Particle)
  : bool :=
  match observable name p with
  | Ok val => in_bin val (nth bin bins 0) (nth (bin + 1) bins 0)
  | Raise _ => false
  end.

Definition valid_variable (name : string) : Prop :=
  name = "pt" \/ name = "rapidity" \/ name = "pseudorapidity".

(** The value of one bin: the flat average of its particles, or the complex
    zero when their weights sum to zero. *)
Definition bin_average (n : Z) (events : list (list Particle)) : npcomplex :=
  if Req_dec_T (Rsum (map weight_or_one (List.concat events))) 0 then czero
  else flat_average n events.

End ReactionPlaneFlow.

(* ================================================================== *)
(** * Loader/JetscapeLoader.py *)
(* ================================================================== *)

Module JetscapeLoader.
Import Py Particle.

(** ** The filter functions ([from sparkx.Filter import *])

    The loader only calls them; they are parameters.  [Ev] is the type of
    what they take and return (a list of events in the loader). *)
Record FilterLib (Ev : Type) : Type := {
  charged_particles : Ev -> result Ev;
  uncharged_particles : Ev -> result Ev;
  strange_particles : Ev -> result Ev;
  particle_species : Ev -> pyval -> result Ev;
  remove_particle_species : Ev -> pyval -> result Ev;
  lower_event_energy_cut : Ev -> pyval -> result Ev;
  pt_cut : Ev -> pyval -> result Ev;
  rapidity_cut : Ev -> pyval -> result Ev;
  pseudorapidity_cut : Ev -> pyval -> result Ev;
  spatial_rapidity_cut : Ev -> pyval -> result Ev;
  multiplicity_cut : Ev -> pyval -> result Ev;
  particle_status : Ev -> pyval -> result Ev
}.

Arguments charged_particles {Ev}.
Arguments uncharged_particles {Ev}.
Arguments strange_particles {Ev}.
Arguments particle_species {Ev}.
Arguments remove_particle_species {Ev}.
Arguments lower_event_energy_cut {Ev}.
Arguments pt_cut {Ev}.
Arguments rapidity_cut {Ev}.
Arguments pseudorapidity_cut {Ev}.
Arguments spatial_rapidity_cut {Ev}.
Arguments multiplicity_cut {Ev}.
Arguments particle_status {Ev}.

Section ApplyFilters.

Context {Ev : Type} (F : FilterLib Ev).

(** [filters_dict[key]] inside the loop: [key] is a key of the dictionary. *)
Definition filter_parameter (filters_dict : list (string * pyval))
  (key : string) : pyval :=
  match dict_get key filters_dict with
  | Some v => v
  | None => PyNone
  end.

(** One iteration of [for i in filters_dict.keys()]. *)
Definition apply_filter (filters_dict : list (string * pyval)) (i : string)
  (event : Ev) : result Ev :=
  let parameter := filter_parameter filters_dict in
  if String.eqb i "charged_particles" then
    if truthy (parameter "charged_particles")
    then charged_particles F event else Ok event
  else if String.eqb i "uncharged_particles" then
    if truthy (parameter "uncharged_particles")
    then uncharged_particles F event else Ok event
  else if String.eqb i "strange_particles" then
    if truthy (parameter "strange_particles")
    then strange_particles F event else Ok event
  else if String.eqb i "particle_species" then
    particle_species F event (parameter "particle_species")
  else if String.eqb i "remove_particle_species" then
    remove_particle_species F event (parameter "remove_particle_species")
  else if String.eqb i "lower_event_energy_cut" then
    lower_event_energy_cut F event (parameter "lower_event_energy_cut")
  else if String.eqb i "pt_cut" then
    pt_cut F event (parameter "pt_cut")
  else if String.eqb i "rapidity_cut" then
    rapidity_cut F event (parameter "rapidity_cut")
  else if String.eqb i "pseudorapidity_cut" then
    pseudorapidity_cut F event (parameter "pseudorapidity_cut")
  else if String.eqb i "spatial_rapidity_cut" then
    spatial_rapidity_cut F event (parameter "spatial_rapidity_cut")
  else if String.eqb i "multiplicity_cut" then
    multiplicity_cut F event (parameter "multiplicity_cut")
  else if String.eqb i "particle_status" then
    particle_status F event (parameter "particle_status")
  else Raise (ValueError "The cut is unknown!").

(** The loop over the keys, in the dictionary's iteration order. *)
Fixpoint apply_filters_loop (filters_dict : list (string * pyval))
  (keys : list string) (event : Ev) : result Ev :=
  match keys with
  | [] => Ok event
  | i :: rest =>
      event' <- apply_filter filters_dict i event ;;
      apply_filters_loop filters_dict rest event'
  end.

(** [__apply_kwargs_filters(event, filters_dict)] *)
Definition apply_kwargs_filters (event : Ev) (filters_dict : pyval)
  : result Ev :=
  match filters_dict with
  | PyDict entries =>
      if Nat.eqb (List.length entries) 0 then Ok event
      else apply_filters_loop entries (map fst entries) event
  | _ => Ok event
  end.

End ApplyFilters.

(** ** Files *)

(** The files on disk: path to content. *)
Definition filesystem : Type := string -> option string.

(** The lines [readline()] returns one after the other, each with its
    newline (the last one possibly without). *)
Fixpoint lines_of (content : string) : list string :=
  match content with
  | EmptyString => []
  | String c rest =>
      if Ascii.eqb c newline then String c EmptyString :: lines_of rest
      else match lines_of rest with
           | [] => [String c EmptyString]
           | line :: others => String c line :: others
           end
  end.

(** [open(path, 'r')] *)
Definition open_lines (fs : filesystem) (path : string) : result (list string) :=
  match fs path with
  | Some content => Ok (lines_of content)
  | None => Raise (FileNotFoundError "No such file or directory")
  end.

(** [line.replace('\n','').replace('\t',' ').split(' ')] *)
Definition tokens_of (line : string) : list string :=
  split_space (replace_char tab space (remove_char newline line)).

(** ** The loader object *)

Record Loader : Type := {
  PATH_JETSCAPE_ : string;
  particle_type_ : string;
  particle_type_defining_string_ : string;
  optional_arguments_ : list (string * pyval);
  num_output_per_event_ : list (Z * Z);
  num_events_ : Z
}.

Definition set_table (self : Loader) (table : list (Z * Z)) : Loader :=
  {| PATH_JETSCAPE_ := PATH_JETSCAPE_ self;
     particle_type_ := particle_type_ self;
     particle_type_defining_string_ := particle_type_defining_string_ self;
     optional_arguments_ := optional_arguments_ self;
     num_output_per_event_ := table;
     num_events_ := num_events_ self |}.

Definition set_num_events (self : Loader) (n : Z) : Loader :=
  {| PATH_JETSCAPE_ := PATH_JETSCAPE_ self;
     particle_type_ := particle_type_ self;
     particle_type_defining_string_ := particle_type_defining_string_ self;
     optional_arguments_ := optional_arguments_ self;
     num_output_per_event_ := num_output_per_event_ self;
     num_events_ := n |}.

Definition set_optional_arguments (self : Loader)
  (kwargs : list (string * pyval)) : Loader :=
  {| PATH_JETSCAPE_ := PATH_JETSCAPE_ self;
     particle_type_ := particle_type_ self;
     particle_type_defining_string_ := particle_type_defining_string_ self;
     optional_arguments_ := kwargs;
     num_output_per_event_ := num_output_per_event_ self;
     num_events_ := num_events_ self |}.

Definition set_particle_type (self : Loader) (kind defining : string) : Loader :=
  {| PATH_JETSCAPE_ := PATH_JETSCAPE_ self;
     particle_type_ := kind;
     particle_type_defining_string_ := defining;
     optional_arguments_ := optional_arguments_ self;
     num_output_per_event_ := num_output_per_event_ self;
     num_events_ := num_events_ self |}.

(** Modelled from the spec: [BaseLoader.__init__], which is not among the
    sources; the constructor fails with [FileNotFoundError] when the path
    does not exist. *)
Definition base_init (fs : filesystem) (path : string) : result unit :=
  match fs path with
  | Some _ => Ok tt
  | None => Raise (FileNotFoundError "File not found")
  end.

(** [JetscapeLoader(JETSCAPE_FILE)].  The attributes [load] creates are given
    empty values here; [event_end_lines_], which [load] sets to the empty
    list and nothing changes, is left out of the record. *)
Definition init (fs : filesystem) (JETSCAPE_FILE : string) : result Loader :=
  _ <- base_init fs JETSCAPE_FILE ;;
  if contains ".dat" JETSCAPE_FILE then
    Ok {| PATH_JETSCAPE_ := JETSCAPE_FILE;
          particle_type_ := "hadron";
          particle_type_defining_string_ := "";
          optional_arguments_ := [];
          num_output_per_event_ := [];
          num_events_ := 0 |}
  else Raise (FileNotFoundError "File not found or does not end with .dat").

(** Modelled from the spec: [BaseLoader._check_that_tuple_contains_integers_only],
    which is not among the sources; the [events] pair must hold integers,
    anything else is a wrong type. *)
Definition check_that_tuple_contains_integers_only (events : pyval)
  : result unit :=
  match events with
  | PyTuple items =>
      if forallb isinstance_int items then Ok tt
      else Raise (TypeError "All elements inside the event tuple must be integers.")
  | _ => Ok tt
  end.

(** ** The index pass *)

(** The loop of [set_num_output_per_event]: the tokens 2 and 8 of every line
    holding ['#'] and the defining string. *)
Fixpoint index_lines (defining : string) (lines : list string)
  : result (list (string * string)) :=
  match lines with
  | [] => Ok []
  | line :: rest =>
      if contains "#" line && contains defining line then
        let line_str := tokens_of line in
        event <- list_get line_str 2 ;;
        num_output <- list_get line_str 8 ;;
        others <- index_lines defining rest ;;
        Ok ((event, num_output) :: others)
      else index_lines defining rest
  end.

(** The value a 32-bit signed integer keeps of [v]: numbers outside
    [[-2^31, 2^31 - 1]] wrap around. *)
Definition int32 (v : Z) : Z := (v + 2 ^ 31) mod 2 ^ 32 - 2 ^ 31.

(** [np.asarray(event_output, dtype=np.int32)]: the strings are read as
    integers and stored in 32 bits. *)
Fixpoint as_int_table (event_output : list (string * string))
  : result (list (Z * Z)) :=
  match event_output with
  | [] => Ok []
  | (event, num_output) :: rest =>
      e <- py_int (PyStr event) ;;
      n <- py_int (PyStr num_output) ;;
      others <- as_int_table rest ;;
      Ok ((int32 e, int32 n) :: others)
  end.

Definition set_num_output_per_event (fs : filesystem) (self : Loader)
  : Loader * result unit :=
  match
    (lines <- open_lines fs (PATH_JETSCAPE_ self) ;;
     event_output <- index_lines (particle_type_defining_string_ self) lines ;;
     as_int_table event_output)
  with
  | Ok table =>
      (set_num_events (set_table self table) (Z.of_nat (List.length table)),
       Ok tt)
  | Raise e => (self, Raise e)
  end.

(** ** Lines to skip and to read *)

(** [self.num_output_per_event_[i, 1]] *)
Definition row_count (table : list (Z * Z)) (i : nat) : result Z :=
  row <- list_get table i ;; Ok (snd row).

(** [for i in range(start, start + count): acc += table[i, 1] + 1] *)
Fixpoint cumulate (table : list (Z * Z)) (start count : nat) (acc : Z)
  : result Z :=
  match count with
  | O => Ok acc
  | S count' =>
      c <- row_count table start ;;
      cumulate table (S start) count' (acc + (c + 1))
  end.

Definition events_not_given (self : Loader) : bool :=
  Nat.eqb (List.length (optional_arguments_ self)) 0 ||
  negb (dict_has "events" (optional_arguments_ self)).

Definition events_argument (self : Loader) : pyval :=
  match dict_get "events" (optional_arguments_ self) with
  | Some v => v
  | None => PyNone
  end.

Definition get_num_skip_lines (self : Loader) : result Z :=
  if events_not_given self then Ok 1
  else
    let events := events_argument self in
    if isinstance_int events then
      e <- py_int events ;;
      if e =? 0 then Ok 1
      else
        cumulate_lines <-
          cumulate (num_output_per_event_ self) 0 (Z.to_nat e) 0 ;;
        Ok (1 + cumulate_lines)
    else if isinstance_tuple events then
      first <- py_getitem events 0 ;;
      line_start <- py_int first ;;
      if line_start =? 0 then Ok 1
      else
        cumulate_lines <-
          cumulate (num_output_per_event_ self) 0 (Z.to_nat line_start) 0 ;;
        Ok (1 + cumulate_lines)
    else Raise (TypeError
      ("Value given as flag " ++ quoted "events"
       ++ " is not of type int or a tuple of two int values")).

Definition get_num_read_lines (self : Loader) : result Z :=
  let table := num_output_per_event_ self in
  cumulated_lines <-
    (if events_not_given self then
       match table with
       | [] => Raise (IndexError "invalid index to scalar variable")
       | _ =>
           Ok (fold_left (fun acc row => acc + snd row) table 0
               + Z.of_nat (List.length table))
       end
     else
       let events := events_argument self in
       if isinstance_int events then
         read_event <- py_int events ;;
         c <- row_count table (Z.to_nat read_event) ;;
         Ok (c + 1)
       else if isinstance_tuple events then
         first <- py_getitem events 0 ;;
         second <- py_getitem events 1 ;;
         event_start <- py_int first ;;
         event_end <- py_int second ;;
         cumulate table (Z.to_nat event_start)
                  (Z.to_nat (event_end + 1 - event_start)) 0
       else Raise (TypeError
         "Value given as flag events is not of type int or a tuple")) ;;
  Ok (cumulated_lines + 1).

(** Modelled from the spec: [BaseLoader._skip_lines], which is not among the
    sources; it reads [_get_num_skip_lines()] lines from the open file. *)
Definition skip_lines (self : Loader) (lines : list string)
  : result (list string) :=
  n <- get_num_skip_lines self ;; Ok (skipn (Z.to_nat n) lines).

(** ** The bounded read pass *)

Section ReadPass.

Variable table : PDGTable.
Variable F : FilterLib (list (list Particle)).

(** The local state of the loop of [set_particle_list], and the table it
    updates in place.  [shared] lists the positions of [particle_list] that
    hold the very list object [data] is bound to (the terminator branch
    appends [data] and goes on using it). *)
Record loop_state : Type := {
  particle_list : list (list Particle);
  data : list Particle;
  shared : list nat;
  per_event : list (Z * Z)
}.

Fixpoint replace_nth {A : Type} (l : list A) (k : nat) (a : A) : list A :=
  match l, k with
  | [], _ => []
  | _ :: rest, O => a :: rest
  | b :: rest, S k' => b :: replace_nth rest k' a
  end.

(** [table[k] = row] *)
Definition set_row (t : list (Z * Z)) (k : nat) (row : Z * Z)
  : result (list (Z * Z)) :=
  if Nat.ltb k (List.length t) then Ok (replace_nth t k row)
  else Raise index_out_of_range.

(** The filter lines both closing branches start with:
    [data = self.__apply_kwargs_filters([data], kwargs['filters'])[0]] and
    the update of the event's row. *)
Definition filter_data (kwargs : list (string * pyval)) (st : loop_state)
  : result loop_state :=
  match dict_get "filters" kwargs with
  | Some filters =>
      filtered <- apply_kwargs_filters F [data st] filters ;;
      data' <- list_get filtered 0 ;;
      let k := List.length (particle_list st) in
      t <- set_row (per_event st) k
             (Z.of_nat k + 1, Z.of_nat (List.length data')) ;;
      Ok {| particle_list := particle_list st; data := data';
            shared := []; per_event := t |}
  | None => Ok st
  end.

(** [particle_list.append(data)] *)
Definition append_data (st : loop_state) : loop_state :=
  {| particle_list := (particle_list st ++ [data st])%list;
     data := data st;
     shared := (shared st ++ [List.length (particle_list st)])%list;
     per_event := per_event st |}.

(** [data.append(particle)]: every position sharing the list sees it. *)
Definition append_particle (st : loop_state) (particle : Particle) : loop_state :=
  let data' := (data st ++ [particle])%list in
  {| particle_list :=
       fold_left (fun l k => replace_nth l k data') (shared st) (particle_list st);
     data := data';
     shared := shared st;
     per_event := per_event st |}.

(** [data = []] *)
Definition fresh_data (st : loop_state) : loop_state :=
  {| particle_list := particle_list st; data := []; shared := [];
     per_event := per_event st |}.

Definition first_event_header (kwargs : list (string * pyval)) : result Z :=
  match dict_get "events" kwargs with
  | Some events =>
      if isinstance_int events then
        e <- py_int events ;; Ok (1 + e)
      else
        first <- py_getitem events 0 ;; e <- py_int first ;; Ok (1 + e)
  | None => Ok 1
  end.

(** The body of [for i in range(0, num_read_lines)] for a line that was
    read. *)
Definition process_line (kwargs : list (string * pyval)) (i : nat)
  (line : string) (st : loop_state) : result loop_state :=
  if contains "#" line && contains "sigmaGen" line then
    st' <- filter_data kwargs st ;; Ok (append_data st')
  else if Nat.eqb i 0 && negb (contains "#" line)
          && negb (contains "weight" line) then
    Raise (ValueError
      ("First line of the event is not a comment line or does not contain "
       ++ quoted "weight"))
  else if contains "Event" line && contains "weight" line then
    let line := tokens_of line in
    header <- first_event_header kwargs ;;
    number <- list_get line 2 ;;
    n <- py_int (PyStr number) ;;
    if n =? header then Ok st
    else
      st' <- filter_data kwargs st ;;
      Ok (fresh_data (append_data st'))
  else
    let line := tokens_of line in
    '(particle, _) <- Particle.init table (Some "JETSCAPE")
                        (Some (map PyStr line)) ;;
    Ok (append_particle st particle).

(** The loop; an exception leaves the state of the last completed
    iteration. *)
Fixpoint read_loop (kwargs : list (string * pyval)) (num_read_lines i : nat)
  (lines : list string) (st : loop_state) : loop_state * result unit :=
  match num_read_lines with
  | O => (st, Ok tt)
  | S remaining =>
      match lines with
      | [] => (st, Raise (IndexError "Index out of range of JETSCAPE file"))
      | line :: rest =>
          match process_line kwargs i line st with
          | Ok st' => read_loop kwargs remaining (S i) rest st'
          | Raise e => (st, Raise e)
          end
      end
  end.

(** [table[start : stop]] *)
Definition slice {A : Type} (l : list A) (start stop : Z) : list A :=
  firstn (Z.to_nat stop - Z.to_nat start) (skipn (Z.to_nat start) l).

(** The block after the loop: "Correct num_output_per_event and
    num_events". *)
Definition reconcile (kwargs : list (string * pyval))
  (particle_list : list (list Particle)) (self : Loader)
  : Loader * result unit :=
  if Nat.eqb (List.length kwargs) 0
     || negb (dict_has "events" (optional_arguments_ self)) then
    if negb (Z.of_nat (List.length particle_list) =? num_events_ self) then
      (self, Raise (IndexError
         "Number of events in Jetscape file does not match the number of events specified by the comments in the Jetscape file!"))
    else (self, Ok tt)
  else
    match dict_get "events" kwargs with
    | None => (self, Raise (KeyError "events"))
    | Some events =>
        if isinstance_int events then
          match (e <- py_int events ;;
                 list_get (num_output_per_event_ self) (Z.to_nat e)) with
          | Ok update => (set_num_events (set_table self [update]) 1, Ok tt)
          | Raise e => (self, Raise e)
          end
        else if isinstance_tuple events then
          match (first <- py_getitem events 0 ;;
                 second <- py_getitem events 1 ;;
                 event_start <- py_int first ;;
                 event_end <- py_int second ;;
                 Ok (event_start, event_end)) with
          | Ok (event_start, event_end) =>
              let update :=
                slice (num_output_per_event_ self) event_start (event_end + 1) in
              (set_num_events (set_table self update)
                 (event_end - event_start + 1), Ok tt)
          | Raise e => (self, Raise e)
          end
        else (self, Ok tt)
    end.

Definition set_particle_list (fs : filesystem) (kwargs : list (string * pyval))
  (self : Loader) : Loader * result (list (list Particle)) :=
  match
    (num_read_lines <- get_num_read_lines self ;;
     lines <- open_lines fs (PATH_JETSCAPE_ self) ;;
     lines <- skip_lines self lines ;;
     Ok (num_read_lines, lines))
  with
  | Raise e => (self, Raise e)
  | Ok (num_read_lines, lines) =>
      let start :=
        {| particle_list := []; data := []; shared := [];
           per_event := num_output_per_event_ self |} in
      match read_loop kwargs (Z.to_nat num_read_lines) 0 lines start with
      | (st, Raise e) => (set_table self (per_event st), Raise e)
      | (st, Ok _) =>
          match reconcile kwargs (particle_list st)
                  (set_table self (per_event st)) with
          | (self', Ok _) => (self', Ok (particle_list st))
          | (self', Raise e) => (self', Raise e)
          end
      end
  end.

(** The checks of [load] on its keyword arguments. *)
Definition check_keys (kwargs : list (string * pyval)) : result unit :=
  if forallb (fun key => String.eqb key "events" || String.eqb key "filters"
                         || String.eqb key "particletype")
             (map fst kwargs)
  then Ok tt
  else Raise (ValueError "Unknown keyword argument used in constructor").

Definition check_events (kwargs : list (string * pyval)) : result unit :=
  match dict_get "events" kwargs with
  | Some events =>
      if isinstance_tuple events then
        _ <- check_that_tuple_contains_integers_only events ;;
        first <- py_getitem events 0 ;;
        second <- py_getitem events 1 ;;
        a <- py_int first ;;
        b <- py_int second ;;
        if b <? a then
          Raise (ValueError
            "First value of event number tuple must be smaller than second value")
        else if (a <? 0) || (b <? 0) then
          Raise (ValueError "Event numbers must be positive")
        else Ok tt
      else if isinstance_int events then
        e <- py_int events ;;
        if e <? 0 then Raise (ValueError "Event number must be positive")
        else Ok tt
      else Ok tt
  | None => Ok tt
  end.

Definition check_particletype (kwargs : list (string * pyval)) (self : Loader)
  : result Loader :=
  kind <-
    match dict_get "particletype" kwargs with
    | Some (PyStr kind) =>
        if String.eqb kind "hadron" || String.eqb kind "parton" then Ok kind
        else Raise (ValueError "'particletype' has to be 'hadron' or 'parton'")
    | Some _ =>
        Raise (TypeError "'particletype' is not given as a string value")
    | None => Ok (particle_type_ self)
    end ;;
  Ok (set_particle_type self kind
        (if String.eqb kind "hadron" then "N_hadrons" else "N_partons")).

(** [load] called with keyword arguments: the loader as the call leaves
    it, and what the call returns or raises. *)
Definition load (fs : filesystem) (kwargs : list (string * pyval))
  (self : Loader)
  : Loader * result (list (list Particle) * Z * list (Z * Z)) :=
  let self := set_optional_arguments self kwargs in
  match (_ <- check_keys kwargs ;; _ <- check_events kwargs ;;
         check_particletype kwargs self) with
  | Raise e => (self, Raise e)
  | Ok self =>
      match set_num_output_per_event fs self with
      | (self, Raise e) => (self, Raise e)
      | (self, Ok _) =>
          match set_particle_list fs kwargs self with
          | (self, Raise e) => (self, Raise e)
          | (self, Ok particle_list) =>
              (self, Ok (particle_list, num_events_ self,
                         num_output_per_event_ self))
          end
      end
  end.

End ReadPass.

(** ** The cross section on the last line *)

(** The loop of [get_last_line], the file position being [pos]:
    [while file.read(1) != b'\n': file.seek(-2, 1)].  It returns the position
    after the newline it stops at; seeking before the start of the file
    raises [OSError]. *)
Fixpoint seek_line_start (content : string) (pos : nat) : result nat :=
  match String.get pos content with
  | Some c =>
      if Ascii.eqb c newline then Ok (S pos)
      else match pos with
           | O => Raise (OSError "Invalid argument")
           | S before => seek_line_start content before
           end
  | None =>
      (* [read(1)] at the end of the file returns nothing and does not move *)
      match pos with
      | S (S before) => seek_line_start content before
      | _ => Raise (OSError "Invalid argument")
      end
  end.

(** [file.readline()] at the start of [s]: up to and including the next
    newline. *)
Fixpoint readline (s : string) : string :=
  match s with
  | EmptyString => EmptyString
  | String c rest =>
      if Ascii.eqb c newline then String c EmptyString
      else String c (readline rest)
  end.

(** [get_last_line(file_path)]; the file is read as bytes and decoded, which
    is the identity on the ASCII text modelled here. *)
Definition get_last_line (fs : filesystem) (file_path : string)
  : result string :=
  match fs file_path with
  | None => Raise (FileNotFoundError "No such file or directory")
  | Some content =>
      let size := String.length content in
      if Nat.ltb size 2 then Raise (OSError "Invalid argument")
      else
        start <- seek_line_start content (size - 2) ;;
        Ok (strip (readline (String.substring start (size - start) content)))
  end.

Section SigmaGen.

(** The built-in [float(word)] on strings: the double it denotes, or [None]
    where Python raises [ValueError]. *)
Context {float : Type} (py_float : string -> option float).

(** The loop over the words; it stops at the second number. *)
Fixpoint collect_numbers (words : list string) (numbers : list float)
  : list float :=
  match words with
  | [] => numbers
  | word :: rest =>
      match py_float word with
      | Some number =>
          let numbers := (numbers ++ [number])%list in
          if Nat.eqb (List.length numbers) 2 then numbers
          else collect_numbers rest numbers
      | None => collect_numbers rest numbers
      end
  end.

Definition get_sigmaGen (fs : filesystem) (self : Loader)
  : result (float * float) :=
  last_line <- get_last_line fs (PATH_JETSCAPE_ self) ;;
  let words := split_whitespace last_line in
  let numbers := collect_numbers words [] in
  first <- list_get numbers 0 ;;
  second <- list_get numbers 1 ;;
  Ok (first, second).

(** Vocabulary of the properties: the words of a line that are numbers, in
    their order. *)
Fixpoint numbers_of (words : list string) : list float :=
  match words with
  | [] => []
  | word :: rest =>
      match py_float word with
      | Some number => number :: numbers_of rest
      | None => numbers_of rest
      end
  end.

End SigmaGen.

Fixpoint no_newline (s : string) : bool :=
  match s with
  | EmptyString => true
  | String c rest => negb (Ascii.eqb c newline) && no_newline rest
  end.

(** A file of two lines or more: [before], a newline, and the last line
    [body], with or without its own newline [tail]. *)
Definition two_or_more_lines (content before body tail : string) : Prop :=
  content = before ++ String newline (body ++ tail) /\
  no_newline body = true /\
  (tail = EmptyString \/ tail = String newline EmptyString) /\
  body ++ tail <> EmptyString.

(** The names [__apply_kwargs_filters] dispatches on, and the three among
    them that are switches. *)
Definition filter_names : list string :=
  ["charged_particles"; "uncharged_particles"; "strange_particles";
   "particle_species"; "remove_particle_species"; "lower_event_energy_cut";
   "pt_cut"; "rapidity_cut"; "pseudorapidity_cut"; "spatial_rapidity_cut";
   "multiplicity_cut"; "particle_status"].

Definition switches : list string :=
  ["charged_particles"; "uncharged_particles"; "strange_particles"].

(** The keyword arguments [load] knows. *)
Definition load_options : list string := ["events"; "filters"; "particletype"].

(** The lines the events of [rows] take in the file: one header line and
    the declared number of particle lines each. *)
Definition event_lines (rows : list (Z * Z)) : Z :=
  fold_right (fun row total => snd row + 1 + total) 0 rows.

(** A state of the read pass that holds no particle. *)
Definition no_particles (st : loop_state) : Prop :=
  data st = [] /\ Forall (fun event => event = []) (particle_list st).

(** The lines the index pass reads an event from. *)
Definition is_event_header (defining line : string) : bool :=
  contains "#" line && contains defining line.

(** A state of the read pass whose table holds, for every event closed so
    far, its number in the list and its length. *)
Definition counted (st : loop_state) : Prop :=
  forall i, (i < List.length (particle_list st))%nat ->
    nth_error (per_event st) i =
    Some (Z.of_nat i + 1,
          Z.of_nat (List.length (nth i (particle_list st) []))).

Definition get_particle_type_defining_string (self : Loader) : string :=
  particle_type_defining_string_ self.

Definition get_particle_type (self : Loader) : string :=
  particle_type_ self.

End JetscapeLoader.

(* ================================================================== *)
(** * Concrete inputs *)
(* ================================================================== *)

Module Examples.
Import Py Particle ReactionPlaneFlow JetscapeLoader.

(** A fragment of the PDG table: pions, protons and neutrons; the code
    99999 has the digits of a valid code, the code 12345678 has not. *)
Definition sample_table : PDGTable :=
  {| pdg_is_valid := fun id =>
       (Z.abs id =? 211) || (id =? 111) || (Z.abs id =? 2212)
       || (Z.abs id =? 2112) || (Z.abs id =? 99999);
     pdg_charge := fun id =>
       if (id =? 211) || (id =? 2212) then PyFloat 1
       else if (id =? -211) || (id =? -2212) then PyFloat (-1)
       else PyFloat 0;
     pdg_is_meson := fun id => (Z.abs id =? 211) || (id =? 111);
     pdg_is_baryon := fun id => (Z.abs id =? 2212) || (Z.abs id =? 2112);
     pdg_is_hadron := fun id =>
       (Z.abs id =? 211) || (id =? 111) || (Z.abs id =? 2212)
       || (Z.abs id =? 2112);
     pdg_has_strange := fun _ => false;
     pdg_has_charm := fun _ => false;
     pdg_has_bottom := fun _ => false;
     pdg_has_top := fun _ => false;
     pdg_J := fun id =>
       if (Z.abs id =? 211) || (id =? 111) then PyFloat 0 else PyFloat 0.5;
     pdg_j_spin := fun id =>
       if (Z.abs id =? 211) || (id =? 111) then PyInt 1 else PyInt 2 |}.

(** A neutron line of an old Oscar2013Extended file: 20 of the 22 columns. *)
Definition old_extended_row : list pyval :=
  map PyInt [200; 1; 2; 66; 1; 1; 0; 0; 0; 2112; 0; 0; 0; 5; 1; 0; 0; 0; 0; 0].

(** A JETSCAPE hadron line with a PDG code that is not valid. *)
Definition unknown_hadron_row : list pyval :=
  [PyInt 0; PyInt 12345678; PyInt 27; PyFloat 2; PyFloat 1; PyFloat 1;
   PyFloat 1].

(** The words of a JETSCAPE pion line, as the loader splits them. *)
Definition pion_words : list pyval :=
  map PyStr ["0"; "211"; "27"; "1.0"; "0.5"; "0.5"; "0.5"].

(** [p = Particle(); p.px = vx; p.py = vy; p.weight = w] *)
Definition particle_at (vx vy w : R) : Particle :=
  setattr (setattr (setattr blank px_ (PyFloat vx)) py_ (PyFloat vy))
          weight_ (PyFloat w).

(** [p = Particle(); p.t = vt; p.z = vz] *)
Definition particle_in_spacetime (vt vz : R) : Particle :=
  setattr (setattr blank t_ (PyFloat vt)) z_ (PyFloat vz).

(** [p = Particle(); p.E = e; p.px = vx; p.py = vy; p.pz = vz] *)
Definition particle_with_momentum (e vx vy vz : R) : Particle :=
  setattr (setattr (setattr (setattr blank E_ (PyFloat e)) px_ (PyFloat vx))
                   py_ (PyFloat vy)) pz_ (PyFloat vz).

(** [ReactionPlaneFlow(n=2)] *)
Definition flow2 : ReactionPlaneFlow := {| n_ := 2 |}.

(** An event of two particles whose weights cancel, followed by an event of
    one particle. *)
Definition opposite_weights : list (list Particle) :=
  [[particle_at 1 0 1; particle_at 0 1 (-1)]; [particle_at 1 0 1]].

(** Lines of a JETSCAPE file. *)
Definition tab_line (fields : list string) : string :=
  String.concat (String tab EmptyString) fields ++ String newline EmptyString.

Definition text_line (text : string) : string :=
  text ++ String newline EmptyString.

Definition file_header : string :=
  tab_line ["#"; "JETSCAPE_FINAL_STATE"; "v2"; "|"; "N"; "pid"; "status";
            "E"; "Px"; "Py"; "Pz"].

Definition event_header (number count : string) : string :=
  tab_line ["#"; "Event"; number; "weight"; "1"; "EPangle"; "0";
            "N_hadrons"; count].

Definition sigma_line : string :=
  tab_line ["#"; "sigmaGen"; "0.1"; "sigmaErr"; "0.01"].

(** Two events of one pion each. *)
Definition two_pions : string :=
  file_header ++
  event_header "1" "1" ++ text_line "0 211 27 1.0 0.5 0.5 0.5" ++
  event_header "2" "1" ++ text_line "0 -211 27 1.0 0.5 0.5 0.5" ++
  sigma_line.

(** Two events without particles. *)
Definition two_empty_events : string :=
  file_header ++ event_header "1" "0" ++ event_header "2" "0" ++ sigma_line.

(** A disk holding one file. *)
Definition disk (path content : string) : filesystem :=
  fun p => if String.eqb p path then Some content else None.

(** [JetscapeLoader(path)] *)
Definition loader_for (path : string) : Loader :=
  {| PATH_JETSCAPE_ := path; particle_type_ := "hadron";
     particle_type_defining_string_ := ""; optional_arguments_ := [];
     num_output_per_event_ := []; num_events_ := 0 |}.

(** [events=(0, 0)] *)
Definition first_event_only : list (string * pyval) :=
  [("events", PyTuple [PyInt 0; PyInt 0])].

(** Filters that only record their call: the name of the filter and its
    parameter are appended to the record that stands for the event. *)
Definition recording_filters : FilterLib (list (string * pyval)) :=
  let flag name := fun event => Ok (event ++ [(name, PyNone)])%list in
  let cut name := fun event parameter => Ok (event ++ [(name, parameter)])%list in
  {| charged_particles := flag "charged_particles";
     uncharged_particles := flag "uncharged_particles";
     strange_particles := flag "strange_particles";
     particle_species := cut "particle_species";
     remove_particle_species := cut "remove_particle_species";
     lower_event_energy_cut := cut "lower_event_energy_cut";
     pt_cut := cut "pt_cut";
     rapidity_cut := cut "rapidity_cut";
     pseudorapidity_cut := cut "pseudorapidity_cut";
     spatial_rapidity_cut := cut "spatial_rapidity_cut";
     multiplicity_cut := cut "multiplicity_cut";
     particle_status := cut "particle_status" |}.

Definition pt_window : pyval := PyTuple [PyInt 1; PyInt 2].

(** Filters that return the events as they are. *)
Definition identity_filters : FilterLib (list (list Particle)) :=
  let flag := fun event : list (list Particle) => Ok event in
  let cut := fun (event : list (list Particle)) (_ : pyval) => Ok event in
  {| charged_particles := flag;
     uncharged_particles := flag;
     strange_particles := flag;
     particle_species := cut;
     remove_particle_species := cut;
     lower_event_energy_cut := cut;
     pt_cut := cut;
     rapidity_cut := cut;
     pseudorapidity_cut := cut;
     spatial_rapidity_cut := cut;
     multiplicity_cut := cut;
     particle_status := cut |}.

(** A particle with momentum and energy, and the weight 1. *)
Definition weighted_pion : Particle :=
  setattr (setattr (particle_at 1 0 1) E_ (PyFloat 2)) pz_ (PyFloat 1).

(** A particle with a transverse momentum and no weight. *)
Definition unweighted_particle : Particle :=
  setattr (setattr blank px_ (PyFloat 1)) py_ (PyFloat 0).

(** A loader after the index pass of a file of two events of one particle
    each, asked for the second event. *)
Definition indexed_loader : Loader :=
  {| PATH_JETSCAPE_ := "run.dat"; particle_type_ := "hadron";
     particle_type_defining_string_ := "N_hadrons";
     optional_arguments_ := [("events", PyTuple [PyInt 1; PyInt 1])];
     num_output_per_event_ := [(1, 1); (2, 1)]; num_events_ := 2 |}.

(** [float(word)], cut down to the words that are whole numbers. *)
Definition whole_number (word : string) : option Z := int_of_string word.

End Examples.

(* ================================================================== *)
(** * Properties of Particle.py *)
(* ================================================================== *)

Module ParticleFacts.
Import Py Particle Examples.

(** ** Numbers *)

Lemma to_real_number v : is_number v = true -> exists r, to_real v = Ok r.
Proof. destruct v; simpl; try discriminate; eauto. Qed.

Lemma py_int_number v : is_number v = true -> exists i, py_int v = Ok i.
Proof. destruct v; simpl; try discriminate; eauto. Qed.

Lemma getter_number a name p :
  is_number (p a) = true -> getter a name p = Ok (p a).
Proof.
  unfold getter. destruct (p a); simpl; try discriminate; reflexivity.
Qed.

Lemma nth_number (arr : list pyval) k :
  numeric arr -> (k < List.length arr)%nat ->
  is_number (nth k arr PyNone) = true.
Proof.
  intros H Hk. unfold numeric in H. rewrite Forall_forall in H.
  apply H. apply nth_In. exact Hk.
Qed.

(** ** Attribute assignment *)

Lemma attr_beq_eq a b : attr_beq a b = true <-> a = b.
Proof.
  split; [|intros ->; destruct b; reflexivity].
  destruct a, b; simpl; intros H; solve [reflexivity | discriminate H].
Qed.

Lemma setattr_same p a v : setattr p a v a = v.
Proof.
  unfold setattr. destruct (attr_beq a a) eqn:Hb; [reflexivity|].
  assert (attr_beq a a = true) by (apply attr_beq_eq; reflexivity). congruence.
Qed.

Lemma setattr_other p a v b : a <> b -> setattr p a v b = p b.
Proof.
  intros N. unfold setattr. destruct (attr_beq a b) eqn:Hb; [|reflexivity].
  apply attr_beq_eq in Hb. contradiction.
Qed.

(** The loop over the columns leaves the other attributes alone ... *)
Lemma assign_columns_other arr cols : forall self a,
  ~ In a (map fst cols) -> assign_columns arr cols self a = self a.
Proof.
  unfold assign_columns.
  induction cols as [|[b i] rest IH]; intros self a Hn; cbn [fold_left];
    [reflexivity|].
  rewrite IH by (intros H; apply Hn; right; exact H).
  assert (b <> a) by (intros ->; apply Hn; left; reflexivity).
  destruct (Nat.ltb _ _); apply setattr_other; assumption.
Qed.

(** ... and binds each column's attribute to the array entry, or to [None]
    past the end of the array. *)
Lemma assign_columns_column arr cols : forall self a idx,
  NoDup (map fst cols) -> In (a, idx) cols ->
  assign_columns arr cols self a = nth idx arr PyNone.
Proof.
  induction cols as [|[b i] rest IH]; intros self a idx Hnd Hin; [destruct Hin|].
  inversion Hnd as [|? ? Hnotin Hnd']; subst.
  destruct Hin as [Heq|Hin].
  - injection Heq as -> ->.
    change (assign_columns arr ((a, idx) :: rest) self)
      with (assign_columns arr rest
              (if Nat.ltb (List.length arr) (idx + 1)
               then setattr self a PyNone
               else setattr self a (nth idx arr PyNone))).
    rewrite assign_columns_other by exact Hnotin.
    destruct (Nat.ltb (List.length arr) (idx + 1)) eqn:L; rewrite setattr_same.
    + apply Nat.ltb_lt in L. symmetry. apply nth_overflow. lia.
    + reflexivity.
  - change (assign_columns arr ((b, i) :: rest) self)
      with (assign_columns arr rest
              (if Nat.ltb (List.length arr) (i + 1)
               then setattr self b PyNone
               else setattr self b (nth i arr PyNone))).
    apply IH; assumption.
Qed.

Lemma length_accepted_spec input_format columns len :
  length_accepted input_format columns len = true <->
  accepted_length input_format (List.length columns) len.
Proof.
  unfold length_accepted, accepted_length, tolerant.
  rewrite orb_true_iff, !andb_true_iff, orb_true_iff, Nat.eqb_eq,
    !Nat.leb_le, !String.eqb_eq.
  tauto.
Qed.

Ltac nodup_columns :=
  repeat (constructor; [simpl; intuition discriminate|]); constructor.

(** Every layout names each attribute once, never [pdg_valid_], and has the
    PDG code among its first columns. *)
Lemma columns_facts input_format columns :
  dict_get input_format attribute_mapping = Some columns ->
  NoDup (map fst columns) /\ ~ In pdg_valid_ (map fst columns) /\
  exists idx, In (pdg_, idx) columns /\ (idx + 2 < List.length columns)%nat.
Proof.
  unfold attribute_mapping. cbn [dict_get].
  repeat (destruct (String.eqb input_format _);
          [intros H; injection H as <-;
           split; [nodup_columns|];
           split; [simpl; intuition discriminate|];
           eexists; split; [simpl; eauto 25 | simpl; lia] |]).
  discriminate.
Qed.

Lemma declared_columns_mapping input_format N :
  In (input_format, N) declared_columns ->
  exists columns,
    dict_get input_format attribute_mapping = Some columns /\
    List.length columns = N.
Proof.
  unfold declared_columns.
  intros [H|[H|[H|[H|[H|[]]]]]]; injection H as <- <-; eexists; split;
    reflexivity.
Qed.

(** ** Kinematics of numeric particles *)

Lemma p_abs_number p :
  is_number (p px_) = true -> is_number (p py_) = true ->
  is_number (p pz_) = true -> exists r, p_abs p = Ok r.
Proof.
  intros Hx Hy Hz.
  destruct (to_real_number _ Hx) as [rx Hrx].
  destruct (to_real_number _ Hy) as [ry Hry].
  destruct (to_real_number _ Hz) as [rz Hrz].
  unfold p_abs, px, py, pz, pow2. rewrite !getter_number by assumption.
  cbn [bind]. rewrite Hrx, Hry, Hrz. cbn [bind]. eauto.
Qed.

Lemma compute_mass_number p :
  is_number (p E_) = true -> is_number (p px_) = true ->
  is_number (p py_) = true -> is_number (p pz_) = true ->
  exists m, compute_mass_from_energy_momentum p = Ok (PyFloat m).
Proof.
  intros HE Hx Hy Hz.
  destruct (to_real_number _ HE) as [re Hre].
  destruct (p_abs_number p Hx Hy Hz) as [r Hr].
  unfold compute_mass_from_energy_momentum, E, pow2.
  rewrite !getter_number by assumption. cbn [bind].
  rewrite Hre, Hr. cbn [bind].
  destruct (Rlt_dec _ _); [destruct (Rlt_dec _ _)|]; eauto.
Qed.

(** ** Construction *)

Lemma validate_pdg_number table p :
  is_number (p pdg_) = true ->
  exists valid,
    validate_pdg table p =
    Ok (setattr p pdg_valid_ (PyBool valid),
        if valid then [] else [PDGNotValid (p pdg_)]).
Proof.
  intros H. destruct (py_int_number _ H) as [i Hi].
  unfold validate_pdg, PDGID. rewrite Hi. cbn [bind]. eauto.
Qed.

Lemma initialize_rejects table self input_format columns particle_array :
  dict_get input_format attribute_mapping = Some columns ->
  ~ accepted_length input_format (List.length columns)
      (List.length particle_array) ->
  initialize_from_array table self input_format particle_array =
  Raise (ValueError "The input file is corrupted!").
Proof.
  intros Hc Hn. unfold initialize_from_array. rewrite Hc.
  destruct (length_accepted _ _ _) eqn:Hb; [|reflexivity].
  apply length_accepted_spec in Hb. contradiction.
Qed.

Lemma initialize_plain table self input_format columns particle_array :
  dict_get input_format attribute_mapping = Some columns ->
  String.eqb input_format "JETSCAPE" = false ->
  accepted_length input_format (List.length columns)
    (List.length particle_array) ->
  numeric particle_array ->
  exists valid,
    initialize_from_array table self input_format particle_array =
    Ok (setattr (assign_columns particle_array columns self) pdg_valid_
          (PyBool valid),
        if valid then []
        else [PDGNotValid (assign_columns particle_array columns self pdg_)]).
Proof.
  intros Hc Hj Ha Hnum. unfold initialize_from_array. rewrite Hc.
  apply length_accepted_spec in Ha as Hb. rewrite Hb, Hj. cbn [bind].
  apply validate_pdg_number.
  destruct (columns_facts _ _ Hc) as (Hnd & _ & idx & Hin & Hidx).
  rewrite (assign_columns_column _ _ _ _ _ Hnd Hin).
  apply nth_number; [exact Hnum|].
  destruct Ha as [->|[_ Hr]]; lia.
Qed.

(** A JETSCAPE particle built from seven numbers: the mass is computed, and
    the charge is [None], because [compute_charge_from_pdg] runs while
    [pdg_valid_] is still [None]. *)
Lemma initialize_jetscape table particle_array :
  List.length particle_array = 7%nat -> numeric particle_array ->
  exists m code,
    py_int (nth 1 particle_array PyNone) = Ok code /\
    initialize_from_array table blank "JETSCAPE" particle_array =
    Ok (setattr
          (setattr
             (setattr (assign_columns particle_array JETSCAPE_columns blank)
                      mass_ (PyFloat m))
             charge_ PyNone)
          pdg_valid_ (PyBool (pdg_is_valid table code)),
        if pdg_is_valid table code then []
        else [PDGNotValid (nth 1 particle_array PyNone)]).
Proof.
  intros Hlen Hnum.
  destruct particle_array as [|a0 [|a1 [|a2 [|a3 [|a4 [|a5 [|a6 [|]]]]]]]];
    try discriminate Hlen.
  unfold numeric in Hnum.
  repeat match goal with
         | H : Forall _ (_ :: _) |- _ => inversion H; subst; clear H
         end.
  destruct (compute_mass_number
              (assign_columns [a0; a1; a2; a3; a4; a5; a6] JETSCAPE_columns
                 blank))
    as [m Hm]; try assumption.
  destruct (py_int_number a1) as [i Hi]; [assumption|].
  exists m, i. split; [exact Hi|].
  unfold initialize_from_array.
  cbn [dict_get attribute_mapping String.eqb Ascii.eqb Bool.eqb].
  change (length_accepted "JETSCAPE" JETSCAPE_columns
            (List.length [a0; a1; a2; a3; a4; a5; a6])) with true.
  cbv iota. rewrite Hm. cbn [bind].
  change (compute_charge_from_pdg table _) with (@Ok pyval PyNone) at 1.
  cbn [bind]. unfold validate_pdg.
  change (setattr _ charge_ PyNone pdg_) with a1.
  unfold PDGID. rewrite Hi. reflexivity.
Qed.

(** C6, as amended.  For each of the five formats, with its declared
    column count [N] (12, 22, 22, 21, 7): constructing a particle from an
    array of numbers succeeds when the array has [N] entries, or, for Oscar2013Extended and
    Oscar2013Extended_IC, between [N-2] and [N] entries, every column's
    attribute being bound to its array entry and the attributes of the
    missing trailing columns left [None]; for every other length (whatever
    the entries are) the constructor raises the corrupted-input
    [ValueError]. *)
Theorem construction_length_check table input_format N particle_array :
  In (input_format, N) declared_columns ->
  exists columns,
    dict_get input_format attribute_mapping = Some columns /\
    List.length columns = N /\
    (accepted_length input_format N (List.length particle_array) ->
     numeric particle_array ->
     exists self warnings,
       init table (Some input_format) (Some particle_array)
       = Ok (self, warnings) /\
       forall attribute index, In (attribute, index) columns ->
         self attribute = nth index particle_array PyNone /\
         ((List.length particle_array <= index)%nat ->
          self attribute = PyNone)) /\
    (~ accepted_length input_format N (List.length particle_array) ->
     init table (Some input_format) (Some particle_array) =
     Raise (ValueError "The input file is corrupted!")).
Proof.
  intros Hd. destruct (declared_columns_mapping _ _ Hd) as (columns & Hc & HN).
  exists columns. split; [exact Hc|]. split; [exact HN|]. subst N.
  destruct (columns_facts _ _ Hc) as (Hnd & Hpv & _).
  assert (Hfields : forall (self : Particle) attribute index,
            In (attribute, index) columns ->
            (forall a, In a (map fst columns) ->
                       self a = assign_columns particle_array columns blank a) ->
            self attribute = nth index particle_array PyNone /\
            ((List.length particle_array <= index)%nat ->
             self attribute = PyNone)).
  { intros self attribute index Hin Hself.
    assert (Hv : self attribute = nth index particle_array PyNone).
    { rewrite Hself
        by (apply in_map_iff; exists (attribute, index); split;
            [reflexivity|exact Hin]).
      apply assign_columns_column; assumption. }
    split; [exact Hv|]. intros Hle. rewrite Hv. apply nth_overflow. exact Hle. }
  split.
  - intros Ha Hnum. cbn [init].
    destruct (String.eqb input_format "JETSCAPE") eqn:Hj.
    + apply String.eqb_eq in Hj. subst input_format.
      injection Hc as <-.
      assert (Hlen : List.length particle_array = 7%nat).
      { destruct Ha as [H|[[H|H] _]];
          [exact H | discriminate H | discriminate H]. }
      destruct (initialize_jetscape table particle_array Hlen Hnum)
        as (m & code & _ & ->).
      do 2 eexists. split; [reflexivity|].
      intros attribute index Hin. apply (Hfields _ attribute index Hin).
      intros a Ha'.
      rewrite !setattr_other; [reflexivity| | |];
        intros <-; simpl in Ha'; intuition discriminate.
    + destruct (initialize_plain table blank _ _ _ Hc Hj Ha Hnum)
        as (valid & ->).
      do 2 eexists. split; [reflexivity|].
      intros attribute index Hin. apply (Hfields _ attribute index Hin).
      intros a Ha'. apply setattr_other. intros <-. contradiction.
  - intros Hn. cbn [init]. apply (initialize_rejects _ _ _ _ _ Hc Hn).
Qed.

(** An Oscar2013Extended line of 20 numbers is accepted; baryon number and
    strangeness stay unset. *)
Lemma construction_length_check_witness :
  exists self warnings,
    init sample_table (Some "Oscar2013Extended") (Some old_extended_row)
    = Ok (self, warnings) /\
    self baryon_number_ = PyNone /\ self strangeness_ = PyNone /\
    self pdg_ = PyInt 2112.
Proof.
  destruct (construction_length_check sample_table "Oscar2013Extended" 22
              old_extended_row)
    as (columns & Hc & _ & Hok & _).
  - simpl. auto.
  - injection Hc as <-.
    destruct Hok as (self & warnings & Hinit & Hfields).
    + right. split; [left; reflexivity | simpl; lia].
    + unfold numeric, old_extended_row. repeat constructor.
    + exists self, warnings. split; [exact Hinit|].
      split; [apply (Hfields baryon_number_ 20%nat); simpl; auto 25|].
      split; [apply (Hfields strangeness_ 21%nat); simpl; auto 25|].
      apply (Hfields pdg_ 9%nat); simpl; auto 25.
Defined.

(** C6, as stated, fails.  Seven entries are the declared column count of
    JETSCAPE, yet the construction from the seven words of a JETSCAPE line
    does not succeed: the words are strings, and the mass computation
    raises [TypeError] on the first of them it squares. *)
Lemma construction_of_words_raises :
  In ("JETSCAPE", 7%nat) declared_columns /\
  List.length pion_words = 7%nat /\
  accepted_length "JETSCAPE" 7 (List.length pion_words) /\
  init sample_table (Some "JETSCAPE") (Some pion_words)
  = Raise unsupported_operand.
Proof.
  split; [simpl; auto 10|]. split; [reflexivity|].
  split; [left; reflexivity|]. reflexivity.
Qed.

(** ** Queries on an invalid PDG code *)

Lemma pdg_query_invalid {A} (default : A) field self :
  truthy (self pdg_valid_) = false ->
  pdg_query default field self = Ok default.
Proof. intros H. unfold pdg_query, pdg_not_valid. rewrite H. reflexivity. Qed.

(** The methods derived from the PDG code return their neutral default, and
    raise nothing, when the code is not valid. *)
Lemma invalid_pdg_neutral_defaults table self :
  truthy (self pdg_valid_) = false ->
  compute_charge_from_pdg table self = Ok PyNone /\
  spin table self = Ok PyNone /\
  spin_degeneracy table self = Ok PyNone /\
  is_meson table self = Ok false /\
  is_baryon table self = Ok false /\
  is_hadron table self = Ok false /\
  is_strange table self = Ok false /\
  is_heavy_flavor table self = Ok false.
Proof.
  intros H.
  repeat split; try (apply pdg_query_invalid; exact H).
  unfold is_heavy_flavor, pdg_not_valid. rewrite H. reflexivity.
Qed.

(** Every JETSCAPE particle built from numbers has its charge unset, valid
    PDG code or not, so that reading the property [charge] raises. *)
Lemma jetscape_charge_is_unset table particle_array :
  List.length particle_array = 7%nat -> numeric particle_array ->
  exists self warnings,
    init table (Some "JETSCAPE") (Some particle_array) = Ok (self, warnings) /\
    self charge_ = PyNone /\
    charge self = Raise (ValueError "charge not set").
Proof.
  intros Hlen Hnum. cbn [init].
  destruct (initialize_jetscape table particle_array Hlen Hnum)
    as (m & code & _ & ->).
  do 2 eexists. split; [reflexivity|].
  assert (Hc : setattr
    (setattr (setattr (assign_columns particle_array JETSCAPE_columns blank)
                mass_ (PyFloat m)) charge_ PyNone) pdg_valid_
       (PyBool (pdg_is_valid table code)) charge_
    = PyNone).
  { rewrite setattr_other by discriminate. apply setattr_same. }
  split; [exact Hc|]. unfold charge, getter. rewrite Hc. reflexivity.
Qed.

(** C7, at the failing inputs.  For every PDG table and every JETSCAPE
    array of seven numbers whose PDG code the table does not accept, the
    particle is constructed with the warning, its [pdg_valid_] is [False]
    and [compute_charge_from_pdg] returns [None]; but the query [charge]
    raises [ValueError] instead of returning [None]. *)
Theorem invalid_pdg_charge_raises table particle_array code :
  List.length particle_array = 7%nat -> numeric particle_array ->
  py_int (nth 1 particle_array PyNone) = Ok code ->
  pdg_is_valid table code = false ->
  exists self,
    init table (Some "JETSCAPE") (Some particle_array)
    = Ok (self, [PDGNotValid (nth 1 particle_array PyNone)]) /\
    self pdg_valid_ = PyBool false /\
    compute_charge_from_pdg table self = Ok PyNone /\
    charge self = Raise (ValueError "charge not set").
Proof.
  intros Hlen Hnum Hcode Hinvalid.
  destruct (initialize_jetscape table particle_array Hlen Hnum)
    as (m & code' & Hcode' & H).
  rewrite Hcode in Hcode'. injection Hcode' as <-.
  rewrite Hinvalid in H. eexists.
  split; [cbn [init]; rewrite H; reflexivity|].
  split; [apply setattr_same|].
  split.
  - apply invalid_pdg_neutral_defaults. rewrite setattr_same. reflexivity.
  - unfold charge, getter. rewrite setattr_other by discriminate.
    rewrite setattr_same. reflexivity.
Qed.

(** The JETSCAPE particle with the code 12345678, which is not a valid PDG
    code. *)
Lemma invalid_pdg_charge_raises_witness :
  exists self,
    init sample_table (Some "JETSCAPE") (Some unknown_hadron_row)
    = Ok (self, [PDGNotValid (PyInt 12345678)]) /\
    self pdg_valid_ = PyBool false /\
    compute_charge_from_pdg sample_table self = Ok PyNone /\
    charge self = Raise (ValueError "charge not set").
Proof.
  apply (invalid_pdg_charge_raises sample_table unknown_hadron_row 12345678).
  - reflexivity.
  - unfold numeric, unknown_hadron_row. repeat constructor.
  - reflexivity.
  - reflexivity.
Defined.

End ParticleFacts.

(* ================================================================== *)
(** * Properties of flow/ReactionPlaneFlow.py *)
(* ================================================================== *)

Module FlowFacts.
Import Py Particle ReactionPlaneFlow Examples ParticleFacts.

Local Open Scope R_scope.

(** ** The accessors on numeric particles *)

Lemma pt_abs_number p :
  is_number (p px_) = true -> is_number (p py_) = true ->
  exists rx ry, to_real (p px_) = Ok rx /\ to_real (p py_) = Ok ry /\
                pt_abs p = Ok (sqrt (rx ^ 2 + ry ^ 2)).
Proof.
  intros Hx Hy.
  destruct (to_real_number _ Hx) as [rx Hrx].
  destruct (to_real_number _ Hy) as [ry Hry].
  exists rx, ry. repeat split; auto.
  unfold pt_abs, px, py. rewrite !getter_number by assumption.
  unfold pow2. simpl. rewrite Hrx. simpl. rewrite Hry. reflexivity.
Qed.

Lemma pt_abs_inv p pt :
  pt_abs p = Ok pt ->
  exists rx ry, is_number (p px_) = true /\ is_number (p py_) = true /\
                to_real (p px_) = Ok rx /\ to_real (p py_) = Ok ry /\
                pt = sqrt (rx ^ 2 + ry ^ 2).
Proof.
  unfold pt_abs, px, py, getter, pow2.
  destruct (p px_) eqn:Hx; simpl; try discriminate;
  destruct (p py_) eqn:Hy; simpl; try discriminate;
  intros H; injection H as <-; do 2 eexists; repeat split; reflexivity.
Qed.

Lemma phi_number p :
  is_number (p px_) = true -> is_number (p py_) = true ->
  exists r, phi p = Ok r.
Proof.
  intros Hx Hy.
  destruct (to_real_number _ Hx) as [rx Hrx].
  destruct (to_real_number _ Hy) as [ry Hry].
  unfold phi, px, py, np_abs. rewrite !getter_number by assumption.
  simpl. rewrite Hrx. simpl. rewrite Hry. simpl.
  destruct (Rlt_dec (Rabs rx) 1e-6); [destruct (Rlt_dec (Rabs ry) 1e-6)|];
    eauto.
Qed.

Lemma sqrt_squares_zero rx ry :
  sqrt (rx ^ 2 + ry ^ 2) = 0 -> rx = 0 /\ ry = 0.
Proof.
  intros H. apply sqrt_eq_0 in H; [|nra]. split; nra.
Qed.

(** A particle of zero transverse momentum has the conventional angle 0. *)
Lemma phi_zero_pt p : pt_abs p = Ok 0 -> phi p = Ok 0.
Proof.
  intros H. destruct (pt_abs_inv _ _ H) as (rx & ry & Hx & Hy & Hrx & Hry & Hs).
  symmetry in Hs. apply sqrt_squares_zero in Hs. destruct Hs as [-> ->].
  unfold phi, px, py, np_abs. rewrite !getter_number by assumption.
  cbn [bind]. rewrite Hrx, Hry. cbn [bind].
  rewrite Rabs_R0.
  destruct (Rlt_dec 0 1e-6) as [_|N]; [reflexivity | exfalso; apply N; lra].
Qed.

Lemma flow_weight_number p :
  is_number (p weight_) = true -> flow_weight p = Ok (p weight_).
Proof.
  intros H. unfold flow_weight, weight. rewrite getter_number by assumption.
  simpl. destruct (p weight_); simpl in *; try discriminate; reflexivity.
Qed.

Lemma weight_or_one_number p :
  is_number (p weight_) = true -> to_real (p weight_) = Ok (weight_or_one p).
Proof.
  unfold weight_or_one.
  destruct (p weight_); simpl; try discriminate; reflexivity.
Qed.

(** The property [weight] raises on an unset weight: the default of
    [flow_weight] is never taken. *)
Lemma flow_weight_unset p :
  p weight_ = PyNone -> flow_weight p = Raise (ValueError "weight not set").
Proof. intros H. unfold flow_weight, weight, getter. rewrite H. reflexivity. Qed.

(** ** The factor [pt**n * exp(..) / pt**n] *)

Lemma flow_factor_nonzero n pt ph :
  pt <> 0 -> flow_factor n pt ph = cexp_i (IZR n * ph).
Proof.
  intros H. unfold flow_factor, cexp_i, cscale, np_cdiv.
  assert (Hp : pt ^ Z.to_nat n <> 0) by (apply pow_nonzero; assumption).
  destruct (Req_dec_T (pt ^ Z.to_nat n) 0) as [Hz|_]; [contradiction|].
  f_equal; field; assumption.
Qed.

Lemma flow_factor_zero n ph :
  (0 < n)%Z -> flow_factor n 0 ph = Cnan.
Proof.
  intros H. unfold flow_factor, cexp_i, cscale, np_cdiv.
  assert (Hp : 0 ^ Z.to_nat n = 0) by (apply pow_i; lia).
  rewrite Hp. destruct (Req_dec_T 0 0) as [_|N];
    [reflexivity|contradiction N; reflexivity].
Qed.

(** The dividend of the factor vanishes with its divisor: the division is
    [0/0] or a division by a non-zero number. *)
Lemma flow_factor_dividend n pt ph :
  pt ^ Z.to_nat n = 0 ->
  cscale (pt ^ Z.to_nat n) (cexp_i (IZR n * ph)) = czero.
Proof.
  intros Hz. rewrite Hz. unfold cscale, cexp_i, czero. f_equal; ring.
Qed.

(** ** One event *)

Lemma particle_step_contributes n p a b w0 :
  contributes p ->
  particle_step n p (Cfin a b, w0) =
  Ok (Cfin (a + weighted_cos n p) (b + weighted_sin n p),
      w0 + weight_or_one p).
Proof.
  intros (Hx & Hy & Hw & Hpt).
  destruct (pt_abs_number p Hx Hy) as (rx & ry & _ & _ & Hp).
  destruct (phi_number p Hx Hy) as (ph & Hph).
  remember (sqrt (rx ^ 2 + ry ^ 2)) as pt eqn:Hdef. clear Hdef.
  assert (Hnz : pt <> 0) by congruence.
  unfold particle_step. rewrite flow_weight_number by assumption. simpl.
  rewrite Hp. simpl. rewrite Hph. simpl.
  rewrite weight_or_one_number by assumption. simpl.
  rewrite flow_factor_nonzero by assumption.
  unfold weighted_cos, weighted_sin, angle. rewrite Hph. reflexivity.
Qed.

Lemma Rsum_app l1 l2 : Rsum (l1 ++ l2) = Rsum l1 + Rsum l2.
Proof. induction l1; simpl; [lra | rewrite IHl1; lra]. Qed.

Lemma event_loop_contributes n event : forall a b w0,
  Forall contributes event ->
  event_loop n event (Cfin a b, w0) =
  Ok (Cfin (a + Rsum (map (weighted_cos n) event))
           (b + Rsum (map (weighted_sin n) event)),
      w0 + Rsum (map weight_or_one event)).
Proof.
  induction event as [|p rest IH]; intros a b w0 H.
  - simpl. do 2 f_equal; [f_equal|]; lra.
  - inversion H; subst. cbn [event_loop].
    rewrite particle_step_contributes by assumption. cbn [bind].
    rewrite IH by assumption. simpl. do 2 f_equal; [f_equal|]; lra.
Qed.

Lemma event_loop_app n l1 l2 acc :
  event_loop n (l1 ++ l2) acc =
  (acc1 <- event_loop n l1 acc ;; event_loop n l2 acc1).
Proof.
  revert acc. induction l1 as [|p rest IH]; intros acc;
    cbn [event_loop app bind]; [reflexivity|].
  destruct (particle_step n p acc); cbn [bind]; [apply IH | reflexivity].
Qed.

(** ** Weights that are not negative *)

Lemma Rsum_nonneg event :
  Forall (fun p => 0 <= weight_or_one p) event ->
  0 <= Rsum (map weight_or_one event).
Proof. induction 1; simpl; lra. Qed.

Lemma zero_weights_zero_sums n event :
  Forall (fun p => 0 <= weight_or_one p) event ->
  Rsum (map weight_or_one event) = 0 ->
  Rsum (map (weighted_cos n) event) = 0 /\
  Rsum (map (weighted_sin n) event) = 0.
Proof.
  induction event as [|p rest IH]; simpl; intros H Hz; [split; reflexivity|].
  inversion H as [|? ? Hp Hrest]; subst.
  pose proof (Rsum_nonneg _ Hrest) as Hnn.
  assert (Hp0 : weight_or_one p = 0) by lra.
  assert (Hr0 : Rsum (map weight_or_one rest) = 0) by lra.
  destruct (IH Hrest Hr0) as [Hc Hs].
  unfold weighted_cos at 1, weighted_sin at 1. rewrite Hp0, Hc, Hs.
  split; lra.
Qed.

(** ** The ensemble *)

(** As long as the reset of the running average (taken when the running
    weight is zero at the end of an event) only ever discards a zero, the
    loop over the events adds up all terms. *)
Lemma ensemble_loop_sums n particle_data : forall a b w0,
  Forall (Forall contributes) particle_data ->
  (forall k, (k <= List.length particle_data)%nat ->
     w0 + Rsum (map weight_or_one (List.concat (firstn k particle_data))) = 0 ->
     a + Rsum (map (weighted_cos n) (List.concat (firstn k particle_data))) = 0
     /\
     b + Rsum (map (weighted_sin n) (List.concat (firstn k particle_data))) = 0)
  ->
  ensemble_loop n particle_data (Cfin a b, w0) =
  Ok (Cfin (a + Rsum (map (weighted_cos n) (List.concat particle_data)))
           (b + Rsum (map (weighted_sin n) (List.concat particle_data))),
      w0 + Rsum (map weight_or_one (List.concat particle_data))).
Proof.
  induction particle_data as [|event rest IH]; intros a b w0 Hc Hz.
  - simpl. do 2 f_equal; [f_equal|]; lra.
  - inversion Hc as [|? ? Hce Hcr]; subst.
    cbn [ensemble_loop List.concat].
    unfold czero. rewrite event_loop_contributes by assumption. cbn [bind].
    rewrite !map_app, !Rsum_app.
    assert (Hrest : forall a' b',
              a' = a + Rsum (map (weighted_cos n) event) ->
              b' = b + Rsum (map (weighted_sin n) event) ->
              forall k, (k <= List.length rest)%nat ->
                (w0 + Rsum (map weight_or_one event))
                + Rsum (map weight_or_one (List.concat (firstn k rest))) = 0 ->
                a' + Rsum (map (weighted_cos n) (List.concat (firstn k rest)))
                = 0 /\
                b' + Rsum (map (weighted_sin n) (List.concat (firstn k rest)))
                = 0).
    { intros a' b' -> -> k Hk Hw.
      specialize (Hz (S k) ltac:(simpl; lia)).
      cbn [firstn List.concat] in Hz. rewrite !map_app, !Rsum_app in Hz.
      destruct Hz as [H1 H2]; [lra|]. split; lra. }
    destruct (Req_dec_T (w0 + Rsum (map weight_or_one event)) 0) as [Hs|N].
    + destruct (Hrest _ _ eq_refl eq_refl 0%nat ltac:(lia)) as [H1 H2].
      { simpl. lra. }
      simpl in H1, H2.
      unfold czero. rewrite IH; try assumption.
      * do 2 f_equal; [f_equal|]; lra.
      * intros k Hk Hw.
        apply (Hrest 0 0); try lra; try exact Hk.
    + cbn [cadd]. rewrite IH; try assumption.
      * do 2 f_equal; [f_equal|]; lra.
      * intros k Hk Hw. apply Hrest; try lra; try exact Hk.
Qed.

Lemma Forall_firstn {A} (P : A -> Prop) k l :
  Forall P l -> Forall P (firstn k l).
Proof.
  revert k. induction l as [|a l IH]; intros k H; destruct k; simpl;
    try constructor; inversion H; subst; auto.
Qed.

Lemma Forall_concat {A} (P : A -> Prop) ll :
  Forall (Forall P) ll -> Forall P (List.concat ll).
Proof.
  induction 1 as [|l ll Hl Hll IH]; simpl; [constructor|].
  apply Forall_app. split; assumption.
Qed.

(** Weights that are not negative: a zero sum of weights means that every
    weight seen so far is zero, and so is every term. *)
Lemma nonnegative_never_discards n particle_data :
  Forall (Forall (fun p => 0 <= weight_or_one p)) particle_data ->
  never_discards n particle_data.
Proof.
  intros H k _ Hz. apply zero_weights_zero_sums; [|exact Hz].
  apply Forall_concat. apply Forall_firstn. exact H.
Qed.

(** Whenever the loop ends with a zero weight sum, the running average it
    holds is the literal [0. + 0.j] of the reset (or of the start). *)
Lemma ensemble_loop_nil_weight n particle_data : forall f w f',
  ensemble_loop n particle_data (f, w) = Ok (f', 0) ->
  f' = czero \/ (particle_data = [] /\ f' = f /\ w = 0).
Proof.
  induction particle_data as [|event rest IH]; intros f w f';
    cbn [ensemble_loop].
  - intros H; injection H as <- <-. right. repeat split.
  - destruct (event_loop n event (czero, w)) as [[fe w1]|]; cbn [bind];
      [|discriminate].
    destruct (Req_dec_T w1 0) as [Hz|N]; intros H; apply IH in H.
    + left. destruct H as [H|(_ & H & _)]; exact H.
    + destruct H as [H|(_ & _ & H)]; [left; exact H | contradiction].
Qed.

Lemma zero_weight_average_reset n particle_data f :
  ensemble_loop n particle_data (czero, 0) = Ok (f, 0) -> f = czero.
Proof.
  intros H. apply ensemble_loop_nil_weight in H.
  destruct H as [H|(_ & H & _)]; exact H.
Qed.

(** A zero weight sum always ends in the division by zero. *)
Lemma integrated_flow_zero_weight self particle_data f :
  ensemble_loop (n_ self) particle_data (czero, 0) = Ok (f, 0) ->
  integrated_flow self particle_data =
  Raise (ZeroDivisionError "complex division by zero").
Proof.
  intros H. unfold integrated_flow. rewrite H. cbn [bind]. unfold py_cdiv.
  destruct (Req_dec_T 0 0) as [_|N];
    [reflexivity | exfalso; apply N; reflexivity].
Qed.

(** ** Particles of zero transverse momentum *)

Lemma particle_step_zero_pt n p flow_event number_particles :
  (0 < n)%Z -> pt_abs p = Ok 0 -> is_number (p weight_) = true ->
  particle_step n p (flow_event, number_particles) =
  Ok (Cnan, number_particles + weight_or_one p).
Proof.
  intros Hn Hpt Hw. unfold particle_step.
  rewrite flow_weight_number by assumption. cbn [bind].
  rewrite Hpt, (phi_zero_pt _ Hpt). cbn [bind].
  rewrite weight_or_one_number by assumption. cbn [bind].
  rewrite flow_factor_zero by assumption. cbn [cscale].
  destruct flow_event; reflexivity.
Qed.





Lemma integrated_flow_single n p :
  (0 < n)%Z -> pt_abs p = Ok 0 -> is_number (p weight_) = true ->
  weight_or_one p <> 0 ->
  integrated_flow {| n_ := n |} [[p]] = Ok Cnan.
Proof.
  intros Hn Hpt Hw Hnz. unfold integrated_flow.
  cbn [n_ ensemble_loop event_loop].
  rewrite particle_step_zero_pt by assumption. cbn [bind].
  rewrite Rplus_0_l.
  destruct (Req_dec_T (weight_or_one p) 0) as [Hz|_]; [contradiction|].
  cbn [bind cadd czero]. unfold py_cdiv.
  destruct (Req_dec_T (weight_or_one p) 0) as [Hz|_]; [contradiction|].
  reflexivity.
Qed.


(** ** The example particles *)

Lemma pt_abs_particle_at vx vy w :
  pt_abs (particle_at vx vy w) = Ok (sqrt (vx ^ 2 + vy ^ 2)).
Proof. reflexivity. Qed.

Lemma pt_abs_origin w : pt_abs (particle_at 0 0 w) = Ok 0.
Proof.
  rewrite pt_abs_particle_at. f_equal.
  replace (0 ^ 2 + 0 ^ 2) with 0 by ring. apply sqrt_0.
Qed.

Lemma weight_particle_at vx vy w : weight_or_one (particle_at vx vy w) = w.
Proof. reflexivity. Qed.

Lemma contributes_particle_at vx vy w :
  vx <> 0 \/ vy <> 0 -> contributes (particle_at vx vy w).
Proof.
  intros H. repeat split. rewrite pt_abs_particle_at. intros Hz.
  injection Hz as Hz. apply sqrt_squares_zero in Hz. lra.
Qed.

Ltac decide_order :=
  repeat match goal with
         | |- context [Rlt_dec ?a ?b] => destruct (Rlt_dec a b); try lra
         | |- context [Rle_dec ?a ?b] => destruct (Rle_dec a b); try lra
         end.

Lemma angle_east w : angle (particle_at 1 0 w) = 0.
Proof.
  unfold angle, phi, px, py, np_abs. cbn.
  rewrite ?Rabs_R0, ?Rabs_R1. decide_order.
  unfold atan2. decide_order.
  replace (0 / 1) with 0 by field. apply atan_0.
Qed.

Lemma angle_north w : angle (particle_at 0 1 w) = PI / 2.
Proof.
  unfold angle, phi, px, py, np_abs. cbn.
  rewrite ?Rabs_R0, ?Rabs_R1. decide_order.
  unfold atan2. decide_order.
Qed.

(** Weights of both signs: when the weights of the first event cancel, the
    reset drops the flow sum of that event, and the value returned is not
    the flat average. *)
Lemma reset_discards_opposite_weights :
  integrated_flow flow2 opposite_weights = Ok (Cfin 1 0) /\
  flat_average 2 opposite_weights = Cfin 3 0.
Proof.
  assert (Hc : cos (IZR 2 * (PI / 2)) = -1).
  { replace (IZR 2 * (PI / 2)) with PI by field. apply cos_PI. }
  assert (Hs : sin (IZR 2 * (PI / 2)) = 0).
  { replace (IZR 2 * (PI / 2)) with PI by field. apply sin_PI. }
  split.
  - unfold integrated_flow, opposite_weights, flow2. cbn [n_ ensemble_loop].
    unfold czero.
    rewrite event_loop_contributes
      by (repeat constructor; apply contributes_particle_at;
          [left | right]; lra).
    cbn [bind map Rsum fold_right]. rewrite !weight_particle_at.
    destruct (Req_dec_T (0 + (1 + (-1 + 0))) 0) as [_|N]; [|lra].
    unfold czero.
    rewrite event_loop_contributes
      by (repeat constructor; apply contributes_particle_at; left; lra).
    cbn [bind map Rsum fold_right]. rewrite !weight_particle_at.
    unfold weighted_cos, weighted_sin.
    rewrite angle_east, weight_particle_at, Rmult_0_r, cos_0, sin_0.
    destruct (Req_dec_T (0 + (1 + (-1 + 0)) + (1 + 0)) 0) as [N|_]; [lra|].
    cbn [cadd bind]. unfold py_cdiv.
    destruct (Req_dec_T (0 + (1 + (-1 + 0)) + (1 + 0)) 0) as [N|_]; [lra|].
    unfold np_cdiv.
    destruct (Req_dec_T (0 + (1 + (-1 + 0)) + (1 + 0)) 0) as [N|_]; [lra|].
    apply f_equal. f_equal; field.
  - unfold flat_average, opposite_weights.
    cbn [List.concat app map Rsum fold_right].
    unfold weighted_cos, weighted_sin.
    rewrite !angle_east, angle_north, !weight_particle_at.
    rewrite Hc, Hs, Rmult_0_r, cos_0, sin_0. f_equal; field.
Qed.

(** Weights of both signs that never sum to zero at the end of an event. *)
Lemma never_discards_mixed_signs n :
  never_discards n [[particle_at 1 0 (-1)]; [particle_at 0 1 3]].
Proof.
  intros k Hk Hz. destruct k as [|k]; [split; reflexivity|].
  exfalso. revert Hz.
  destruct k as [|[|k]]; cbn [firstn List.concat app map Rsum fold_right];
    rewrite ?weight_particle_at; lra.
Qed.

(** ** The integrated flow *)

(** C1, as amended.  For every ensemble whose particles all have [px], [py]
    and [weight] set to numbers and a transverse momentum that is not 0,
    whose total weight is not zero, and in which the weight summed up to the
    end of an event is zero only when the flow summed so far is zero too (as
    it is whenever no weight is negative), [integrated_flow] returns exactly
    the sum of [w * exp(i n phi)] over all particles of all events divided by
    the sum of all [w]: one flat accumulation over the whole ensemble, with
    no averaging per event. *)
Theorem integrated_flow_flat_average self particle_data :
  Forall (Forall contributes) particle_data ->
  never_discards (n_ self) particle_data ->
  Rsum (map weight_or_one (List.concat particle_data)) <> 0 ->
  integrated_flow self particle_data =
  Ok (flat_average (n_ self) particle_data).
Proof.
  intros Hc Hn Ht. unfold integrated_flow, czero.
  rewrite ensemble_loop_sums; try assumption.
  - cbn [bind]. unfold py_cdiv, flat_average, np_cdiv.
    rewrite !Rplus_0_l.
    destruct (Req_dec_T _ 0) as [Hz|_]; [contradiction|]. reflexivity.
  - intros k Hk Hw. rewrite !Rplus_0_l in *. apply Hn; assumption.
Qed.

(** Two events of one particle each, of weights 1 and 2. *)
Lemma integrated_flow_flat_average_witness :
  integrated_flow flow2 [[particle_at 1 0 1]; [particle_at 0 1 2]] =
  Ok (flat_average 2 [[particle_at 1 0 1]; [particle_at 0 1 2]]).
Proof.
  apply (integrated_flow_flat_average flow2
           [[particle_at 1 0 1]; [particle_at 0 1 2]]).
  - repeat constructor; apply contributes_particle_at; [left | right]; lra.
  - apply nonnegative_never_discards.
    repeat constructor; rewrite weight_particle_at; lra.
  - simpl. rewrite !weight_particle_at. lra.
Defined.

(** C1, as stated, fails: a particle with [px = py = 0] and weight 1 has its
    momentum components set and the total weight 1, the flat average is
    [1 + 0j], and [integrated_flow] returns [nan]. *)
Lemma integrated_flow_zero_pt_not_flat_average :
  px (particle_at 0 0 1) = Ok (PyFloat 0) /\
  py (particle_at 0 0 1) = Ok (PyFloat 0) /\
  Rsum (map weight_or_one (List.concat [[particle_at 0 0 1]])) = 1 /\
  flat_average 2 [[particle_at 0 0 1]] = Cfin 1 0 /\
  integrated_flow flow2 [[particle_at 0 0 1]] = Ok Cnan.
Proof.
  split; [reflexivity|]. split; [reflexivity|].
  split; [simpl; rewrite weight_particle_at; lra|].
  split.
  - unfold flat_average. cbn [List.concat app map Rsum fold_right].
    unfold weighted_cos, weighted_sin, angle.
    rewrite (phi_zero_pt _ (pt_abs_origin 1)), weight_particle_at.
    rewrite Rmult_0_r, cos_0, sin_0. f_equal; field.
  - apply integrated_flow_single.
    + lia.
    + apply pt_abs_origin.
    + reflexivity.
    + rewrite weight_particle_at. lra.
Qed.

(** C2, at the failing inputs.  For the empty ensemble ([k = 0]) and for
    every ensemble of [k] empty events, the total weight is zero and
    [integrated_flow] raises [ZeroDivisionError] from its final, unguarded
    division; it does not return the complex zero. *)
Theorem integrated_flow_empty_events self k :
  integrated_flow self (repeat [] k) =
  Raise (ZeroDivisionError "complex division by zero").
Proof.
  apply (integrated_flow_zero_weight self (repeat [] k) czero).
  induction k as [|k IH]; cbn [repeat ensemble_loop event_loop bind];
    [reflexivity|].
  destruct (Req_dec_T 0 0) as [_|N];
    [exact IH | exfalso; apply N; reflexivity].
Qed.



(** ** The differential flow *)

Lemma mapM_ext {A B} (f : A -> result B) (g : A -> B) l :
  (forall a, In a l -> f a = Ok (g a)) -> mapM f l = Ok (map g l).
Proof.
  induction l as [|a rest IH]; intros H; cbn [mapM map]; [reflexivity|].
  rewrite (H a (or_introl eq_refl)). cbn [bind].
  rewrite IH by (intros; apply H; right; assumption). reflexivity.
Qed.

Lemma mapM_total {A B} (f : A -> result B) l :
  (forall a, In a l -> exists b, f a = Ok b) ->
  exists l', mapM f l = Ok l' /\ List.length l' = List.length l.
Proof.
  induction l as [|a rest IH]; intros H; cbn [mapM].
  - exists []. split; reflexivity.
  - destruct (H a (or_introl eq_refl)) as [b Hb]. rewrite Hb. cbn [bind].
    destruct IH as (l' & Hl & Hlen); [intros; apply H; right; assumption|].
    rewrite Hl. cbn [bind]. exists (b :: l').
    split; [reflexivity|simpl; lia].
Qed.

(** When every observable can be computed, the selection of one event for
    one bin is a filter: the particles that pass the test, in their order. *)
Lemma select_event_filter name bins bin event :
  (forall p, In p event -> exists v, observable name p = Ok v) ->
  select_event name bins bin event = Ok (filter (placed name bins bin) event).
Proof.
  induction event as [|p rest IH]; intros H; cbn [select_event filter];
    [reflexivity|].
  destruct (H p (or_introl eq_refl)) as [v Hv].
  unfold placed at 1. rewrite Hv. cbn [bind].
  rewrite IH by (intros; apply H; right; assumption). cbn [bind].
  destruct (in_bin v _ _); reflexivity.
Qed.

Lemma bin_particles_filter name bins particle_data :
  (forall event p, In event particle_data -> In p event ->
                   exists v, observable name p = Ok v) ->
  bin_particles name bins particle_data =
  Ok (map (fun bin => map (filter (placed name bins bin)) particle_data)
          (seq 0 (List.length bins - 1))).
Proof.
  intros H. unfold bin_particles. apply mapM_ext. intros bin _.
  apply mapM_ext. intros event He. apply select_event_filter.
  intros p Hp. exact (H event p He Hp).
Qed.

Lemma in_bin_spec v lo hi : in_bin (Finite v) lo hi = true <-> lo <= v < hi.
Proof.
  unfold in_bin. destruct (Rle_dec lo v), (Rlt_dec v hi); simpl; split;
    intros H; try discriminate; try reflexivity; try (split; assumption);
    destruct H; contradiction.
Qed.

(** ** Boundaries in increasing order *)









(** ** No validation of the boundaries *)

Lemma observable_readable name p :
  readable p -> exists val, observable name p = Ok val.
Proof.
  intros (HE & Hx & Hy & Hz & Hw).
  destruct (to_real_number _ HE) as [re Hre].
  destruct (to_real_number _ Hz) as [rz Hrz].
  destruct (p_abs_number p Hx Hy Hz) as [pa Hp].
  unfold observable.
  destruct (String.eqb name "pt").
  { destruct (pt_abs_number p Hx Hy) as (? & ? & _ & _ & ->). cbn [bind].
    eauto. }
  destruct (String.eqb name "rapidity").
  { unfold momentum_rapidity_Y, E, pz, py_sub, py_add.
    rewrite !getter_number by assumption. cbn [bind].
    rewrite Hre, Hrz. cbn [bind].
    destruct (Rlt_dec _ _); cbn [bind]; eauto. }
  destruct (String.eqb name "pseudorapidity"); [|eauto].
  unfold pseudorapidity, pz. rewrite Hp. rewrite !getter_number by assumption.
  cbn [bind]. rewrite Hrz. cbn [bind].
  destruct (Rlt_dec _ _); cbn [bind]; eauto.
Qed.

Lemma particle_step_total n p acc :
  readable p -> exists acc', particle_step n p acc = Ok acc'.
Proof.
  intros (HE & Hx & Hy & Hz & Hw). destruct acc as [f w].
  unfold particle_step. rewrite flow_weight_number by assumption. cbn [bind].
  destruct (pt_abs_number p Hx Hy) as (? & ? & _ & _ & ->). cbn [bind].
  destruct (phi_number p Hx Hy) as (ph & ->). cbn [bind].
  destruct (to_real_number _ Hw) as [wr ->]. cbn [bind]. eauto.
Qed.

Lemma event_loop_total n event : forall acc,
  Forall readable event -> exists acc', event_loop n event acc = Ok acc'.
Proof.
  induction event as [|p rest IH]; intros acc H; cbn [event_loop]; [eauto|].
  inversion H; subst.
  destruct (particle_step_total n p acc) as [acc1 ->]; [assumption|].
  cbn [bind]. apply IH. assumption.
Qed.

Lemma bin_loop_total n events : forall acc,
  Forall (Forall readable) events ->
  exists acc', bin_loop n events acc = Ok acc'.
Proof.
  induction events as [|event rest IH]; intros [f w] H; cbn [bin_loop];
    [eauto|].
  inversion H; subst.
  destruct (event_loop_total n event (czero, w)) as [[fe w1] ->];
    [assumption|].
  cbn [bind]. apply IH. assumption.
Qed.

Lemma bin_flow_total n events :
  Forall (Forall readable) events -> exists f, bin_flow n events = Ok f.
Proof.
  intros H. unfold bin_flow.
  destruct (bin_loop_total n events (czero, 0) H) as [[f w] ->]. cbn [bind].
  destruct (Req_dec_T w 0); eauto.
Qed.

Lemma Forall_filter {A} (P : A -> Prop) f l :
  Forall P l -> Forall P (filter f l).
Proof.
  induction 1 as [|a l Ha Hl IH]; simpl; [constructor|].
  destruct (f a); [constructor|]; assumption.
Qed.

(** C8, as amended.  [differential_flow] does not validate the boundaries:
    for a valid variable name, [bins] with fewer than 2 entries give the
    empty result list without any error, and for [bins] of any length and in
    any order, on an ensemble whose particles carry numeric [E], [px], [py],
    [pz] and [weight], it returns [len(bins) - 1] values and raises
    nothing. *)
Theorem differential_flow_bins_not_validated self particle_data bins name :
  valid_variable name ->
  ((List.length bins < 2)%nat ->
     differential_flow self particle_data bins (PyStr name) = Ok []) /\
  (Forall (Forall readable) particle_data ->
     exists flows,
       differential_flow self particle_data bins (PyStr name) = Ok flows /\
       List.length flows = (List.length bins - 1)%nat).
Proof.
  intros Hname.
  assert (Hv : (String.eqb name "pt" || String.eqb name "rapidity" ||
                String.eqb name "pseudorapidity")%bool = true).
  { destruct Hname as [-> | [-> | ->]]; reflexivity. }
  split.
  - intros Hlen. unfold differential_flow. rewrite Hv.
    unfold bin_particles.
    replace (List.length bins - 1)%nat with 0%nat by lia. reflexivity.
  - intros Hread. unfold differential_flow. rewrite Hv.
    rewrite bin_particles_filter.
    2:{ intros event p He Hp. apply observable_readable.
        rewrite Forall_forall in Hread. specialize (Hread event He).
        rewrite Forall_forall in Hread. exact (Hread p Hp). }
    cbn [bind]. unfold differential_flow_calculation.
    destruct (mapM_total (bin_flow (n_ self))
               (map (fun bin =>
                       map (filter (placed name bins bin)) particle_data)
                    (seq 0 (List.length bins - 1))))
      as (flows & Hf & Hlen).
    + intros events Hin. apply in_map_iff in Hin.
      destruct Hin as (bin & <- & _).
      apply bin_flow_total. apply Forall_map.
      apply Forall_impl with (2 := Hread). intros event. apply Forall_filter.
    + exists flows. split; [exact Hf|].
      rewrite Hlen, length_map, length_seq. reflexivity.
Qed.

(** Boundaries in descending order, on one readable particle. *)
Lemma differential_flow_bins_not_validated_witness :
  exists flows,
    differential_flow flow2
      [[setattr (setattr (particle_at 1 0 1) E_ (PyFloat 2)) pz_ (PyFloat 1)]]
      [3; 2; 1] (PyStr "rapidity") = Ok flows /\
    List.length flows = 2%nat.
Proof.
  destruct (differential_flow_bins_not_validated flow2
              [[setattr (setattr (particle_at 1 0 1) E_ (PyFloat 2)) pz_
                  (PyFloat 1)]]
              [3; 2; 1] "rapidity") as [_ H].
  - right. left. reflexivity.
  - apply H. repeat constructor.
Defined.

(** C8, as stated, fails: an empty [bins] and a descending [bins] raise
    nothing; the first gives no value at all, the second one empty bin,
    whose value is the complex zero. *)
Lemma differential_flow_accepts_bad_bins :
  differential_flow flow2 [] [] (PyStr "pt") = Ok [] /\
  differential_flow flow2 [[particle_at 1 0 1]] [2; 1] (PyStr "pt")
  = Ok [czero].
Proof.
  split; [reflexivity|].
  unfold differential_flow. cbn [String.eqb Ascii.eqb Bool.eqb orb].
  unfold bin_particles. cbn [List.length Nat.sub seq mapM select_event bind].
  change (observable "pt" (particle_at 1 0 1))
    with (v <- pt_abs (particle_at 1 0 1) ;; Ok (Finite v)).
  rewrite pt_abs_particle_at. cbn [bind nth Nat.add].
  assert (Hout : in_bin (Finite (sqrt (1 ^ 2 + 0 ^ 2))) 2 1 = false).
  { unfold in_bin. destruct (Rle_dec 2 _), (Rlt_dec _ 1); try reflexivity.
    exfalso; lra. }
  rewrite Hout. cbn [bind]. unfold differential_flow_calculation.
  cbn [mapM bin_flow bin_loop event_loop bind]. unfold bin_flow.
  cbn [bin_loop event_loop bind cadd czero].
  destruct (Req_dec_T 0 0) as [_|N];
    [reflexivity | exfalso; apply N; reflexivity].
Qed.

End FlowFacts.

(* ================================================================== *)
(** * Properties of Loader/JetscapeLoader.py: the last line *)
(* ================================================================== *)

Module LastLineFacts.
Import Py Particle JetscapeLoader Examples.

Local Open Scope nat_scope.

(** ** Strings *)

Lemma get_append_left a b k :
  k < String.length a -> String.get k (a ++ b) = String.get k a.
Proof.
  revert k. induction a as [|c a IH]; intros k Hk; simpl in *; [lia|].
  destruct k; [reflexivity|]. apply IH. lia.
Qed.

Lemma get_append_right a b k :
  String.get (String.length a + k) (a ++ b) = String.get k b.
Proof. induction a as [|c a IH]; simpl; [reflexivity|exact IH]. Qed.

Lemma get_no_newline s k c :
  no_newline s = true -> String.get k s = Some c ->
  Ascii.eqb c newline = false.
Proof.
  revert k. induction s as [|d s IH]; intros k Hs Hg; simpl in *;
    [discriminate|].
  apply andb_true_iff in Hs. destruct Hs as [Hd Hs].
  destruct k.
  - injection Hg as <-. apply negb_true_iff. exact Hd.
  - exact (IH k Hs Hg).
Qed.

Lemma get_in_range s k :
  k < String.length s -> exists c, String.get k s = Some c.
Proof.
  revert k. induction s as [|d s IH]; intros k Hk; simpl in *; [lia|].
  destruct k; [eauto|]. apply IH. lia.
Qed.

Lemma length_append a b :
  String.length (a ++ b) = String.length a + String.length b.
Proof. induction a as [|c a IH]; simpl; [reflexivity|rewrite IH; reflexivity]. Qed.

Lemma append_empty a : a ++ EmptyString = a.
Proof. induction a as [|c a IH]; simpl; [reflexivity|congruence]. Qed.

Lemma append_cons_assoc a c b :
  a ++ String c b = (a ++ String c EmptyString) ++ b.
Proof. induction a as [|d a IH]; simpl; [reflexivity|rewrite IH; reflexivity]. Qed.

Lemma substring_skip a b n :
  String.substring (String.length a) n (a ++ b) = String.substring 0 n b.
Proof. induction a as [|c a IH]; simpl; [reflexivity|exact IH]. Qed.

Lemma substring_all s : String.substring 0 (String.length s) s = s.
Proof. induction s as [|c s IH]; simpl; [reflexivity|rewrite IH; reflexivity]. Qed.

(** ** The backward scan *)

(** Scanning back over [k] characters that are not newlines, down to a
    newline at position [p]. *)
Lemma seek_line_start_finds content p : forall k,
  String.get p content = Some newline ->
  (forall j c, p < j <= p + k -> String.get j content = Some c ->
               Ascii.eqb c newline = false) ->
  p + k < String.length content ->
  seek_line_start content (p + k) = Ok (S p).
Proof.
  induction k as [|k IH]; intros Hp Hbody Hlen.
  - rewrite Nat.add_0_r.
    destruct p; cbn [seek_line_start]; rewrite Hp; reflexivity.
  - replace (p + S k) with (S (p + k)) in * by lia.
    destruct (get_in_range content (S (p + k)) Hlen) as [c Hc].
    cbn [seek_line_start]. rewrite Hc.
    rewrite (Hbody (S (p + k)) c) by (try lia; exact Hc).
    apply IH; [exact Hp| |lia].
    intros j d Hj. apply Hbody. lia.
Qed.

Lemma readline_no_newline body :
  no_newline body = true ->
  readline body = body /\
  readline (body ++ String newline EmptyString)
  = body ++ String newline EmptyString.
Proof.
  induction body as [|c body IH]; intros H; simpl in *; [split; reflexivity|].
  apply andb_true_iff in H. destruct H as [Hc Hb].
  apply negb_true_iff in Hc. rewrite Hc.
  destruct (IH Hb) as [-> ->]. split; reflexivity.
Qed.

(** On a file of two lines or more, [get_last_line] returns the last line,
    stripped. *)
Lemma get_last_line_spec (fs : filesystem) path content before body tail :
  fs path = Some content ->
  two_or_more_lines content before body tail ->
  get_last_line fs path = Ok (strip (body ++ tail)).
Proof.
  intros Hfs (-> & Hbody & Htail & Hne).
  unfold get_last_line. rewrite Hfs.
  set (rest := body ++ tail) in *.
  assert (Hrest : 1 <= String.length rest).
  { destruct rest; [contradiction Hne; reflexivity | simpl; lia]. }
  assert (Hsize : String.length (before ++ String newline rest)
                  = String.length before + 1 + String.length rest).
  { rewrite length_append. simpl. lia. }
  rewrite Hsize.
  destruct (Nat.ltb_spec (String.length before + 1 + String.length rest) 2);
    [lia|].
  replace (String.length before + 1 + String.length rest - 2)
    with (String.length before + (String.length rest - 1)) by lia.
  rewrite seek_line_start_finds.
  - cbn [bind]. do 2 f_equal.
    replace (String.length before + 1 + String.length rest
             - S (String.length before))
      with (String.length rest) by lia.
    rewrite append_cons_assoc.
    replace (S (String.length before))
      with (String.length (before ++ String newline EmptyString))
      by (rewrite length_append; simpl; lia).
    rewrite substring_skip, substring_all.
    subst rest. destruct (readline_no_newline body Hbody) as [H1 H2].
    destruct Htail as [->| ->]; [|exact H2].
    rewrite append_empty. exact H1.
  - rewrite <- (Nat.add_0_r (String.length before)) at 1.
    rewrite get_append_right. reflexivity.
  - intros j c Hj Hget.
    replace j with (String.length before + S (j - String.length before - 1))
      in Hget by lia.
    rewrite get_append_right in Hget. cbn [String.get] in Hget.
    subst rest. destruct Htail as [->| ->].
    + rewrite append_empty in Hget.
      exact (get_no_newline _ _ _ Hbody Hget).
    + rewrite get_append_left in Hget.
      * exact (get_no_newline _ _ _ Hbody Hget).
      * rewrite length_append in Hj. simpl in Hj. lia.
  - lia.
Qed.

(** ** Words *)

(** Stripping a line does not change its words. *)
Lemma split_whitespace_lstrip s :
  split_whitespace (lstrip s) = split_whitespace s.
Proof.
  induction s as [|c s IH]; [reflexivity|].
  cbn [lstrip]. destruct (is_space c) eqn:Hc; [|reflexivity].
  rewrite IH. unfold split_whitespace. cbn [split_at]. rewrite Hc.
  reflexivity.
Qed.

Lemma split_at_rstrip s :
  exists piece others others',
    split_at is_space (rstrip s) = piece :: others /\
    split_at is_space s = piece :: others' /\
    filter nonempty others = filter nonempty others'.
Proof.
  induction s as [|c s (piece & others & others' & Hr & Hs & Hf)].
  - exists EmptyString, [], []. repeat split.
  - cbn [rstrip split_at]. rewrite Hs.
    remember (rstrip s) as r eqn:Hdef.
    destruct (is_space c) eqn:Hc.
    + destruct (nonempty r) eqn:Hn; cbn [negb andb].
      * cbn [split_at]. rewrite Hc, Hr.
        exists EmptyString, (piece :: others), (piece :: others').
        repeat split. cbn [filter]. rewrite Hf. reflexivity.
      * destruct r; [|discriminate Hn].
        cbn [split_at] in Hr. injection Hr as <- <-.
        exists EmptyString, [], (EmptyString :: others'). repeat split.
        cbn [filter nonempty]. exact Hf.
    + rewrite andb_false_l. cbn [split_at]. rewrite Hc, Hr.
      exists (String c piece), others, others'. repeat split. exact Hf.
Qed.

Lemma split_whitespace_rstrip s :
  split_whitespace (rstrip s) = split_whitespace s.
Proof.
  destruct (split_at_rstrip s) as (piece & others & others' & Hr & Hs & Hf).
  unfold split_whitespace. rewrite Hr, Hs. cbn [filter]. rewrite Hf.
  reflexivity.
Qed.

Lemma split_whitespace_strip s :
  split_whitespace (strip s) = split_whitespace s.
Proof.
  unfold strip. rewrite split_whitespace_rstrip.
  apply split_whitespace_lstrip.
Qed.

Lemma split_whitespace_newline body :
  split_whitespace (body ++ String newline EmptyString)
  = split_whitespace body.
Proof.
  unfold split_whitespace.
  assert (H : exists piece others,
             split_at is_space body = piece :: others /\
             split_at is_space (body ++ String newline EmptyString)
             = ((piece :: others) ++ [EmptyString])%list).
  { induction body as [|c body (piece & others & Hb & Hn)].
    - exists EmptyString, []. split; reflexivity.
    - cbn [split_at append]. rewrite Hb, Hn.
      destruct (is_space c); eexists; eexists; split; reflexivity. }
  destruct H as (piece & others & -> & ->).
  rewrite filter_app. cbn [filter nonempty]. apply app_nil_r.
Qed.

(** ** The two numbers *)

Section Numbers.

Context {float : Type} (py_float : string -> option float).

(** The loop collects the first two numbers among the words. *)
Lemma collect_numbers_spec words : forall numbers,
  List.length numbers < 2 ->
  collect_numbers py_float words numbers =
  firstn 2 (numbers ++ numbers_of py_float words).
Proof.
  induction words as [|word rest IH]; intros numbers Hlen;
    cbn [collect_numbers numbers_of].
  - rewrite app_nil_r. symmetry. apply firstn_all2. lia.
  - destruct (py_float word) as [number|]; [|apply IH; exact Hlen].
    destruct (Nat.eqb (List.length (numbers ++ [number])) 2) eqn:Hb.
    + apply Nat.eqb_eq in Hb.
      change (number :: numbers_of py_float rest)
        with ([number] ++ numbers_of py_float rest)%list.
      rewrite app_assoc, firstn_app, Hb, Nat.sub_diag, firstn_O, app_nil_r.
      symmetry. apply firstn_all2. lia.
    + apply Nat.eqb_neq in Hb. rewrite IH.
      * rewrite <- app_assoc. reflexivity.
      * rewrite length_app in *. simpl in *. lia.
Qed.

Lemma get_sigmaGen_of_last_line fs self last_line :
  get_last_line fs (PATH_JETSCAPE_ self) = Ok last_line ->
  get_sigmaGen py_float fs self =
  match numbers_of py_float (split_whitespace last_line) with
  | first :: second :: _ => Ok (first, second)
  | _ => Raise index_out_of_range
  end.
Proof.
  intros H. unfold get_sigmaGen. rewrite H. cbn [bind].
  rewrite collect_numbers_spec by (simpl; lia). cbn [app].
  destruct (numbers_of py_float (split_whitespace last_line))
    as [|first [|second others]]; reflexivity.
Qed.

(** On every file of two lines or more, [get_sigmaGen] returns the first two
    words of the last line that are numbers, in their order, and raises
    [IndexError] when the line holds fewer than two. *)
Lemma get_sigmaGen_of_last_words fs self content before body tail :
  fs (PATH_JETSCAPE_ self) = Some content ->
  two_or_more_lines content before body tail ->
  get_sigmaGen py_float fs self =
  match numbers_of py_float (split_whitespace body) with
  | first :: second :: _ => Ok (first, second)
  | _ => Raise index_out_of_range
  end.
Proof.
  intros Hfs Hlines.
  rewrite (get_sigmaGen_of_last_line fs self _
             (get_last_line_spec fs _ _ _ _ _ Hfs Hlines)).
  rewrite split_whitespace_strip.
  destruct Hlines as (_ & _ & [-> | ->] & _).
  - rewrite append_empty. reflexivity.
  - rewrite split_whitespace_newline. reflexivity.
Qed.

(** C10, at the failing input.  The file is the single line [1.0 2.0],
    terminated by a newline; its last line holds two numbers, yet
    [get_sigmaGen] raises [OSError]: the backward scan of [get_last_line]
    seeks before the start of the file. *)
Theorem get_sigmaGen_single_line :
  get_sigmaGen py_float (disk "sigma.dat" (text_line "1.0 2.0"))
               (loader_for "sigma.dat")
  = Raise (OSError "Invalid argument").
Proof. reflexivity. Qed.

End Numbers.

(** The last line of the example file. *)
Lemma last_line_of_two_pions :
  get_last_line (disk "run.dat" two_pions) "run.dat"
  = Ok ("#" ++ String tab "sigmaGen" ++ String tab "0.1"
            ++ String tab "sigmaErr" ++ String tab "0.01").
Proof. vm_compute. reflexivity. Qed.

End LastLineFacts.

(* ================================================================== *)
(** * Properties of Loader/JetscapeLoader.py: filters and events *)
(* ================================================================== *)

Module LoaderFacts.
Import Py Particle JetscapeLoader Examples.

(** ** The constructor *)

(** On a disk that holds the file, and for a path with [.dat] in it, the
    constructor returns the loader the examples start from. *)
Lemma loader_for_constructed path content :
  contains ".dat" path = true ->
  init (disk path content) path = Ok (loader_for path).
Proof.
  intros H. unfold init, base_init, disk. rewrite String.eqb_refl.
  cbn [bind]. rewrite H. reflexivity.
Qed.

(** ** The order of the filters *)

(** C5, as stated, fails: with the pt cut entered before the charge filter,
    the pt cut is applied first; the filters are called in the order of the
    mapping, whichever it is. *)
Lemma filters_follow_mapping_order :
  apply_kwargs_filters recording_filters []
    (PyDict [("charged_particles", PyBool true); ("pt_cut", pt_window)])
  = Ok [("charged_particles", PyNone); ("pt_cut", pt_window)] /\
  apply_kwargs_filters recording_filters []
    (PyDict [("pt_cut", pt_window); ("charged_particles", PyBool true)])
  = Ok [("pt_cut", pt_window); ("charged_particles", PyNone)].
Proof. split; reflexivity. Qed.

(** C5, as amended.  The filters are applied in the iteration order of the
    mapping: for the mapping that lists the charge filter before the pt cut,
    the charge filter runs first and the pt cut on its result; for the
    mapping that lists the pt cut first, the pt cut runs first and the
    charge filter on its result.  (The two loads give identical events
    whenever the two filters commute.) *)
Theorem filters_applied_in_iteration_order
  {Ev : Type} (F : FilterLib Ev) (event : Ev) (cut : pyval) :
  apply_kwargs_filters F event
    (PyDict [("charged_particles", PyBool true); ("pt_cut", cut)])
  = (charged <- charged_particles F event ;; pt_cut F charged cut) /\
  apply_kwargs_filters F event
    (PyDict [("pt_cut", cut); ("charged_particles", PyBool true)])
  = (selected <- pt_cut F event cut ;; charged_particles F selected).
Proof.
  split.
  - cbn. destruct (charged_particles F event) as [charged|]; cbn;
      [|reflexivity].
    destruct (pt_cut F charged cut); reflexivity.
  - cbn. destruct (pt_cut F event cut) as [selected|]; cbn; [|reflexivity].
    destruct (charged_particles F selected); reflexivity.
Qed.

(** The loop over the keys composes: the filters of the first keys, then
    those of the next. *)
Lemma apply_filters_loop_app {Ev : Type} (F : FilterLib Ev) d keys1 keys2
  event :
  apply_filters_loop F d (keys1 ++ keys2) event =
  (event1 <- apply_filters_loop F d keys1 event ;;
   apply_filters_loop F d keys2 event1).
Proof.
  revert event. induction keys1 as [|k rest IH]; intros event;
    cbn [apply_filters_loop app bind]; [reflexivity|].
  destruct (apply_filter F d k event); cbn [bind]; [apply IH|reflexivity].
Qed.

(** ** Particle lines *)

(** The loader hands the constructor the words of the line, which are
    strings: the mass computation raises [TypeError] on the first of them
    it squares. *)
Lemma jetscape_tokens_rejected table (tokens : list string) :
  List.length tokens = 7%nat ->
  Particle.init table (Some "JETSCAPE") (Some (map PyStr tokens))
  = Raise unsupported_operand.
Proof.
  intros H.
  destruct tokens as [|t0 [|t1 [|t2 [|t3 [|t4 [|t5 [|t6 [|]]]]]]]];
    try discriminate H.
  reflexivity.
Qed.

Lemma jetscape_tokens_corrupted table (tokens : list string) :
  List.length tokens <> 7%nat ->
  Particle.init table (Some "JETSCAPE") (Some (map PyStr tokens))
  = Raise (ValueError "The input file is corrupted!").
Proof.
  intros H. cbn [Particle.init]. unfold initialize_from_array.
  cbn [dict_get attribute_mapping String.eqb Ascii.eqb Bool.eqb].
  unfold length_accepted. rewrite length_map.
  cbn [String.eqb Ascii.eqb Bool.eqb orb andb].
  destruct (Nat.eqb (List.length tokens) (List.length JETSCAPE_columns))
    eqn:Hb.
  - apply Nat.eqb_eq in Hb. contradiction.
  - reflexivity.
Qed.

(** A line of the window that is neither the closing line nor an event
    header is a particle line, and no particle line is ever read. *)
Lemma particle_line_never_read table F kwargs i line st :
  contains "#" line && contains "sigmaGen" line = false ->
  contains "Event" line && contains "weight" line = false ->
  exists e, process_line table F kwargs i line st = Raise e.
Proof.
  intros Hend Hhead. unfold process_line. rewrite Hend.
  destruct (Nat.eqb i 0 && negb (contains "#" line)
            && negb (contains "weight" line));
    [eexists; reflexivity|].
  rewrite Hhead.
  destruct (Nat.eq_dec (List.length (tokens_of line)) 7) as [H7|H7].
  - rewrite (jetscape_tokens_rejected table _ H7). eexists. reflexivity.
  - rewrite (jetscape_tokens_corrupted table _ H7). eexists. reflexivity.
Qed.

(** ** The block after the loop *)

(** With [events=(a, b)], the block keeps the rows [a..b] of the table and
    sets the event count to [b - a + 1]. *)
Lemma reconcile_range a b kwargs particle_list self :
  dict_get "events" kwargs = Some (PyTuple [PyInt a; PyInt b]) ->
  optional_arguments_ self = kwargs ->
  reconcile kwargs particle_list self =
  (set_num_events
     (set_table self (slice (num_output_per_event_ self) a (b + 1)))
     (b - a + 1),
   Ok tt).
Proof.
  intros Hk Ho. unfold reconcile. rewrite Ho. unfold dict_has. rewrite Hk.
  destruct kwargs as [|kw rest]; [discriminate Hk|]. reflexivity.
Qed.

Lemma slice_length {A} (l : list A) a b :
  0 <= a <= b -> b < Z.of_nat (List.length l) ->
  List.length (slice l a (b + 1)) = Z.to_nat (b - a + 1).
Proof.
  intros Hab Hb. unfold slice. rewrite length_firstn, length_skipn. lia.
Qed.

(** Without [events], a number of events that differs from the indexed
    total raises [IndexError]. *)
Lemma reconcile_full_mismatch kwargs particle_list self :
  dict_has "events" (optional_arguments_ self) = false ->
  Z.of_nat (List.length particle_list) <> num_events_ self ->
  reconcile kwargs particle_list self =
  (self, Raise (IndexError
     "Number of events in Jetscape file does not match the number of events specified by the comments in the Jetscape file!")).
Proof.
  intros Hk Hn. unfold reconcile. rewrite Hk, orb_true_r.
  destruct (Z.eqb_spec (Z.of_nat (List.length particle_list))
              (num_events_ self));
    [contradiction|reflexivity].
Qed.

(** ** Loads without filters *)

Section Unfiltered.

Variable table : PDGTable.
Variable F : FilterLib (list (list Particle)).
Variable kwargs : list (string * pyval).
Hypothesis no_filters : dict_get "filters" kwargs = None.

Lemma process_line_keeps_table i line st st' :
  process_line table F kwargs i line st = Ok st' ->
  per_event st' = per_event st.
Proof.
  unfold process_line, filter_data. rewrite no_filters. cbn [bind].
  destruct (contains "#" line && contains "sigmaGen" line).
  { intros H; injection H as <-. reflexivity. }
  destruct (Nat.eqb i 0 && negb (contains "#" line)
            && negb (contains "weight" line)); [discriminate|].
  destruct (contains "Event" line && contains "weight" line).
  - destruct (first_event_header kwargs); cbn [bind]; [|discriminate].
    destruct (list_get (tokens_of line) 2); cbn [bind]; [|discriminate].
    destruct (py_int (PyStr _)); cbn [bind]; [|discriminate].
    destruct (_ =? _); intros H; injection H as <-; reflexivity.
  - destruct (Particle.init _ _ _) as [[p w]|]; cbn [bind]; [|discriminate].
    intros H; injection H as <-. reflexivity.
Qed.

Lemma read_loop_keeps_table n : forall i lines st,
  per_event (fst (read_loop table F kwargs n i lines st)) = per_event st.
Proof.
  induction n as [|n IH]; intros i lines st; cbn [read_loop]; [reflexivity|].
  destruct lines as [|line rest]; [reflexivity|].
  destruct (process_line table F kwargs i line st) as [st'|e] eqn:Hp;
    [|reflexivity].
  rewrite IH. exact (process_line_keeps_table _ _ _ _ Hp).
Qed.

Lemma check_particletype_arguments self self1 :
  check_particletype kwargs self = Ok self1 ->
  optional_arguments_ self1 = optional_arguments_ self.
Proof.
  unfold check_particletype.
  destruct (dict_get "particletype" kwargs) as [[| | | |kind| |]|];
    cbn [bind]; try discriminate.
  - destruct (String.eqb kind "hadron" || String.eqb kind "parton");
      cbn [bind]; [|discriminate].
    intros H; injection H as <-. reflexivity.
  - intros H; injection H as <-. reflexivity.
Qed.

Lemma set_num_output_per_event_arguments fs self :
  optional_arguments_ (fst (set_num_output_per_event fs self)) =
  optional_arguments_ self.
Proof.
  unfold set_num_output_per_event.
  destruct (bind _ _); reflexivity.
Qed.

(** Whenever [load] with [events=(a, b)] and no filters returns, the loader
    holds the rows [a..b] of the table of the index pass and the event count
    [b - a + 1]. *)
Lemma load_range_when_it_returns fs a b self self1 self' r :
  dict_get "events" kwargs = Some (PyTuple [PyInt a; PyInt b]) ->
  check_particletype kwargs (set_optional_arguments self kwargs) = Ok self1 ->
  load table F fs kwargs self = (self', Ok r) ->
  num_events_ self' = b - a + 1 /\
  num_output_per_event_ self' =
  slice (num_output_per_event_ (fst (set_num_output_per_event fs self1)))
        a (b + 1) /\
  r = (fst (fst r), b - a + 1, num_output_per_event_ self').
Proof.
  intros Hev Hcheck. unfold load.
  destruct (check_keys kwargs); cbn [bind]; [|discriminate].
  destruct (check_events kwargs); cbn [bind]; [|discriminate].
  rewrite Hcheck.
  pose proof (check_particletype_arguments _ _ Hcheck) as Hargs1.
  pose proof (set_num_output_per_event_arguments fs self1) as Hargs2.
  destruct (set_num_output_per_event fs self1) as [self2 [[]|e]];
    [|discriminate].
  cbn [fst] in *. unfold set_particle_list.
  destruct (bind _ _) as [[num_read_lines lines]|]; [|discriminate].
  pose proof (read_loop_keeps_table (Z.to_nat num_read_lines) 0%nat lines
                {| particle_list := []; data := []; shared := [];
                   per_event := num_output_per_event_ self2 |}) as Hkeep.
  destruct (read_loop _ _ _ _ _ _ _) as [st [[]|e]]; [|discriminate].
  cbn [fst per_event] in Hkeep.
  rewrite (reconcile_range a b kwargs) by
    (try exact Hev; cbn [set_table optional_arguments_];
     rewrite Hargs2, Hargs1; reflexivity).
  intros H; injection H as <- <-.
  cbn [set_num_events set_table num_events_ num_output_per_event_ fst].
  rewrite Hkeep. repeat split.
Qed.

End Unfiltered.

(** A file whose events hold no particle loads: the second of two empty
    events. *)
Lemma load_second_empty_event table F :
  load table F (disk "run.dat" two_empty_events)
       [("events", PyTuple [PyInt 1; PyInt 1])] (loader_for "run.dat")
  = ({| PATH_JETSCAPE_ := "run.dat"; particle_type_ := "hadron";
        particle_type_defining_string_ := "N_hadrons";
        optional_arguments_ := [("events", PyTuple [PyInt 1; PyInt 1])];
        num_output_per_event_ := [(2, 0)]; num_events_ := 1 |},
     Ok ([[]], 1, [(2, 0)])).
Proof. vm_compute. reflexivity. Qed.

(** C3, at the failing input.  The file holds two events of one pion each
    and [load] is called with [events=(0, 0)].  The index pass counts 2
    events; the read pass raises [TypeError] on the first particle line, so
    the block that would set the event count to 1 and keep the row of event
    0 never runs: the loader is left with the event count 2 and both rows. *)
Theorem load_stops_at_first_particle table F :
  load table F (disk "run.dat" two_pions) first_event_only
       (loader_for "run.dat")
  = ({| PATH_JETSCAPE_ := "run.dat"; particle_type_ := "hadron";
        particle_type_defining_string_ := "N_hadrons";
        optional_arguments_ := first_event_only;
        num_output_per_event_ := [(1, 1); (2, 1)]; num_events_ := 2 |},
     Raise unsupported_operand).
Proof. vm_compute. reflexivity. Qed.

End LoaderFacts.

(* ================================================================== *)
(** * More of Particle.py: kinematics *)
(* ================================================================== *)

Module KinematicsFacts.
Import Py Particle Examples ParticleFacts.

Local Open Scope R_scope.

(** ** Numeric attributes *)

Lemma number_of_real v r : to_real v = Ok r -> is_number v = true.
Proof. destruct v; simpl; intros H; try discriminate; reflexivity. Qed.

Lemma p_abs_value p rx ry rz :
  to_real (p px_) = Ok rx -> to_real (p py_) = Ok ry ->
  to_real (p pz_) = Ok rz ->
  p_abs p = Ok (sqrt (rx ^ 2 + ry ^ 2 + rz ^ 2)).
Proof.
  intros Hx Hy Hz. unfold p_abs, px, py, pz, pow2.
  rewrite !getter_number by (eapply number_of_real; eassumption).
  cbn [bind]. rewrite Hx, Hy, Hz. reflexivity.
Qed.

Lemma pt_abs_value p rx ry :
  to_real (p px_) = Ok rx -> to_real (p py_) = Ok ry ->
  pt_abs p = Ok (sqrt (rx ^ 2 + ry ^ 2)).
Proof.
  intros Hx Hy. unfold pt_abs, px, py, pow2.
  rewrite !getter_number by (eapply number_of_real; eassumption).
  cbn [bind]. rewrite Hx, Hy. reflexivity.
Qed.

Lemma norm_square rx ry rz :
  sqrt (rx ^ 2 + ry ^ 2 + rz ^ 2) * sqrt (rx ^ 2 + ry ^ 2 + rz ^ 2) =
  rx ^ 2 + ry ^ 2 + rz ^ 2.
Proof. apply sqrt_def. nra. Qed.

Lemma norm_zero rx ry rz :
  sqrt (rx ^ 2 + ry ^ 2 + rz ^ 2) = 0 -> rx = 0 /\ ry = 0 /\ rz = 0.
Proof.
  intros H. pose proof (norm_square rx ry rz) as Hs. rewrite H in Hs.
  repeat split; nra.
Qed.

(** ** Proper time and spatial rapidity *)

Lemma half_ln_exp q : 0 < q -> exp (0.5 * ln q) = sqrt q.
Proof.
  intros H. rewrite <- (Rpower_sqrt q H). unfold Rpower. f_equal. lra.
Qed.

(** X1.  For a particle whose [t] and [z] are numbers: inside the light
    cone, [|z| < t], [proper_time] and [spatial_rapidity] return finite
    values [tau > 0] and [eta] that are the Milne coordinates of the point,
    [t = tau cosh eta] and [z = tau sinh eta]; on and outside the light
    cone, [t <= |z|], both raise [ValueError]. *)
Theorem proper_time_coordinates p rt rz :
  to_real (p t_) = Ok rt -> to_real (p z_) = Ok rz ->
  (Rabs rz < rt ->
   exists tau eta,
     proper_time p = Ok (Finite tau) /\
     spatial_rapidity p = Ok (Finite eta) /\
     0 < tau /\ tau * cosh eta = rt /\ tau * sinh eta = rz) /\
  (rt <= Rabs rz ->
   proper_time p = Raise (ValueError "|z| < t not fulfilled") /\
   spatial_rapidity p = Raise (ValueError "|z| < t not fulfilled")).
Proof.
  intros Ht Hz.
  assert (Hnt := number_of_real _ _ Ht). assert (Hnz := number_of_real _ _ Hz).
  assert (Hcone : inside_light_cone p =
                  Ok (if Rlt_dec (Rabs rz) rt then true else false)).
  { unfold inside_light_cone, t, z, np_abs.
    rewrite !getter_number by assumption. cbn [bind].
    rewrite Hz, Ht. reflexivity. }
  split.
  - intros Hin.
    assert (Hb : - rt < rz < rt) by (apply Rabs_def2 in Hin; lra).
    assert (Ha : 0 < rt + rz) by lra.
    assert (Hd : 0 < rt - rz) by lra.
    destruct (Rlt_dec (Rabs rz) rt) as [_|]; [|contradiction].
    exists (sqrt ((rt + rz) * (rt - rz))), (0.5 * ln ((rt + rz) / (rt - rz))).
    split; [|split].
    + unfold proper_time. rewrite Hcone. cbn [bind].
      unfold t, z, pow2. rewrite !getter_number by assumption. cbn [bind].
      rewrite Ht, Hz. cbn [bind]. unfold np_sqrt.
      replace (rt ^ 2 - rz ^ 2) with ((rt + rz) * (rt - rz)) by ring.
      destruct (Rle_dec 0 ((rt + rz) * (rt - rz))) as [_|N]; [reflexivity|].
      exfalso. apply N. apply Rlt_le. apply Rmult_lt_0_compat; assumption.
    + unfold spatial_rapidity. rewrite Hcone. cbn [bind].
      unfold t, z, py_add, py_sub. rewrite !getter_number by assumption.
      cbn [bind]. rewrite Ht, Hz. cbn [bind]. unfold np_div.
      destruct (Req_dec_T (rt - rz) 0) as [E0|_]; [lra|]. cbn [np_log].
      destruct (Rlt_dec 0 ((rt + rz) / (rt - rz))) as [_|N]; [reflexivity|].
      exfalso. apply N. apply Rdiv_lt_0_compat; assumption.
    + assert (Hq : 0 < (rt + rz) / (rt - rz))
        by (apply Rdiv_lt_0_compat; assumption).
      assert (Hsa : 0 < sqrt (rt + rz)) by (apply sqrt_lt_R0; exact Ha).
      assert (Hsd : 0 < sqrt (rt - rz)) by (apply sqrt_lt_R0; exact Hd).
      assert (Ea : sqrt (rt + rz) * sqrt (rt + rz) = rt + rz)
        by (apply sqrt_def; lra).
      assert (Ed : sqrt (rt - rz) * sqrt (rt - rz) = rt - rz)
        by (apply sqrt_def; lra).
      unfold cosh, sinh. rewrite exp_Ropp, (half_ln_exp _ Hq).
      rewrite sqrt_mult by lra. rewrite sqrt_div by lra.
      set (sa := sqrt (rt + rz)) in *. set (sd := sqrt (rt - rz)) in *.
      split; [apply Rmult_lt_0_compat; assumption|].
      split.
      * replace (sa * sd * ((sa / sd + / (sa / sd)) / 2))
          with ((sa * sa + sd * sd) / 2) by (field; lra).
        rewrite Ea, Ed. lra.
      * replace (sa * sd * ((sa / sd - / (sa / sd)) / 2))
          with ((sa * sa - sd * sd) / 2) by (field; lra).
        rewrite Ea, Ed. lra.
  - intros Hout.
    destruct (Rlt_dec (Rabs rz) rt) as [|_]; [lra|].
    unfold proper_time, spatial_rapidity. rewrite Hcone. split; reflexivity.
Qed.

(** A point at [t = 2], [z = 1]. *)
Lemma proper_time_coordinates_witness :
  exists tau eta,
    proper_time (particle_in_spacetime 2 1) = Ok (Finite tau) /\
    spatial_rapidity (particle_in_spacetime 2 1) = Ok (Finite eta) /\
    0 < tau /\ tau * cosh eta = 2 /\ tau * sinh eta = 1.
Proof.
  destruct (proper_time_coordinates (particle_in_spacetime 2 1) 2 1
              eq_refl eq_refl) as [Hinside _].
  apply Hinside. rewrite Rabs_R1. lra.
Defined.

(** ** The azimuthal angle *)

(** The polar decomposition behind [atan2]. *)
Lemma atan2_polar y x :
  x <> 0 \/ y <> 0 ->
  sqrt (x ^ 2 + y ^ 2) * cos (atan2 y x) = x /\
  sqrt (x ^ 2 + y ^ 2) * sin (atan2 y x) = y.
Proof.
  intros Hxy. unfold atan2.
  assert (Hroot : forall t, 0 < sqrt (1 + t²)).
  { intros t. apply sqrt_lt_R0. unfold Rsqr. nra. }
  assert (Hnorm : x <> 0 ->
            sqrt (x ^ 2 + y ^ 2) = Rabs x * sqrt (1 + (y / x)²)).
  { intros Hx. rewrite <- (sqrt_Rsqr_abs x), <- sqrt_mult.
    - f_equal. unfold Rsqr. field. exact Hx.
    - apply Rle_0_sqr.
    - unfold Rsqr. nra. }
  destruct (Rlt_dec 0 x) as [Hpos|Hnpos].
  - rewrite cos_atan, sin_atan, Hnorm by lra.
    rewrite Rabs_right by lra. pose proof (Hroot (y / x)).
    split; field; lra.
  - destruct (Rlt_dec x 0) as [Hneg|Hnneg].
    + assert (Hn := Hnorm ltac:(lra)). rewrite Rabs_left in Hn by lra.
      pose proof (Hroot (y / x)).
      destruct (Rle_dec 0 y).
      * rewrite neg_cos, neg_sin, cos_atan, sin_atan, Hn. split; field; lra.
      * replace (atan (y / x) - PI) with (- (PI - atan (y / x))) by ring.
        rewrite cos_neg, sin_neg.
        replace (PI - atan (y / x)) with (- atan (y / x) + PI) by ring.
        rewrite neg_cos, neg_sin, cos_neg, sin_neg, cos_atan, sin_atan, Hn.
        split; field; lra.
    + assert (x = 0) by lra. subst x.
      replace (0 ^ 2 + y ^ 2) with (y ^ 2) by ring.
      destruct (Rlt_dec 0 y).
      * rewrite sqrt_pow2 by lra. rewrite cos_PI2, sin_PI2. split; ring.
      * destruct (Rlt_dec y 0); [|lra].
        rewrite cos_neg, sin_neg, cos_PI2, sin_PI2.
        replace (y ^ 2) with ((- y) ^ 2) by ring.
        rewrite sqrt_pow2 by lra. split; ring.
Qed.

Lemma atan2_range y x : - PI < atan2 y x <= PI.
Proof.
  unfold atan2. pose proof PI_RGT_0. pose proof (atan_bound (y / x)).
  destruct (Rlt_dec 0 x); [lra|].
  destruct (Rlt_dec x 0).
  - destruct (Rle_dec 0 y).
    + assert (y / x <= 0).
      { assert (/ x < 0) by (apply Rinv_lt_0_compat; lra).
        unfold Rdiv. nra. }
      assert (atan (y / x) <= 0).
      { rewrite <- atan_0. destruct (Req_dec (y / x) 0) as [->|].
        - lra. - apply Rlt_le. apply atan_increasing. lra. }
      lra.
    + assert (0 < y / x).
      { assert (/ x < 0) by (apply Rinv_lt_0_compat; lra).
        unfold Rdiv. nra. }
      assert (0 < atan (y / x)).
      { rewrite <- atan_0. apply atan_increasing. lra. }
      lra.
  - destruct (Rlt_dec 0 y); [lra|]. destruct (Rlt_dec y 0); lra.
Qed.

(** X2.  For a particle whose [px] and [py] are numbers, [phi] returns an
    angle in [(-pi, pi]]; unless both components are below [1e-6] in
    magnitude it is the direction of the transverse momentum,
    [px = pt cos phi] and [py = pt sin phi] with [pt = pt_abs()]; when both
    are below [1e-6] the angle is 0. *)
Theorem phi_polar_decomposition p rx ry :
  to_real (p px_) = Ok rx -> to_real (p py_) = Ok ry ->
  exists pt azimuth,
    pt_abs p = Ok pt /\ phi p = Ok azimuth /\
    - PI < azimuth <= PI /\
    (1e-6 <= Rabs rx \/ 1e-6 <= Rabs ry ->
     pt * cos azimuth = rx /\ pt * sin azimuth = ry) /\
    (Rabs rx < 1e-6 /\ Rabs ry < 1e-6 -> azimuth = 0).
Proof.
  intros Hx Hy.
  assert (Hnx := number_of_real _ _ Hx). assert (Hny := number_of_real _ _ Hy).
  pose proof PI_RGT_0.
  exists (sqrt (rx ^ 2 + ry ^ 2)).
  assert (Hphi : phi p =
            Ok (if Rlt_dec (Rabs rx) 1e-6
                then if Rlt_dec (Rabs ry) 1e-6 then 0 else atan2 ry rx
                else atan2 ry rx)).
  { unfold phi, px, py, np_abs. rewrite !getter_number by assumption.
    cbn [bind]. rewrite Hx, Hy. cbn [bind].
    destruct (Rlt_dec (Rabs rx) 1e-6); [|reflexivity].
    cbn [bind].
    destruct (Rlt_dec (Rabs ry) 1e-6); reflexivity. }
  eexists. split; [apply pt_abs_value; assumption|].
  split; [exact Hphi|].
  pose proof (atan2_range ry rx).
  split; [|split].
  - destruct (Rlt_dec (Rabs rx) 1e-6); [destruct (Rlt_dec (Rabs ry) 1e-6)|];
      lra.
  - intros Hbig.
    assert (Hnz : rx <> 0 \/ ry <> 0).
    { destruct Hbig as [Hb|Hb]; [left|right]; intros ->;
        rewrite Rabs_R0 in Hb; lra. }
    destruct (Rlt_dec (Rabs rx) 1e-6); [destruct (Rlt_dec (Rabs ry) 1e-6)|];
      try (apply atan2_polar; exact Hnz).
    lra.
  - intros [Hsx Hsy].
    destruct (Rlt_dec (Rabs rx) 1e-6); [|contradiction].
    destruct (Rlt_dec (Rabs ry) 1e-6); [reflexivity|contradiction].
Qed.

(** The transverse momentum [(3, 4)]. *)
Lemma phi_polar_decomposition_witness :
  exists pt azimuth,
    pt_abs (particle_at 3 4 1) = Ok pt /\ phi (particle_at 3 4 1) = Ok azimuth /\
    - PI < azimuth <= PI /\
    pt * cos azimuth = 3 /\ pt * sin azimuth = 4.
Proof.
  destruct (phi_polar_decomposition (particle_at 3 4 1) 3 4 eq_refl eq_refl)
    as (pt & azimuth & Hpt & Hphi & Hrange & Hpolar & _).
  exists pt, azimuth. split; [exact Hpt|]. split; [exact Hphi|].
  split; [exact Hrange|]. apply Hpolar. left.
  rewrite Rabs_right; lra.
Defined.

(** ** The polar angle *)

(** X3.  For a particle whose momentum components are numbers, [theta]
    returns a finite angle in [[0, pi]] that is the polar angle of the
    momentum: [pz = |p| cos theta] and [pt = |p| sin theta]; a particle at
    rest, [|p| = 0], gets the angle 0. *)
Theorem theta_polar_angle p rx ry rz :
  to_real (p px_) = Ok rx -> to_real (p py_) = Ok ry ->
  to_real (p pz_) = Ok rz ->
  exists polar,
    theta p = Ok (Finite polar) /\ 0 <= polar <= PI /\
    sqrt (rx ^ 2 + ry ^ 2 + rz ^ 2) * cos polar = rz /\
    sqrt (rx ^ 2 + ry ^ 2 + rz ^ 2) * sin polar = sqrt (rx ^ 2 + ry ^ 2) /\
    (sqrt (rx ^ 2 + ry ^ 2 + rz ^ 2) = 0 -> polar = 0).
Proof.
  intros Hx Hy Hz. pose proof PI_RGT_0.
  assert (Hnz := number_of_real _ _ Hz).
  unfold theta. rewrite (p_abs_value p rx ry rz Hx Hy Hz). cbn [bind].
  pose proof (norm_square rx ry rz) as Hsq.
  pose proof (sqrt_pos (rx ^ 2 + ry ^ 2 + rz ^ 2)) as Hpos.
  set (r := sqrt (rx ^ 2 + ry ^ 2 + rz ^ 2)) in *.
  destruct (Req_dec_T r 0) as [Hr0|Hr].
  - exists 0. destruct (norm_zero rx ry rz Hr0) as (-> & -> & ->).
    split; [reflexivity|]. split; [lra|].
    rewrite cos_0, sin_0, Hr0.
    replace (0 ^ 2 + 0 ^ 2) with 0 by ring. rewrite sqrt_0.
    split; [ring|]. split; [ring|]. intros _. reflexivity.
  - unfold pz. rewrite getter_number by assumption. cbn [bind].
    rewrite Hz. cbn [bind]. unfold np_div.
    destruct (Req_dec_T r 0) as [|_]; [contradiction|]. cbn [np_arccos].
    assert (Hr2 : 0 < r) by lra.
    assert (Hq : -1 <= rz / r <= 1).
    { assert (Hrz : rz ^ 2 <= r * r) by nra.
      assert (- r <= rz <= r) by (split; nra).
      split.
      - apply Rmult_le_reg_r with r; [exact Hr2|].
        replace (rz / r * r) with rz by (field; lra). lra.
      - apply Rmult_le_reg_r with r; [exact Hr2|].
        replace (rz / r * r) with rz by (field; lra). lra. }
    destruct (Rle_dec (-1) (rz / r)) as [_|N]; [|lra].
    destruct (Rle_dec (rz / r) 1) as [_|N]; [|lra].
    exists (acos (rz / r)). split; [reflexivity|].
    split; [apply acos_bound|].
    split; [rewrite cos_acos by exact Hq; field; lra|].
    split; [|intros Hr0; contradiction].
    rewrite sin_acos by exact Hq.
    rewrite <- (sqrt_square r) at 1 by lra.
    rewrite <- sqrt_mult.
    + f_equal. unfold Rsqr. field_simplify; [|lra]. nra.
    + nra.
    + unfold Rsqr. destruct Hq as [Hq1 Hq2]. nra.
Qed.

(** The momentum [(0, 3, 4)]. *)
Lemma theta_polar_angle_witness :
  exists polar,
    theta (particle_with_momentum 5 0 3 4) = Ok (Finite polar) /\
    0 <= polar <= PI /\
    sqrt (0 ^ 2 + 3 ^ 2 + 4 ^ 2) * cos polar = 4 /\
    sqrt (0 ^ 2 + 3 ^ 2 + 4 ^ 2) * sin polar = sqrt (0 ^ 2 + 3 ^ 2) /\
    (sqrt (0 ^ 2 + 3 ^ 2 + 4 ^ 2) = 0 -> polar = 0).
Proof.
  apply (theta_polar_angle (particle_with_momentum 5 0 3 4) 0 3 4);
    reflexivity.
Defined.

(** ** The rapidities *)

Lemma momentum_rapidity_Y_value p e rz :
  to_real (p E_) = Ok e -> to_real (p pz_) = Ok rz ->
  momentum_rapidity_Y p = Ok (regularised (e + rz) (e - rz)).
Proof.
  intros He Hz. unfold momentum_rapidity_Y, E, pz, py_sub, py_add.
  rewrite !getter_number by (eapply number_of_real; eassumption).
  cbn [bind]. rewrite He, Hz. cbn [bind]. unfold regularised.
  destruct (Rlt_dec (Rabs (e - rz)) 1e-10); reflexivity.
Qed.

Lemma pseudorapidity_value p rx ry rz :
  to_real (p px_) = Ok rx -> to_real (p py_) = Ok ry ->
  to_real (p pz_) = Ok rz ->
  pseudorapidity p =
  Ok (regularised (sqrt (rx ^ 2 + ry ^ 2 + rz ^ 2) + rz)
                  (sqrt (rx ^ 2 + ry ^ 2 + rz ^ 2) - rz)).
Proof.
  intros Hx Hy Hz. unfold pseudorapidity.
  rewrite (p_abs_value p rx ry rz Hx Hy Hz). unfold pz.
  rewrite !getter_number by (eapply number_of_real; eassumption).
  cbn [bind]. rewrite Hz. cbn [bind]. unfold regularised.
  destruct (Rlt_dec _ 1e-10); reflexivity.
Qed.

(** The divisor is never zero; the quotient is positive exactly when the
    numerator is, for a difference that is not negative. *)
Lemma regularised_finite num diff :
  0 <= diff -> 0 < num ->
  exists v, regularised num diff = Finite v /\
            (1e-10 <= diff -> exp (2 * v) * diff = num).
Proof.
  intros Hd Hn. unfold regularised.
  set (den := if Rlt_dec (Rabs diff) 1e-10 then diff + 1e-10 else diff).
  assert (Hden : 0 < den).
  { unfold den. rewrite (Rabs_right diff) by lra.
    destruct (Rlt_dec diff 1e-10); lra. }
  unfold np_div. destruct (Req_dec_T den 0) as [|_]; [lra|]. cbn [np_log].
  assert (Hq : 0 < num / den) by (apply Rdiv_lt_0_compat; assumption).
  destruct (Rlt_dec 0 (num / den)) as [_|]; [|contradiction].
  cbn [np_scale]. eexists. split; [reflexivity|].
  intros Hbig. replace (2 * (0.5 * ln (num / den))) with (ln (num / den))
    by lra.
  rewrite exp_ln by exact Hq.
  assert (den = diff).
  { unfold den. rewrite (Rabs_right diff) by lra.
    destruct (Rlt_dec diff 1e-10); lra. }
  subst den. rewrite H. field. lra.
Qed.

Lemma regularised_zero diff :
  0 <= diff -> regularised 0 diff = NotFinite.
Proof.
  intros Hd. unfold regularised.
  set (den := if Rlt_dec (Rabs diff) 1e-10 then diff + 1e-10 else diff).
  assert (Hden : 0 < den).
  { unfold den. rewrite (Rabs_right diff) by lra.
    destruct (Rlt_dec diff 1e-10); lra. }
  unfold np_div. destruct (Req_dec_T den 0) as [|_]; [lra|]. cbn [np_log].
  replace (0 / den) with 0 by (field; lra).
  destruct (Rlt_dec 0 0); [lra|reflexivity].
Qed.

(** X4.  For a particle whose [E] and [pz] are numbers with [|pz| <= E]:
    the division of [momentum_rapidity_Y] is never by zero; with
    [E + pz > 0] the rapidity is finite, and it is the rapidity of the
    formula, [exp(2 Y) (E - pz) = E + pz], whenever [E - pz] is at least
    [1e-10] (below that the divisor is shifted by [1e-10]); with
    [E + pz = 0] the result is not finite (the logarithm of 0). *)
Theorem momentum_rapidity_Y_finite p e rz :
  to_real (p E_) = Ok e -> to_real (p pz_) = Ok rz -> Rabs rz <= e ->
  (0 < e + rz ->
   exists Y, momentum_rapidity_Y p = Ok (Finite Y) /\
             (1e-10 <= e - rz -> exp (2 * Y) * (e - rz) = e + rz)) /\
  (e + rz = 0 -> momentum_rapidity_Y p = Ok NotFinite).
Proof.
  intros He Hz Hc. rewrite (momentum_rapidity_Y_value p e rz He Hz).
  assert (Hb : - e <= rz <= e).
  { unfold Rabs in Hc. destruct (Rcase_abs rz); lra. }
  split.
  - intros Hn. destruct (regularised_finite (e + rz) (e - rz)) as (v & -> & Hv);
      try lra.
    exists v. split; [reflexivity|exact Hv].
  - intros ->. rewrite regularised_zero by lra. reflexivity.
Qed.

(** Energy 2 and longitudinal momentum 1. *)
Lemma momentum_rapidity_Y_finite_witness :
  exists Y,
    momentum_rapidity_Y (particle_with_momentum 2 0 0 1) = Ok (Finite Y) /\
    (1e-10 <= 2 - 1 -> exp (2 * Y) * (2 - 1) = 2 + 1).
Proof.
  destruct (momentum_rapidity_Y_finite (particle_with_momentum 2 0 0 1) 2 1
              eq_refl eq_refl) as [Hfinite _].
  - rewrite Rabs_R1. lra.
  - apply Hfinite. lra.
Defined.

(** X5.  For a particle whose momentum components are numbers,
    [pseudorapidity] raises nothing.  For a particle moving forward,
    [pz > 0], the result is finite, and it is the pseudorapidity of the
    formula, [exp(2 eta) (|p| - pz) = |p| + pz], whenever [|p| - pz] is at
    least [1e-10] (below that the divisor is shifted by [1e-10]).  For a
    particle at rest or on the negative z axis, [px = py = 0] and
    [pz <= 0], the result is not finite (the logarithm of 0).  Of a
    particle with [pz <= 0] and a transverse momentum nothing more is
    stated: there the sign of [|p| + pz] hangs on the rounding of the
    square root. *)
Theorem pseudorapidity_finite p rx ry rz :
  to_real (p px_) = Ok rx -> to_real (p py_) = Ok ry ->
  to_real (p pz_) = Ok rz ->
  (exists value, pseudorapidity p = Ok value) /\
  (0 < rz ->
   exists eta, pseudorapidity p = Ok (Finite eta) /\
     (1e-10 <= sqrt (rx ^ 2 + ry ^ 2 + rz ^ 2) - rz ->
      exp (2 * eta) * (sqrt (rx ^ 2 + ry ^ 2 + rz ^ 2) - rz) =
      sqrt (rx ^ 2 + ry ^ 2 + rz ^ 2) + rz)) /\
  (rx = 0 /\ ry = 0 /\ rz <= 0 -> pseudorapidity p = Ok NotFinite).
Proof.
  intros Hx Hy Hz. rewrite (pseudorapidity_value p rx ry rz Hx Hy Hz).
  pose proof (norm_square rx ry rz) as Hsq.
  pose proof (sqrt_pos (rx ^ 2 + ry ^ 2 + rz ^ 2)) as Hpos.
  set (r := sqrt (rx ^ 2 + ry ^ 2 + rz ^ 2)) in *.
  assert (Hb : - r <= rz <= r) by (split; nra).
  split; [eexists; reflexivity|].
  split.
  - intros Hforward.
    assert (Hn : 0 < r + rz) by lra.
    destruct (regularised_finite (r + rz) (r - rz)) as (v & -> & Hv); try lra.
    exists v. split; [reflexivity|exact Hv].
  - intros (-> & -> & Hneg).
    assert (Hr : r = - rz).
    { assert (r * r = rz * rz) by nra. nra. }
    rewrite Hr. replace (- rz + rz) with 0 by ring.
    apply f_equal. apply regularised_zero. lra.
Qed.

(** The momentum [(0, 3, 4)]. *)
Lemma pseudorapidity_finite_witness :
  exists eta,
    pseudorapidity (particle_with_momentum 5 0 3 4) = Ok (Finite eta) /\
    (1e-10 <= sqrt (0 ^ 2 + 3 ^ 2 + 4 ^ 2) - 4 ->
     exp (2 * eta) * (sqrt (0 ^ 2 + 3 ^ 2 + 4 ^ 2) - 4) =
     sqrt (0 ^ 2 + 3 ^ 2 + 4 ^ 2) + 4).
Proof.
  destruct (pseudorapidity_finite (particle_with_momentum 5 0 3 4) 0 3 4
              eq_refl eq_refl eq_refl) as (_ & Hfinite & _).
  apply Hfinite. lra.
Defined.

(** ** The mass *)

(** X6.  For a particle whose [E] and momentum components are numbers,
    [compute_mass_from_energy_momentum] returns a float that is never
    negative: the on-shell mass, [m > 0] and [m^2 = E^2 - |p|^2], when
    [E^2 - |p|^2] exceeds [1e-6], and 0 otherwise (light-like within the
    tolerance, or space-like). *)
Theorem compute_mass_on_shell p e rx ry rz :
  to_real (p E_) = Ok e -> to_real (p px_) = Ok rx ->
  to_real (p py_) = Ok ry -> to_real (p pz_) = Ok rz ->
  exists m,
    compute_mass_from_energy_momentum p = Ok (PyFloat m) /\
    (1e-6 < e ^ 2 - (rx ^ 2 + ry ^ 2 + rz ^ 2) ->
     0 < m /\ m ^ 2 = e ^ 2 - (rx ^ 2 + ry ^ 2 + rz ^ 2)) /\
    (e ^ 2 - (rx ^ 2 + ry ^ 2 + rz ^ 2) <= 1e-6 -> m = 0).
Proof.
  intros He Hx Hy Hz.
  unfold compute_mass_from_energy_momentum, E, pow2.
  rewrite (p_abs_value p rx ry rz Hx Hy Hz).
  rewrite !getter_number by (eapply number_of_real; eassumption).
  cbn [bind]. rewrite He. cbn [bind].
  pose proof (norm_square rx ry rz) as Hsq.
  set (r := sqrt (rx ^ 2 + ry ^ 2 + rz ^ 2)) in *.
  replace (r ^ 2) with (rx ^ 2 + ry ^ 2 + rz ^ 2) by (rewrite <- Hsq; ring).
  set (d := e ^ 2 - (rx ^ 2 + ry ^ 2 + rz ^ 2)).
  destruct (Rlt_dec 1e-6 (Rabs d)) as [Hbig|Hsmall].
  - destruct (Rlt_dec 0 d) as [Hpos|Hneg].
    + exists (sqrt d). split; [reflexivity|]. split.
      * intros _. split; [apply sqrt_lt_R0; exact Hpos|].
        replace (sqrt d ^ 2) with (sqrt d * sqrt d) by ring.
        apply sqrt_def. lra.
      * intros Hle. rewrite Rabs_right in Hbig by lra. lra.
    + exists 0. split; [reflexivity|]. split; [intros; lra|reflexivity].
  - exists 0. split; [reflexivity|]. split; [|reflexivity].
    intros Hd. rewrite Rabs_right in Hsmall by lra. lra.
Qed.

(** Energy 5 and momentum [(0, 3, 0)]: the mass squared is 16. *)
Lemma compute_mass_on_shell_witness :
  exists m,
    compute_mass_from_energy_momentum (particle_with_momentum 5 0 3 0)
    = Ok (PyFloat m) /\
    (1e-6 < 5 ^ 2 - (0 ^ 2 + 3 ^ 2 + 0 ^ 2) ->
     0 < m /\ m ^ 2 = 5 ^ 2 - (0 ^ 2 + 3 ^ 2 + 0 ^ 2)) /\
    (5 ^ 2 - (0 ^ 2 + 3 ^ 2 + 0 ^ 2) <= 1e-6 -> m = 0).
Proof.
  apply (compute_mass_on_shell (particle_with_momentum 5 0 3 0) 5 0 3 0);
    reflexivity.
Defined.

End KinematicsFacts.

(* ================================================================== *)
(** * More of Particle.py: the PDG code and the constructor *)
(* ================================================================== *)

Module CodeFacts.
Import Py Particle Examples ParticleFacts.

(** ** Queries on a validated code *)

Lemma pdg_query_after_validation {A} table (default : A) field self code :
  is_number (self pdg_) = true -> py_int (self pdg_) = Ok code ->
  self pdg_valid_ = PyBool (pdg_is_valid table code) ->
  pdg_query default field self =
  Ok (if pdg_is_valid table code then field code else default).
Proof.
  intros Hn Hp Hv. unfold pdg_query, pdg_not_valid, pdg, PDGID.
  rewrite Hv, getter_number by exact Hn. cbn [truthy bind]. rewrite Hp.
  destruct (pdg_is_valid table code); reflexivity.
Qed.

Lemma heavy_flavor_after_validation table self code :
  is_number (self pdg_) = true -> py_int (self pdg_) = Ok code ->
  self pdg_valid_ = PyBool (pdg_is_valid table code) ->
  is_heavy_flavor table self =
  Ok (pdg_is_valid table code &&
      (pdg_has_charm table code || pdg_has_bottom table code
       || pdg_has_top table code)).
Proof.
  intros Hn Hp Hv. unfold is_heavy_flavor, pdg_not_valid, pdg, PDGID.
  rewrite Hv, !getter_number by exact Hn. cbn [truthy bind]. rewrite Hp.
  cbn [bind].
  destruct (pdg_is_valid table code); cbn [negb andb]; [|reflexivity].
  destruct (pdg_has_charm table code); [reflexivity|].
  destruct (pdg_has_bottom table code); reflexivity.
Qed.

(** X7.  The assignment [p.pdg = code] of an integer code stores the code,
    re-evaluates its validity (warning when it is not valid) and changes no
    other attribute (the stored charge in particular); afterwards every
    query derived from the code answers from the PDG table when the code
    is valid and with its neutral default ([None], [False]) when it is
    not. *)
Theorem pdg_assignment_revalidates table self code :
  exists self',
    set_pdg table self (PyInt code) =
    Ok (self', if pdg_is_valid table code then []
               else [PDGNotValid (PyInt code)]) /\
    pdg self' = Ok (PyInt code) /\
    (forall a, a <> pdg_ -> a <> pdg_valid_ -> self' a = self a) /\
    compute_charge_from_pdg table self' =
      Ok (if pdg_is_valid table code then pdg_charge table code else PyNone) /\
    spin table self' =
      Ok (if pdg_is_valid table code then pdg_J table code else PyNone) /\
    spin_degeneracy table self' =
      Ok (if pdg_is_valid table code then pdg_j_spin table code else PyNone) /\
    is_meson table self' =
      Ok (if pdg_is_valid table code then pdg_is_meson table code else false) /\
    is_baryon table self' =
      Ok (if pdg_is_valid table code then pdg_is_baryon table code else false) /\
    is_hadron table self' =
      Ok (if pdg_is_valid table code then pdg_is_hadron table code else false) /\
    is_strange table self' =
      Ok (if pdg_is_valid table code then pdg_has_strange table code
          else false) /\
    is_heavy_flavor table self' =
      Ok (pdg_is_valid table code &&
          (pdg_has_charm table code || pdg_has_bottom table code
           || pdg_has_top table code)).
Proof.
  eexists. split.
  { unfold set_pdg, validate_pdg, PDGID. rewrite setattr_same.
    cbn [py_int bind]. reflexivity. }
  assert (Hp : setattr (setattr self pdg_ (PyInt code)) pdg_valid_
                 (PyBool (pdg_is_valid table code)) pdg_ = PyInt code).
  { rewrite setattr_other by discriminate. apply setattr_same. }
  assert (Hv : setattr (setattr self pdg_ (PyInt code)) pdg_valid_
                 (PyBool (pdg_is_valid table code)) pdg_valid_
               = PyBool (pdg_is_valid table code)) by apply setattr_same.
  split; [unfold pdg, getter; rewrite Hp; reflexivity|].
  split.
  { intros a H1 H2. rewrite !setattr_other by congruence. reflexivity. }
  repeat split;
    try (apply (pdg_query_after_validation table _ _ _ code);
         [rewrite Hp; reflexivity | rewrite Hp; reflexivity | exact Hv]).
  apply (heavy_flavor_after_validation table _ code);
    [rewrite Hp; reflexivity | rewrite Hp; reflexivity | exact Hv].
Qed.

(** ** JETSCAPE particles *)

(** X8.  Every particle constructed in the JETSCAPE format from seven
    numbers has no charge stored, whatever its PDG code: reading the
    property [charge] raises [ValueError], although
    [compute_charge_from_pdg], called on the finished particle, returns the
    charge of the PDG table for a valid code (the constructor calls it
    before the validity of the code is set). *)
Theorem jetscape_charge_not_stored table particle_array :
  List.length particle_array = 7%nat -> numeric particle_array ->
  exists self warnings code,
    init table (Some "JETSCAPE") (Some particle_array) = Ok (self, warnings) /\
    py_int (nth 1 particle_array PyNone) = Ok code /\
    charge self = Raise (ValueError "charge not set") /\
    compute_charge_from_pdg table self =
    Ok (if pdg_is_valid table code then pdg_charge table code else PyNone).
Proof.
  intros Hlen Hnum. cbn [init].
  destruct (initialize_jetscape table particle_array Hlen Hnum)
    as (m & code & Hcode & ->).
  do 3 eexists. split; [reflexivity|]. split; [exact Hcode|].
  destruct particle_array as [|a0 [|a1 [|a2 [|a3 [|a4 [|a5 [|a6 [|]]]]]]]];
    try discriminate Hlen.
  assert (Ha1 : is_number a1 = true).
  { unfold numeric in Hnum. inversion Hnum as [|? ? _ Hrest]; subst.
    inversion Hrest; subst. assumption. }
  split.
  - unfold charge, getter. rewrite setattr_other by discriminate.
    rewrite setattr_same. reflexivity.
  - apply pdg_query_after_validation;
      [exact Ha1 | exact Hcode | apply setattr_same].
Qed.

(** A positive pion: the table gives the charge 1, the particle holds
    none. *)
Lemma jetscape_charge_not_stored_witness :
  exists self warnings code,
    init sample_table (Some "JETSCAPE")
      (Some [PyInt 0; PyInt 211; PyInt 27; PyFloat 2; PyFloat 1; PyFloat 1;
             PyFloat 1])
    = Ok (self, warnings) /\
    py_int (PyInt 211) = Ok code /\
    charge self = Raise (ValueError "charge not set") /\
    compute_charge_from_pdg sample_table self =
    Ok (if pdg_is_valid sample_table code then pdg_charge sample_table code
        else PyNone).
Proof.
  apply (jetscape_charge_not_stored sample_table
           [PyInt 0; PyInt 211; PyInt 27; PyFloat 2; PyFloat 1; PyFloat 1;
            PyFloat 1]).
  - reflexivity.
  - unfold numeric. repeat constructor.
Defined.

(** ** Formats *)

(** X9.  A format name that is not one of the five the constructor knows
    (the comparison is exact: case matters) makes the construction raise
    [ValueError], naming the format, whatever the array. *)
Theorem unsupported_format_rejected table input_format particle_array :
  ~ In input_format (map fst declared_columns) ->
  init table (Some input_format) (Some particle_array) =
  Raise (ValueError ("Unsupported input format '" ++ input_format ++ "'")).
Proof.
  intros Hn. cbn [init]. unfold initialize_from_array.
  assert (Hd : dict_get input_format attribute_mapping = None).
  { unfold attribute_mapping. cbn [dict_get].
    repeat match goal with
           | |- context [String.eqb input_format ?s] =>
               destruct (String.eqb_spec input_format s) as [->|_];
               [exfalso; apply Hn; simpl; tauto|]
           end.
    reflexivity. }
  rewrite Hd. reflexivity.
Qed.

(** The name in lower case. *)
Lemma unsupported_format_rejected_witness :
  init sample_table (Some "jetscape") (Some unknown_hadron_row) =
  Raise (ValueError "Unsupported input format 'jetscape'").
Proof.
  apply (unsupported_format_rejected sample_table "jetscape"
           unknown_hadron_row).
  simpl. intros [H|[H|[H|[H|[H|[]]]]]]; discriminate H.
Defined.

End CodeFacts.

(* ================================================================== *)
(** * More of flow/ReactionPlaneFlow.py *)
(* ================================================================== *)

Module FlowAverages.
Import Py Particle ReactionPlaneFlow Examples ParticleFacts FlowFacts.

Local Open Scope R_scope.

(** ** The constructor *)

(** X10.  [ReactionPlaneFlow(n)] returns a flow object exactly for an
    integer [n > 0] (a [bool] counts as an integer), the harmonic stored
    being [n]; it raises [TypeError] when [n] is not an integer and
    [ValueError] when the integer is 0 or negative. *)
Theorem flow_constructor_harmonic n :
  match init n with
  | Ok self =>
      isinstance_int n = true /\ py_int n = Ok (n_ self) /\ (0 < n_ self)%Z
  | Raise e =>
      (isinstance_int n = false /\ e = TypeError "n has to be int") \/
      (exists k, isinstance_int n = true /\ py_int n = Ok k /\ (k <= 0)%Z /\
         e = ValueError "n-th harmonic with value n<=0 can not be computed")
  end.
Proof.
  unfold init. destruct (isinstance_int n) eqn:Hint.
  - destruct n as [|b|k|r|s|items|entries]; try discriminate Hint;
      cbn [py_int bind].
    + destruct b; cbn [Z.leb]; [repeat split; lia|].
      right. exists 0%Z. repeat split. lia.
    + destruct (Z.leb_spec k 0).
      * right. exists k. repeat split. assumption.
      * repeat split. assumption.
  - left. split; reflexivity.
Qed.

(** ** The accumulation of one bin *)

Lemma bin_loop_sums n events : forall a b w0,
  Forall (Forall contributes) events ->
  bin_loop n events (Cfin a b, w0) =
  Ok (Cfin (a + Rsum (map (weighted_cos n) (List.concat events)))
           (b + Rsum (map (weighted_sin n) (List.concat events))),
      w0 + Rsum (map weight_or_one (List.concat events))).
Proof.
  induction events as [|event rest IH]; intros a b w0 Hc.
  - simpl. do 2 f_equal; [f_equal|]; lra.
  - inversion Hc as [|? ? Hce Hcr]; subst.
    cbn [bin_loop List.concat]. unfold czero.
    rewrite event_loop_contributes by assumption. cbn [bind cadd].
    rewrite IH by assumption. rewrite !map_app, !Rsum_app.
    do 2 f_equal; [f_equal|]; lra.
Qed.

Lemma bin_flow_average n events :
  Forall (Forall contributes) events ->
  bin_flow n events = Ok (bin_average n events).
Proof.
  intros Hc. unfold bin_flow, czero. rewrite bin_loop_sums by assumption.
  cbn [bind]. rewrite !Rplus_0_l. unfold bin_average.
  destruct (Req_dec_T _ 0) as [Hz|Hnz]; [reflexivity|].
  unfold np_cdiv, flat_average.
  destruct (Req_dec_T _ 0) as [Hz|_]; [contradiction|]. reflexivity.
Qed.

(** X11.  For a valid variable name and an ensemble whose particles carry
    numeric [E], [px], [py], [pz] and [weight] and a transverse momentum
    that is not 0, [differential_flow] returns, for each of the
    [len(bins) - 1] bins in order, the flat weighted average
    [sum w exp(i n phi) / sum w] over the particles of all events that fall
    into the bin, and the complex zero for a bin whose weights sum to zero
    (an empty bin in particular); no bin raises. *)
Theorem differential_flow_per_bin self particle_data bins name :
  valid_variable name ->
  Forall (Forall contributes) particle_data ->
  Forall (Forall readable) particle_data ->
  differential_flow self particle_data bins (PyStr name) =
  Ok (map (fun k => bin_average (n_ self)
                      (map (filter (placed name bins k)) particle_data))
          (seq 0 (List.length bins - 1))).
Proof.
  intros Hname Hc Hread.
  assert (Hv : (String.eqb name "pt" || String.eqb name "rapidity" ||
                String.eqb name "pseudorapidity")%bool = true).
  { destruct Hname as [-> | [-> | ->]]; reflexivity. }
  unfold differential_flow. rewrite Hv.
  rewrite bin_particles_filter.
  2:{ intros event p He Hp. apply observable_readable.
      rewrite Forall_forall in Hread. specialize (Hread event He).
      rewrite Forall_forall in Hread. exact (Hread p Hp). }
  cbn [bind]. unfold differential_flow_calculation.
  rewrite (mapM_ext (bin_flow (n_ self)) (bin_average (n_ self))).
  - rewrite map_map. reflexivity.
  - intros events Hin. apply in_map_iff in Hin.
    destruct Hin as (k & <- & _). apply bin_flow_average.
    apply Forall_map. apply Forall_impl with (2 := Hc).
    intros event. apply Forall_filter.
Qed.

(** One particle with [pt = 1] and the boundaries 0 and 2. *)
Lemma differential_flow_per_bin_witness :
  differential_flow flow2 [[weighted_pion]] [0; 2] (PyStr "pt") =
  Ok (map (fun k => bin_average 2
                      (map (filter (placed "pt" [0; 2] k)) [[weighted_pion]]))
          (seq 0 1)).
Proof.
  apply (differential_flow_per_bin flow2 [[weighted_pion]] [0; 2] "pt").
  - left. reflexivity.
  - repeat constructor. intros H. injection H as H.
    apply sqrt_squares_zero in H. lra.
  - repeat constructor.
Defined.

(** ** The empty ensemble *)

Lemma bin_loop_empty_events n k : forall a b w,
  bin_loop n (repeat [] k) (Cfin a b, w) = Ok (Cfin a b, w).
Proof.
  induction k as [|k IH]; intros a b w; cbn [repeat bin_loop event_loop bind];
    [reflexivity|].
  unfold czero. cbn [cadd].
  replace (a + 0) with a by lra. replace (b + 0) with b by lra. apply IH.
Qed.

Lemma bin_flow_empty_events n k : bin_flow n (repeat [] k) = Ok czero.
Proof.
  unfold bin_flow, czero. rewrite bin_loop_empty_events. cbn [bind].
  destruct (Req_dec_T 0 0) as [_|N]; [reflexivity|exfalso; apply N; reflexivity].
Qed.

Lemma select_empty_events name bins bin k :
  mapM (select_event name bins bin) (repeat [] k) = Ok (repeat [] k).
Proof.
  induction k as [|k IH]; cbn [repeat mapM select_event bind]; [reflexivity|].
  rewrite IH. reflexivity.
Qed.

Lemma mapM_constant {A B} (f : A -> result B) (b : B) l :
  (forall a, In a l -> f a = Ok b) ->
  mapM f l = Ok (repeat b (List.length l)).
Proof.
  induction l as [|a rest IH]; intros H; cbn [mapM List.length repeat];
    [reflexivity|].
  rewrite (H a (or_introl eq_refl)). cbn [bind].
  rewrite IH by (intros; apply H; right; assumption). reflexivity.
Qed.

Lemma differential_flow_empty self k bins name :
  (String.eqb name "pt" || String.eqb name "rapidity" ||
   String.eqb name "pseudorapidity")%bool = true ->
  differential_flow self (repeat [] k) bins (PyStr name) =
  Ok (repeat czero (List.length bins - 1)).
Proof.
  intros Hv. unfold differential_flow. rewrite Hv. unfold bin_particles.
  rewrite (mapM_constant _ (repeat [] k))
    by (intros; apply select_empty_events).
  cbn [bind]. unfold differential_flow_calculation.
  rewrite (mapM_constant _ czero).
  - rewrite repeat_length, length_seq. reflexivity.
  - intros events Hin. apply repeat_spec in Hin. subst events.
    apply bin_flow_empty_events.
Qed.

(** X12.  On the empty ensemble and on every ensemble of empty events,
    [differential_flow] returns the complex zero for each of the
    [len(bins) - 1] bins, for each of the three variables and whatever the
    boundaries are; it does not divide by zero. *)
Theorem differential_flow_empty_ensemble self k bins :
  differential_flow self (repeat [] k) bins (PyStr "pt") =
    Ok (repeat czero (List.length bins - 1)) /\
  differential_flow self (repeat [] k) bins (PyStr "rapidity") =
    Ok (repeat czero (List.length bins - 1)) /\
  differential_flow self (repeat [] k) bins (PyStr "pseudorapidity") =
    Ok (repeat czero (List.length bins - 1)).
Proof. repeat split; apply differential_flow_empty; reflexivity. Qed.

(** ** Weights only *)

Lemma flow_ready_step n p f w :
  flow_ready p ->
  exists f', particle_step n p (f, w) = Ok (f', w + weight_or_one p).
Proof.
  intros (Hx & Hy & Hw). unfold particle_step.
  rewrite flow_weight_number by assumption. cbn [bind].
  destruct (pt_abs_number p Hx Hy) as (? & ? & _ & _ & ->). cbn [bind].
  destruct (phi_number p Hx Hy) as (ph & ->). cbn [bind].
  rewrite weight_or_one_number by assumption. cbn [bind]. eauto.
Qed.

Lemma flow_ready_event n event : forall f w,
  Forall flow_ready event ->
  exists f',
    event_loop n event (f, w) = Ok (f', w + Rsum (map weight_or_one event)).
Proof.
  induction event as [|p rest IH]; intros f w H; cbn [event_loop map Rsum fold_right].
  - exists f. rewrite Rplus_0_r. reflexivity.
  - inversion H; subst.
    destruct (flow_ready_step n p f w) as [f1 ->]; [assumption|]. cbn [bind].
    destruct (IH f1 (w + weight_or_one p)) as [f2 ->]; [assumption|].
    exists f2. rewrite Rplus_assoc. reflexivity.
Qed.

Lemma flow_ready_ensemble n particle_data : forall f w,
  Forall (Forall flow_ready) particle_data ->
  exists f',
    ensemble_loop n particle_data (f, w) =
    Ok (f', w + Rsum (map weight_or_one (List.concat particle_data))).
Proof.
  induction particle_data as [|event rest IH]; intros f w H;
    cbn [ensemble_loop List.concat].
  - exists f. simpl. rewrite Rplus_0_r. reflexivity.
  - inversion H; subst.
    destruct (flow_ready_event n event czero w) as [fe ->]; [assumption|].
    cbn [bind]. rewrite map_app, Rsum_app.
    destruct (Req_dec_T _ 0).
    + destruct (IH czero (w + Rsum (map weight_or_one event)))
        as [f2 ->]; [assumption|].
      exists f2. rewrite Rplus_assoc. reflexivity.
    + destruct (IH (cadd f fe) (w + Rsum (map weight_or_one event)))
        as [f2 ->]; [assumption|].
      exists f2. rewrite Rplus_assoc. reflexivity.
Qed.

(** X13.  On every ensemble whose particles carry numeric [px], [py] and
    [weight] and whose weights sum to exactly 0 (the empty ensemble, weights
    that are all 0, weights that cancel), [integrated_flow] raises
    [ZeroDivisionError]. *)
Theorem integrated_flow_cancelled_weights self particle_data :
  Forall (Forall flow_ready) particle_data ->
  Rsum (map weight_or_one (List.concat particle_data)) = 0 ->
  integrated_flow self particle_data =
  Raise (ZeroDivisionError "complex division by zero").
Proof.
  intros Hr Hz.
  destruct (flow_ready_ensemble (n_ self) particle_data czero 0 Hr)
    as [f Hf].
  rewrite Hz, Rplus_0_l in Hf.
  exact (integrated_flow_zero_weight self particle_data f Hf).
Qed.

(** Two particles of weights 1 and -1. *)
Lemma integrated_flow_cancelled_weights_witness :
  integrated_flow flow2 [[particle_at 1 0 1; particle_at 0 1 (-1)]] =
  Raise (ZeroDivisionError "complex division by zero").
Proof.
  apply (integrated_flow_cancelled_weights flow2
           [[particle_at 1 0 1; particle_at 0 1 (-1)]]).
  - repeat constructor.
  - simpl. rewrite !weight_particle_at. lra.
Defined.

(** ** A particle without a weight *)

Lemma ensemble_loop_app n l1 l2 acc :
  ensemble_loop n (l1 ++ l2) acc =
  (acc1 <- ensemble_loop n l1 acc ;; ensemble_loop n l2 acc1).
Proof.
  revert acc. induction l1 as [|event rest IH]; intros [f w];
    cbn [ensemble_loop app bind]; [reflexivity|].
  destruct (event_loop n event (czero, w)) as [[fe w1]|]; cbn [bind];
    [|reflexivity].
  destruct (Req_dec_T w1 0); apply IH.
Qed.

Lemma particle_step_unset_weight n p acc :
  p weight_ = PyNone ->
  particle_step n p acc = Raise (ValueError "weight not set").
Proof.
  intros H. destruct acc as [f w]. unfold particle_step.
  rewrite flow_weight_unset by exact H. reflexivity.
Qed.

(** X14.  [integrated_flow] raises [ValueError] at the first particle whose
    weight is unset, the particles before it having numeric [px], [py] and
    [weight]: the default weight 1 of the source line is never used, and
    particles of the formats without a weight column cannot be
    accumulated. *)
Theorem integrated_flow_unset_weight self earlier before p after later :
  Forall (Forall flow_ready) earlier -> Forall flow_ready before ->
  p weight_ = PyNone ->
  integrated_flow self (earlier ++ (before ++ p :: after) :: later)%list =
  Raise (ValueError "weight not set").
Proof.
  intros He Hb Hp. unfold integrated_flow. rewrite ensemble_loop_app.
  destruct (flow_ready_ensemble (n_ self) earlier czero 0 He) as [f ->].
  cbn [bind ensemble_loop]. rewrite event_loop_app.
  destruct (flow_ready_event (n_ self) before czero
              (0 + Rsum (map weight_or_one (List.concat earlier))) Hb)
    as [fb ->].
  cbn [bind event_loop]. rewrite particle_step_unset_weight by exact Hp.
  reflexivity.
Qed.

(** A weighted particle followed by one without a weight. *)
Lemma integrated_flow_unset_weight_witness :
  integrated_flow flow2
    ([] ++ ([particle_at 1 0 1] ++ unweighted_particle :: []) :: [])%list =
  Raise (ValueError "weight not set").
Proof.
  apply (integrated_flow_unset_weight flow2 [] [particle_at 1 0 1]
           unweighted_particle [] []).
  - constructor.
  - repeat constructor.
  - reflexivity.
Defined.

(** ** The magnitude of the flow *)

Lemma weighted_sums_bounded n particles :
  Forall (fun p => 0 <= weight_or_one p) particles ->
  0 <= Rsum (map weight_or_one particles) /\
  (Rsum (map (weighted_cos n) particles)) ^ 2
  + (Rsum (map (weighted_sin n) particles)) ^ 2
  <= (Rsum (map weight_or_one particles)) ^ 2.
Proof.
  induction 1 as [|p rest Hp Hrest [IHw IH]]; unfold Rsum in *;
    cbn [map fold_right].
  - split; [lra|]. simpl. lra.
  - cbv beta in Hp. split; [lra|].
    unfold weighted_cos at 1, weighted_sin at 1.
    set (w := weight_or_one p) in *.
    set (c := cos (IZR n * angle p)). set (s := sin (IZR n * angle p)).
    assert (Hcs : c ^ 2 + s ^ 2 = 1).
    { unfold c, s. pose proof (sin2_cos2 (IZR n * angle p)) as H.
      unfold Rsqr in H. lra. }
    set (C := fold_right Rplus 0 (map (weighted_cos n) rest)) in *.
    set (S := fold_right Rplus 0 (map (weighted_sin n) rest)) in *.
    set (W := fold_right Rplus 0 (map weight_or_one rest)) in *.
    assert (Hcauchy : C * c + S * s <= W).
    { assert ((C * c + S * s) ^ 2 <= W ^ 2).
      { assert ((C * c + S * s) ^ 2 + (C * s - S * c) ^ 2
                = (C ^ 2 + S ^ 2) * (c ^ 2 + s ^ 2)) by ring.
        rewrite Hcs in H. pose proof (pow2_ge_0 (C * s - S * c)). lra. }
      nra. }
    nra.
Qed.

(** X15.  With weights that are not negative, on an ensemble whose
    particles have [px], [py] and [weight] set to numbers and a transverse
    momentum that is not 0, and whose total weight is not zero,
    [integrated_flow] returns a complex number of magnitude at most 1. *)
Theorem integrated_flow_magnitude self particle_data :
  Forall (Forall contributes) particle_data ->
  Forall (Forall (fun p => 0 <= weight_or_one p)) particle_data ->
  Rsum (map weight_or_one (List.concat particle_data)) <> 0 ->
  exists re im,
    integrated_flow self particle_data = Ok (Cfin re im) /\
    re ^ 2 + im ^ 2 <= 1.
Proof.
  intros Hc Hw Ht. unfold integrated_flow, czero.
  rewrite ensemble_loop_sums; try assumption.
  2:{ intros k Hk Hz. rewrite !Rplus_0_l in *.
      apply (nonnegative_never_discards (n_ self) particle_data Hw k Hk Hz). }
  cbn [bind]. unfold py_cdiv, np_cdiv. rewrite !Rplus_0_l.
  destruct (Req_dec_T _ 0) as [Hz|_]; [contradiction|].
  do 2 eexists. split; [reflexivity|].
  destruct (weighted_sums_bounded (n_ self) (List.concat particle_data))
    as [HW Hb]; [apply Forall_concat; exact Hw|].
  set (C := Rsum (map (weighted_cos (n_ self)) (List.concat particle_data)))
    in *.
  set (S := Rsum (map (weighted_sin (n_ self)) (List.concat particle_data)))
    in *.
  set (W := Rsum (map weight_or_one (List.concat particle_data))) in *.
  assert (HWp : 0 < W) by lra.
  replace ((C / W) ^ 2 + (S / W) ^ 2) with ((C ^ 2 + S ^ 2) / W ^ 2)
    by (field; lra).
  apply Rmult_le_reg_r with (W ^ 2); [nra|].
  replace ((C ^ 2 + S ^ 2) / W ^ 2 * W ^ 2) with (C ^ 2 + S ^ 2)
    by (field; lra).
  lra.
Qed.

(** Two events of one particle each, of weights 1 and 2. *)
Lemma integrated_flow_magnitude_witness :
  exists re im,
    integrated_flow flow2 [[particle_at 1 0 1]; [particle_at 0 1 2]]
    = Ok (Cfin re im) /\
    re ^ 2 + im ^ 2 <= 1.
Proof.
  apply (integrated_flow_magnitude flow2
           [[particle_at 1 0 1]; [particle_at 0 1 2]]).
  - repeat constructor; apply contributes_particle_at; [left | right]; lra.
  - repeat constructor; rewrite weight_particle_at; lra.
  - simpl. rewrite !weight_particle_at. lra.
Defined.

(** ** One bin that holds every particle *)

Lemma filter_all {A} (f : A -> bool) l :
  (forall a, In a l -> f a = true) -> filter f l = l.
Proof.
  induction l as [|a rest IH]; intros H; cbn [filter]; [reflexivity|].
  rewrite (H a (or_introl eq_refl)).
  rewrite IH by (intros; apply H; right; assumption). reflexivity.
Qed.

(** X16.  When one bin [[lo, hi)] of transverse momentum holds every
    particle of the ensemble, [differential_flow] returns, as its single
    value, the value [integrated_flow] returns (under the conditions of the
    flat average: [px], [py] and [weight] numbers, [pt] not 0, total weight
    not zero, and no reset of the running average that discards a
    contribution). *)
Theorem differential_flow_single_bin self particle_data lo hi :
  Forall (Forall contributes) particle_data ->
  never_discards (n_ self) particle_data ->
  Rsum (map weight_or_one (List.concat particle_data)) <> 0 ->
  (forall event p, In event particle_data -> In p event ->
     exists pt, pt_abs p = Ok pt /\ lo <= pt < hi) ->
  exists v,
    integrated_flow self particle_data = Ok v /\
    differential_flow self particle_data [lo; hi] (PyStr "pt") = Ok [v].
Proof.
  intros Hc Hn Ht Hin.
  exists (flat_average (n_ self) particle_data). split.
  - unfold integrated_flow, czero.
    rewrite ensemble_loop_sums; try assumption.
    + cbn [bind]. unfold py_cdiv, flat_average, np_cdiv. rewrite !Rplus_0_l.
      destruct (Req_dec_T _ 0) as [Hz|_]; [contradiction|]. reflexivity.
    + intros k Hk Hw. rewrite !Rplus_0_l in *. apply Hn; assumption.
  - unfold differential_flow. cbn [String.eqb Ascii.eqb Bool.eqb orb].
    rewrite bin_particles_filter.
    2:{ intros event p He Hp. destruct (Hin event p He Hp) as (pt & Hpt & _).
        unfold observable. cbn [String.eqb Ascii.eqb Bool.eqb].
        rewrite Hpt. cbn [bind]. eauto. }
    cbn [bind List.length Nat.sub seq map]. unfold differential_flow_calculation.
    assert (Hall : map (filter (placed "pt" [lo; hi] 0)) particle_data
                   = particle_data).
    { rewrite <- (map_id particle_data) at 2. apply map_ext_in.
      intros event He. apply filter_all. intros p Hp.
      destruct (Hin event p He Hp) as (pt & Hpt & Hrange).
      unfold placed, observable. cbn [String.eqb Ascii.eqb Bool.eqb].
      rewrite Hpt. cbn [bind nth Nat.add]. apply in_bin_spec. exact Hrange. }
    rewrite Hall. cbn [mapM]. rewrite bin_flow_average by exact Hc.
    cbn [bind]. unfold bin_average.
    destruct (Req_dec_T _ 0) as [Hz|_]; [contradiction|]. reflexivity.
Qed.

(** Two particles of [pt = 1] in the bin from 0 to 2. *)
Lemma differential_flow_single_bin_witness :
  exists v,
    integrated_flow flow2 [[particle_at 1 0 1]; [particle_at 0 1 2]] = Ok v /\
    differential_flow flow2 [[particle_at 1 0 1]; [particle_at 0 1 2]] [0; 2]
      (PyStr "pt") = Ok [v].
Proof.
  apply (differential_flow_single_bin flow2
           [[particle_at 1 0 1]; [particle_at 0 1 2]] 0 2).
  - repeat constructor; apply contributes_particle_at; [left | right]; lra.
  - apply nonnegative_never_discards.
    repeat constructor; rewrite weight_particle_at; lra.
  - simpl. rewrite !weight_particle_at. lra.
  - assert (Hunit : forall a b, a ^ 2 + b ^ 2 = 1 ->
                    0 <= sqrt (a ^ 2 + b ^ 2) < 2).
    { intros a b ->. rewrite sqrt_1. lra. }
    intros event p [<-|[<-|[]]] [<-|[]]; eexists;
      (split; [apply pt_abs_particle_at | apply Hunit; ring]).
Defined.

End FlowAverages.

(* ================================================================== *)
(** * More of Loader/JetscapeLoader.py *)
(* ================================================================== *)

Module FilterFacts.
Import Py Particle JetscapeLoader Examples LoaderFacts.

Section Filters.

Context {Ev : Type} (F : FilterLib Ev).

Lemma apply_filter_lookup d d' i event :
  dict_get i d = dict_get i d' ->
  apply_filter F d i event = apply_filter F d' i event.
Proof.
  intros H. unfold apply_filter, filter_parameter.
  repeat match goal with
         | |- context [String.eqb i ?s] =>
             destruct (String.eqb_spec i s) as [->|_];
             [rewrite H; reflexivity|]
         end.
  reflexivity.
Qed.

Lemma apply_filters_loop_lookup d d' keys : forall event,
  (forall i, In i keys -> dict_get i d = dict_get i d') ->
  apply_filters_loop F d keys event = apply_filters_loop F d' keys event.
Proof.
  induction keys as [|i rest IH]; intros event H; cbn [apply_filters_loop];
    [reflexivity|].
  rewrite (apply_filter_lookup d d' i) by (apply H; left; reflexivity).
  destruct (apply_filter F d' i event); cbn [bind]; [|reflexivity].
  apply IH. intros j Hj. apply H. right. exact Hj.
Qed.

Lemma dict_get_app_left {A} i (d1 d2 : list (string * A)) :
  In i (map fst d1) -> dict_get i (d1 ++ d2)%list = dict_get i d1.
Proof.
  induction d1 as [|[k v] rest IH]; cbn [map In dict_get app fst];
    [contradiction|].
  intros [->|H].
  - rewrite String.eqb_refl. reflexivity.
  - destruct (String.eqb i k); [reflexivity|]. apply IH. exact H.
Qed.

Lemma dict_get_app_right {A} i (d1 d2 : list (string * A)) :
  ~ In i (map fst d1) -> dict_get i (d1 ++ d2)%list = dict_get i d2.
Proof.
  induction d1 as [|[k v] rest IH]; cbn [map In dict_get app fst];
    [reflexivity|].
  intros H. destruct (String.eqb_spec i k) as [->|_].
  - exfalso. apply H. left. reflexivity.
  - apply IH. intros Hin. apply H. right. exact Hin.
Qed.

Lemma apply_kwargs_filters_loop event d :
  apply_kwargs_filters F event (PyDict d) =
  apply_filters_loop F d (map fst d) event.
Proof.
  unfold apply_kwargs_filters. destruct d; reflexivity.
Qed.

(** X17.  Applying the filters of a dictionary is applying those of its
    first entries and then, to the result, those of the entries that
    follow: for any split of a dictionary (its keys are distinct) into
    [d1] followed by [d2], the filters of [d1 ++ d2] are the filters of
    [d1] followed by the filters of [d2], an exception of the first part
    ending the call. *)
Theorem filters_compose d1 d2 event :
  NoDup (map fst (d1 ++ d2)%list) ->
  apply_kwargs_filters F event (PyDict (d1 ++ d2)%list) =
  (event1 <- apply_kwargs_filters F event (PyDict d1) ;;
   apply_kwargs_filters F event1 (PyDict d2)).
Proof.
  intros Hnd. rewrite !apply_kwargs_filters_loop.
  rewrite map_app, apply_filters_loop_app.
  rewrite (apply_filters_loop_lookup (d1 ++ d2)%list d1 (map fst d1))
    by (intros i Hi; apply dict_get_app_left; exact Hi).
  destruct (apply_filters_loop F d1 (map fst d1) event) as [event1|];
    cbn [bind]; [|reflexivity].
  rewrite apply_kwargs_filters_loop.
  apply apply_filters_loop_lookup. intros i Hi.
  apply dict_get_app_right. intros Hi1.
  rewrite map_app in Hnd. revert Hnd Hi Hi1. generalize (map fst d1).
  intros l. induction l as [|a l IH]; cbn [app In]; [tauto|].
  intros Hnd Hi [->|Hi1].
  - inversion Hnd as [|? ? Hnot _]; subst. apply Hnot. apply in_or_app.
    right. exact Hi.
  - inversion Hnd; subst. apply IH; assumption.
Qed.

(** X18.  A key that is not one of the twelve filter names makes
    [__apply_kwargs_filters] raise [ValueError] when the loop reaches it:
    the filters entered before it have been applied by then (and an
    exception of theirs comes first), the ones after it never run. *)
Theorem unknown_filter_raises d1 key value d2 event :
  ~ In key filter_names ->
  apply_kwargs_filters F event (PyDict (d1 ++ (key, value) :: d2)%list) =
  (event1 <- apply_kwargs_filters F event (PyDict d1) ;;
   Raise (ValueError "The cut is unknown!")).
Proof.
  intros Hkey. rewrite !apply_kwargs_filters_loop.
  rewrite map_app, apply_filters_loop_app.
  rewrite (apply_filters_loop_lookup (d1 ++ (key, value) :: d2)%list d1
             (map fst d1))
    by (intros i Hi; apply dict_get_app_left; exact Hi).
  destruct (apply_filters_loop F d1 (map fst d1) event) as [event1|];
    cbn [bind]; [|reflexivity].
  cbn [map fst apply_filters_loop].
  assert (Hraise : forall d e, apply_filter F d key e =
                               Raise (ValueError "The cut is unknown!")).
  { intros d e. unfold apply_filter.
    repeat match goal with
           | |- context [String.eqb key ?s] =>
               destruct (String.eqb_spec key s) as [->|_];
               [exfalso; apply Hkey; simpl; tauto|]
           end.
    reflexivity. }
  rewrite Hraise. reflexivity.
Qed.

(** X19.  A dictionary that only holds switches ([charged_particles],
    [uncharged_particles], [strange_particles]) with false values returns
    the event unchanged and calls no filter. *)
Theorem switched_off_filters d event :
  Forall (fun entry => In (fst entry) switches /\ truthy (snd entry) = false)
         d ->
  apply_kwargs_filters F event (PyDict d) = Ok event.
Proof.
  intros H. rewrite apply_kwargs_filters_loop.
  assert (Hoff : forall i, In i (map fst d) ->
            In i switches /\
            exists v, dict_get i d = Some v /\ truthy v = false).
  { clear event. induction H as [|[k v] rest [Hk Hv] Hrest IH];
      cbn [map In fst snd dict_get] in *; [contradiction|].
    intros i [->|Hi].
    - split; [exact Hk|]. rewrite String.eqb_refl. eauto.
    - destruct (IH i Hi) as [Hs (v' & Hg & Ht)]. split; [exact Hs|].
      destruct (String.eqb_spec i k) as [->|_]; eauto. }
  revert Hoff. generalize (map fst d) as keys.
  induction keys as [|i rest IH]; intros Hoff; cbn [apply_filters_loop];
    [reflexivity|].
  destruct (Hoff i (or_introl eq_refl)) as [Hs (v & Hg & Ht)].
  assert (Hi : apply_filter F d i event = Ok event).
  { unfold apply_filter, filter_parameter, switches in *.
    cbn [In] in Hs.
    destruct Hs as [<-|[<-|[<-|[]]]];
      cbn [String.eqb Ascii.eqb Bool.eqb]; rewrite Hg, Ht; reflexivity. }
  rewrite Hi. cbn [bind]. apply IH. intros j Hj. apply Hoff. right. exact Hj.
Qed.

End Filters.

(** The charge filter followed by the pt cut. *)
Lemma filters_compose_witness :
  apply_kwargs_filters recording_filters []
    (PyDict ([("charged_particles", PyBool true)] ++ [("pt_cut", pt_window)]))
  = (event1 <- apply_kwargs_filters recording_filters []
                 (PyDict [("charged_particles", PyBool true)]) ;;
     apply_kwargs_filters recording_filters event1
       (PyDict [("pt_cut", pt_window)])).
Proof.
  apply (filters_compose recording_filters
           [("charged_particles", PyBool true)] [("pt_cut", pt_window)] []).
  repeat constructor; simpl; intuition discriminate.
Defined.

(** A misspelt cut after the charge filter. *)
Lemma unknown_filter_raises_witness :
  apply_kwargs_filters recording_filters []
    (PyDict ([("charged_particles", PyBool true)]
             ++ ("eta_cut", pt_window) :: []))
  = (event1 <- apply_kwargs_filters recording_filters []
                 (PyDict [("charged_particles", PyBool true)]) ;;
     Raise (ValueError "The cut is unknown!")).
Proof.
  apply (unknown_filter_raises recording_filters
           [("charged_particles", PyBool true)] "eta_cut" pt_window [] []).
  unfold filter_names. simpl. intuition discriminate.
Defined.

(** The charge filter switched off. *)
Lemma switched_off_filters_witness :
  apply_kwargs_filters recording_filters []
    (PyDict [("charged_particles", PyBool false)]) = Ok [].
Proof.
  apply (switched_off_filters recording_filters
           [("charged_particles", PyBool false)] []).
  repeat constructor.
Defined.

End FilterFacts.

Module WindowFacts.
Import Py Particle JetscapeLoader Examples LoaderFacts.

Lemma cumulate_rows rows : forall before acc,
  cumulate (before ++ rows) (List.length before) (List.length rows) acc =
  Ok (acc + event_lines rows).
Proof.
  induction rows as [|row rest IH]; intros before acc;
    cbn [cumulate List.length].
  - f_equal. unfold event_lines. simpl. lia.
  - change (event_lines (row :: rest))
      with (snd row + 1 + event_lines rest).
    unfold row_count, list_get.
    rewrite nth_error_app2 by lia. rewrite Nat.sub_diag. cbn [nth_error bind].
    replace (before ++ row :: rest)%list with ((before ++ [row]) ++ rest)%list
      by (rewrite <- app_assoc; reflexivity).
    replace (S (List.length before)) with (List.length (before ++ [row])%list)
      by (rewrite length_app; simpl; lia).
    rewrite IH. f_equal. lia.
Qed.

Lemma cumulate_app rows extra : forall start count acc,
  (start + count <= List.length rows)%nat ->
  cumulate (rows ++ extra) start count acc = cumulate rows start count acc.
Proof.
  intros start count. revert start.
  induction count as [|count IH]; intros start acc H; cbn [cumulate];
    [reflexivity|].
  unfold row_count, list_get. rewrite nth_error_app1 by lia.
  destruct (nth_error rows start); cbn [bind]; [|reflexivity].
  apply IH. lia.
Qed.

Lemma cumulate_slice rows start count :
  (start + count <= List.length rows)%nat ->
  cumulate rows start count 0 =
  Ok (event_lines (firstn count (skipn start rows))).
Proof.
  intros H.
  assert (Hs : List.length (firstn start rows) = start)
    by (rewrite length_firstn; lia).
  assert (Hc : List.length (firstn count (skipn start rows)) = count)
    by (rewrite length_firstn, length_skipn; lia).
  pose proof (cumulate_rows (firstn count (skipn start rows))
                (firstn start rows) 0) as Hrows.
  rewrite Hs, Hc, Z.add_0_l in Hrows. rewrite <- Hrows.
  rewrite <- (firstn_skipn start rows) at 1.
  rewrite <- (firstn_skipn count (skipn start rows)) at 1.
  rewrite app_assoc. apply cumulate_app.
  rewrite length_app, Hs, Hc. lia.
Qed.

Lemma cumulate_out_of_range rows : forall count start acc,
  (List.length rows < start + count)%nat -> (0 < count)%nat ->
  (start <= List.length rows)%nat ->
  cumulate rows start count acc = Raise index_out_of_range.
Proof.
  induction count as [|count IH]; intros start acc H Hc Hs; [lia|].
  cbn [cumulate]. unfold row_count, list_get.
  destruct (nth_error rows start) as [row|] eqn:Hn; cbn [bind];
    [|reflexivity].
  assert (start < List.length rows)%nat
    by (apply nth_error_Some; congruence).
  apply IH; lia.
Qed.

(** X20.  With [events=(a, b)], [0 <= a <= b]: when event [b] is in the
    table of the index pass, [_get_num_skip_lines] is 1 (the file header)
    plus the lines of the events before [a], and [__get_num_read_lines] is
    the lines of the events [a..b] plus 1 (the closing line), an event
    taking its header line and its declared number of particle lines; when
    [b] is beyond the table, [__get_num_read_lines] raises [IndexError]. *)
Theorem event_window self a b :
  dict_get "events" (optional_arguments_ self) =
    Some (PyTuple [PyInt a; PyInt b]) ->
  0 <= a <= b ->
  (b < Z.of_nat (List.length (num_output_per_event_ self)) ->
   get_num_skip_lines self =
     Ok (1 + event_lines (slice (num_output_per_event_ self) 0 a)) /\
   get_num_read_lines self =
     Ok (event_lines (slice (num_output_per_event_ self) a (b + 1)) + 1)) /\
  (Z.of_nat (List.length (num_output_per_event_ self)) <= b ->
   get_num_read_lines self = Raise index_out_of_range).
Proof.
  intros He Hab.
  assert (Hgiven : events_not_given self = false).
  { unfold events_not_given, dict_has. rewrite He.
    destruct (optional_arguments_ self); [discriminate He|reflexivity]. }
  assert (Harg : events_argument self = PyTuple [PyInt a; PyInt b]).
  { unfold events_argument. rewrite He. reflexivity. }
  split.
  - intros Hb. split.
    + unfold get_num_skip_lines. rewrite Hgiven, Harg.
      cbn [isinstance_int isinstance_tuple py_getitem list_get nth_error bind
           py_int].
      destruct (Z.eqb_spec a 0) as [->|Hnz].
      * reflexivity.
      * rewrite cumulate_slice by lia. cbn [bind]. unfold slice.
        rewrite Z2Nat.inj_0, Nat.sub_0_r. reflexivity.
    + unfold get_num_read_lines. rewrite Hgiven, Harg.
      cbn [isinstance_int isinstance_tuple py_getitem list_get nth_error bind
           py_int].
      rewrite cumulate_slice by lia. cbn [bind]. unfold slice.
      replace (Z.to_nat (b + 1) - Z.to_nat a)%nat
        with (Z.to_nat (b + 1 - a)) by lia.
      reflexivity.
  - intros Hb. unfold get_num_read_lines. rewrite Hgiven, Harg.
    cbn [isinstance_int isinstance_tuple py_getitem list_get nth_error bind
         py_int].
    destruct (Nat.le_gt_cases (Z.to_nat a)
                (List.length (num_output_per_event_ self))) as [Hs|Hs].
    + rewrite cumulate_out_of_range by lia. reflexivity.
    + replace (Z.to_nat (b + 1 - a)) with (S (Z.to_nat (b - a))) by lia.
      cbn [cumulate]. unfold row_count, list_get.
      assert (Hn : nth_error (num_output_per_event_ self) (Z.to_nat a) = None)
        by (apply nth_error_None; lia).
      rewrite Hn. reflexivity.
Qed.

(** The second of two events of one particle each: three lines to skip,
    three to read. *)
Lemma event_window_witness :
  get_num_skip_lines indexed_loader = Ok 3 /\
  get_num_read_lines indexed_loader = Ok 3.
Proof.
  destruct (event_window indexed_loader 1 1) as [Hin _].
  - reflexivity.
  - lia.
  - apply Hin. simpl. lia.
Defined.

End WindowFacts.

Module LoadFacts.
Import Py Particle JetscapeLoader Examples LoaderFacts LastLineFacts.

(** ** The keyword arguments *)

Section Validation.

Variable table : PDGTable.
Variable F : FilterLib (list (list Particle)).

(** X21.  A keyword argument other than [events], [filters] and
    [particletype] makes [load] raise [ValueError] before the file is
    touched (whatever the file system holds); the loader has stored the
    arguments by then and is otherwise unchanged. *)
Theorem load_unknown_keyword fs kwargs self key :
  In key (map fst kwargs) -> ~ In key load_options ->
  load table F fs kwargs self =
  (set_optional_arguments self kwargs,
   Raise (ValueError "Unknown keyword argument used in constructor")).
Proof.
  intros Hin Hnot. unfold load.
  assert (Hc : check_keys kwargs =
               Raise (ValueError "Unknown keyword argument used in constructor")).
  { unfold check_keys.
    destruct (forallb _ (map fst kwargs)) eqn:Hall; [|reflexivity].
    rewrite forallb_forall in Hall. specialize (Hall key Hin).
    exfalso. apply Hnot. unfold load_options. cbn [In].
    apply orb_true_iff in Hall. destruct Hall as [Hall|Hall].
    - apply orb_true_iff in Hall. destruct Hall as [Hall|Hall];
        apply String.eqb_eq in Hall; subst; tauto.
    - apply String.eqb_eq in Hall; subst; tauto. }
  rewrite Hc. reflexivity.
Qed.

(** X22.  With recognised keywords and [events=(a, b)] a pair of integers,
    a range that is reversed ([b < a]) or starts below 0 makes [load] raise
    [ValueError] before the file is touched, the reversed order being
    reported first; the loader has stored the arguments by then. *)
Theorem load_rejects_event_range fs kwargs self a b :
  check_keys kwargs = Ok tt ->
  dict_get "events" kwargs = Some (PyTuple [PyInt a; PyInt b]) ->
  b < a \/ a < 0 ->
  load table F fs kwargs self =
  (set_optional_arguments self kwargs,
   Raise (ValueError
     (if b <? a
      then "First value of event number tuple must be smaller than second value"
      else "Event numbers must be positive"))).
Proof.
  intros Hk He Hbad. unfold load. rewrite Hk. cbn [bind].
  unfold check_events. rewrite He.
  cbn [isinstance_tuple check_that_tuple_contains_integers_only forallb
       isinstance_int andb bind py_getitem list_get nth_error py_int].
  destruct (Z.ltb_spec b a) as [Hlt|Hge]; [reflexivity|].
  destruct (Z.ltb_spec a 0) as [Hneg|]; [reflexivity|lia].
Qed.

End Validation.

(** A misspelt keyword. *)
Lemma load_unknown_keyword_witness :
  load sample_table identity_filters (disk "run.dat" two_pions)
       [("event", PyInt 0)] (loader_for "run.dat") =
  (set_optional_arguments (loader_for "run.dat") [("event", PyInt 0)],
   Raise (ValueError "Unknown keyword argument used in constructor")).
Proof.
  apply (load_unknown_keyword sample_table identity_filters
           (disk "run.dat" two_pions) [("event", PyInt 0)]
           (loader_for "run.dat") "event").
  - left. reflexivity.
  - unfold load_options. simpl. intuition discriminate.
Defined.

(** The range from 2 down to 1. *)
Lemma load_rejects_event_range_witness :
  load sample_table identity_filters (disk "run.dat" two_pions)
       [("events", PyTuple [PyInt 2; PyInt 1])] (loader_for "run.dat") =
  (set_optional_arguments (loader_for "run.dat")
     [("events", PyTuple [PyInt 2; PyInt 1])],
   Raise (ValueError
     "First value of event number tuple must be smaller than second value")).
Proof.
  apply (load_rejects_event_range sample_table identity_filters
           (disk "run.dat" two_pions)
           [("events", PyTuple [PyInt 2; PyInt 1])] (loader_for "run.dat")
           2 1).
  - reflexivity.
  - reflexivity.
  - left. lia.
Defined.

(** ** Files without event headers *)

Lemma index_lines_none defining lines :
  Forall (fun line => contains defining line = false) lines ->
  index_lines defining lines = Ok [].
Proof.
  induction 1 as [|line rest Hline Hrest IH]; cbn [index_lines];
    [reflexivity|].
  rewrite Hline, andb_false_r. exact IH.
Qed.

Section NoHeaders.

Variable table : PDGTable.
Variable F : FilterLib (list (list Particle)).

(** X23.  A full-file load (no [events]) with [particletype] given, of a
    file none of whose lines holds the defining string of that particle
    type ([N_hadrons], [N_partons]), raises [IndexError]: the index pass
    finds no event, and the count of the lines to read indexes the sum of
    an empty table. *)
Theorem load_without_event_headers fs kwargs self content kind :
  check_keys kwargs = Ok tt ->
  dict_get "events" kwargs = None ->
  dict_get "particletype" kwargs = Some (PyStr kind) ->
  kind = "hadron" \/ kind = "parton" ->
  fs (PATH_JETSCAPE_ self) = Some content ->
  Forall (fun line => contains ("N_" ++ kind ++ "s") line = false)
         (lines_of content) ->
  snd (load table F fs kwargs self) =
  Raise (IndexError "invalid index to scalar variable").
Proof.
  intros Hk He Hp Hkind Hfs Hlines. unfold load. rewrite Hk. cbn [bind].
  unfold check_events. rewrite He. cbn [bind].
  unfold check_particletype. rewrite Hp.
  assert (Hkind' : (String.eqb kind "hadron" || String.eqb kind "parton")%bool
                   = true)
    by (destruct Hkind as [->| ->]; reflexivity).
  rewrite Hkind'. cbn [bind].
  unfold set_num_output_per_event, open_lines.
  cbn [set_particle_type PATH_JETSCAPE_ set_optional_arguments
       particle_type_defining_string_].
  rewrite Hfs. cbn [bind].
  assert (Hdef : (if String.eqb kind "hadron" then "N_hadrons"
                  else "N_partons") = "N_" ++ kind ++ "s")
    by (destruct Hkind as [->| ->]; reflexivity).
  rewrite Hdef, (index_lines_none _ _ Hlines). cbn [bind as_int_table].
  unfold set_particle_list, get_num_read_lines, events_not_given, dict_has.
  cbn [set_num_events set_table set_particle_type set_optional_arguments
       optional_arguments_ num_output_per_event_].
  rewrite He, orb_true_r. reflexivity.
Qed.

End NoHeaders.

(** A hadron file read as a parton file. *)
Lemma load_without_event_headers_witness :
  snd (load sample_table identity_filters (disk "run.dat" two_pions)
         [("particletype", PyStr "parton")] (loader_for "run.dat")) =
  Raise (IndexError "invalid index to scalar variable").
Proof.
  apply (load_without_event_headers sample_table identity_filters
           (disk "run.dat" two_pions) [("particletype", PyStr "parton")]
           (loader_for "run.dat") two_pions "parton").
  - reflexivity.
  - reflexivity.
  - reflexivity.
  - right. reflexivity.
  - reflexivity.
  - repeat constructor.
Defined.

(** ** Loads that return *)

Section Loads.

Variable table : PDGTable.
Variable F : FilterLib (list (list Particle)).
Variable kwargs : list (string * pyval).

Lemma particle_never_constructed tokens :
  exists e, Particle.init table (Some "JETSCAPE") (Some (map PyStr tokens))
            = Raise e.
Proof.
  destruct (Nat.eq_dec (List.length tokens) 7) as [H7|H7].
  - rewrite (jetscape_tokens_rejected table _ H7). eauto.
  - rewrite (jetscape_tokens_corrupted table _ H7). eauto.
Qed.

Lemma process_line_no_particles i line st st' :
  dict_get "filters" kwargs = None ->
  process_line table F kwargs i line st = Ok st' ->
  no_particles st -> no_particles st'.
Proof.
  intros Hf. unfold process_line, filter_data. rewrite Hf. cbn [bind].
  assert (Happend : forall s, no_particles s -> no_particles (append_data s)).
  { intros s [Hd Hl]. split; [exact Hd|]. cbn [append_data particle_list].
    apply Forall_app. split; [exact Hl|]. constructor; [exact Hd|constructor]. }
  destruct (contains "#" line && contains "sigmaGen" line).
  { intros H; injection H as <-. apply Happend. }
  destruct (Nat.eqb i 0 && negb (contains "#" line)
            && negb (contains "weight" line)); [discriminate|].
  destruct (contains "Event" line && contains "weight" line).
  - destruct (first_event_header kwargs); cbn [bind]; [|discriminate].
    destruct (list_get (tokens_of line) 2); cbn [bind]; [|discriminate].
    destruct (py_int (PyStr _)); cbn [bind]; [|discriminate].
    destruct (_ =? _); intros H; injection H as <-; [tauto|].
    intros Hs. destruct (Happend st Hs) as [_ Hl].
    split; [reflexivity|exact Hl].
  - destruct (particle_never_constructed (tokens_of line)) as [e ->].
    discriminate.
Qed.

Lemma read_loop_no_particles n : forall i lines st,
  dict_get "filters" kwargs = None ->
  no_particles st ->
  no_particles (fst (read_loop table F kwargs n i lines st)).
Proof.
  induction n as [|n IH]; intros i lines st Hf Hs; cbn [read_loop];
    [exact Hs|].
  destruct lines as [|line rest]; [exact Hs|].
  destruct (process_line table F kwargs i line st) as [st'|e] eqn:Hp;
    [|exact Hs].
  apply IH; [exact Hf|]. exact (process_line_no_particles _ _ _ _ Hf Hp Hs).
Qed.

(** *** The length of the table *)

Lemma replace_nth_length {A} (l : list A) : forall k a,
  List.length (replace_nth l k a) = List.length l.
Proof.
  induction l as [|b rest IH]; intros k a; destruct k; cbn [replace_nth];
    try reflexivity.
  simpl. rewrite IH. reflexivity.
Qed.

Lemma process_line_table_length i line st st' :
  process_line table F kwargs i line st = Ok st' ->
  List.length (per_event st') = List.length (per_event st).
Proof.
  assert (Hfilter : forall s s', filter_data F kwargs s = Ok s' ->
            List.length (per_event s') = List.length (per_event s)).
  { intros s s'. unfold filter_data.
    destruct (dict_get "filters" kwargs); [|intros H; injection H as <-; reflexivity].
    destruct (apply_kwargs_filters _ _ _); cbn [bind]; [|discriminate].
    destruct (list_get _ 0); cbn [bind]; [|discriminate].
    unfold set_row. destruct (Nat.ltb _ _); cbn [bind]; [|discriminate].
    intros H; injection H as <-. cbn [per_event]. apply replace_nth_length. }
  unfold process_line.
  destruct (contains "#" line && contains "sigmaGen" line).
  { destruct (filter_data F kwargs st) as [s|] eqn:Hs; cbn [bind];
      [|discriminate].
    intros H; injection H as <-. exact (Hfilter _ _ Hs). }
  destruct (Nat.eqb i 0 && negb (contains "#" line)
            && negb (contains "weight" line)); [discriminate|].
  destruct (contains "Event" line && contains "weight" line).
  - destruct (first_event_header kwargs); cbn [bind]; [|discriminate].
    destruct (list_get (tokens_of line) 2); cbn [bind]; [|discriminate].
    destruct (py_int (PyStr _)); cbn [bind]; [|discriminate].
    destruct (_ =? _); [intros H; injection H as <-; reflexivity|].
    destruct (filter_data F kwargs st) as [s|] eqn:Hs; cbn [bind];
      [|discriminate].
    intros H; injection H as <-. exact (Hfilter _ _ Hs).
  - destruct (Particle.init _ _ _) as [[p w]|]; cbn [bind]; [|discriminate].
    intros H; injection H as <-. reflexivity.
Qed.

Lemma read_loop_table_length n : forall i lines st,
  List.length (per_event (fst (read_loop table F kwargs n i lines st)))
  = List.length (per_event st).
Proof.
  induction n as [|n IH]; intros i lines st; cbn [read_loop]; [reflexivity|].
  destruct lines as [|line rest]; [reflexivity|].
  destruct (process_line table F kwargs i line st) as [st'|e] eqn:Hp;
    [|reflexivity].
  rewrite IH. exact (process_line_table_length _ _ _ _ Hp).
Qed.

(** *** What a load returns *)

(** The state the read pass ends in, for a load that returns. *)
Lemma load_returns fs self self' r :
  load table F fs kwargs self = (self', Ok r) ->
  exists self2 n lines st,
    optional_arguments_ self2 = kwargs /\
    num_events_ self2 = Z.of_nat (List.length (num_output_per_event_ self2)) /\
    st = fst (read_loop table F kwargs n 0 lines
                {| particle_list := []; data := []; shared := [];
                   per_event := num_output_per_event_ self2 |}) /\
    reconcile kwargs (particle_list st) (set_table self2 (per_event st))
      = (self', Ok tt) /\
    r = (particle_list st, num_events_ self', num_output_per_event_ self').
Proof.
  unfold load.
  destruct (check_keys kwargs); cbn [bind]; [|discriminate].
  destruct (check_events kwargs); cbn [bind]; [|discriminate].
  destruct (check_particletype kwargs (set_optional_arguments self kwargs))
    as [self1|] eqn:Hcheck; [|discriminate].
  pose proof (check_particletype_arguments kwargs _ _ Hcheck) as Hargs1.
  cbn [set_optional_arguments optional_arguments_] in Hargs1.
  unfold set_num_output_per_event.
  destruct (bind _ _) as [rows|]; [|discriminate].
  unfold set_particle_list.
  destruct (bind _ _) as [[num_read_lines lines]|]; [|discriminate].
  destruct (read_loop _ _ _ _ _ _ _) as [st [[]|e]] eqn:Hloop; [|discriminate].
  destruct (reconcile _ _ _) as [self3 [[]|e]] eqn:Hrec; [|discriminate].
  intros H; injection H as <- <-.
  exists (set_num_events (set_table self1 rows) (Z.of_nat (List.length rows))),
         (Z.to_nat num_read_lines), lines, st.
  split; [exact Hargs1|]. split; [reflexivity|].
  split; [rewrite Hloop; reflexivity|].
  split; [exact Hrec|reflexivity].
Qed.

(** X24.  Without filters, a load that returns holds no particle: every
    event of the list it returns is empty, whatever the file (the words of
    a particle line are passed on as strings, and the constructor raises on
    them, so a window with a particle line never completes). *)
Theorem load_returns_no_particle fs self self' particle_list n rows :
  dict_get "filters" kwargs = None ->
  load table F fs kwargs self = (self', Ok (particle_list, n, rows)) ->
  Forall (fun event => event = []) particle_list.
Proof.
  intros Hf Hload.
  destruct (load_returns _ _ _ _ Hload)
    as (self2 & k & lines & st & _ & _ & Hst & _ & Hr).
  injection Hr as -> _ _. subst st.
  apply read_loop_no_particles; [exact Hf|].
  split; [reflexivity|constructor].
Qed.

(** X25.  When a full-file load (no [events]) returns, with or without
    filters, the event count it returns and stores is the number of events
    of the list it returns, and the table it returns and stores has one row
    for each of them. *)
Theorem full_load_counts fs self self' particle_list n rows :
  dict_get "events" kwargs = None ->
  load table F fs kwargs self = (self', Ok (particle_list, n, rows)) ->
  n = Z.of_nat (List.length particle_list) /\
  List.length rows = List.length particle_list /\
  num_events_ self' = n /\ num_output_per_event_ self' = rows.
Proof.
  intros He Hload.
  destruct (load_returns _ _ _ _ Hload)
    as (self2 & k & lines & st & Hargs & Hcount & Hst & Hrec & Hr).
  injection Hr as -> -> ->.
  unfold reconcile in Hrec. cbn [set_table optional_arguments_] in Hrec.
  rewrite Hargs in Hrec. unfold dict_has in Hrec. rewrite He in Hrec.
  rewrite orb_true_r in Hrec.
  destruct (Z.eqb_spec (Z.of_nat (List.length (JetscapeLoader.particle_list st)))
              (num_events_ (set_table self2 (per_event st)))) as [Heq|];
    [|discriminate].
  cbn [negb] in Hrec. injection Hrec as <-.
  cbn [set_table num_events_ num_output_per_event_] in *.
  split; [congruence|]. split; [|split; reflexivity].
  rewrite Hst at 1. rewrite read_loop_table_length. cbn [per_event]. lia.
Qed.

End Loads.

(** The second of two empty events. *)
Lemma load_returns_no_particle_witness :
  snd (load sample_table identity_filters (disk "run.dat" two_empty_events)
         [("events", PyTuple [PyInt 1; PyInt 1])] (loader_for "run.dat"))
  = Ok ([[]], 1, [(2, 0)]) /\
  Forall (fun event : list Particle => event = []) [[]].
Proof.
  split; [vm_compute; reflexivity|].
  apply (load_returns_no_particle sample_table identity_filters
           [("events", PyTuple [PyInt 1; PyInt 1])]
           (disk "run.dat" two_empty_events) (loader_for "run.dat")
           {| PATH_JETSCAPE_ := "run.dat"; particle_type_ := "hadron";
              particle_type_defining_string_ := "N_hadrons";
              optional_arguments_ := [("events", PyTuple [PyInt 1; PyInt 1])];
              num_output_per_event_ := [(2, 0)]; num_events_ := 1 |}
           [[]] 1 [(2, 0)]).
  - reflexivity.
  - vm_compute. reflexivity.
Defined.

(** The file of two empty events, whole. *)
Lemma full_load_counts_witness :
  snd (load sample_table identity_filters (disk "run.dat" two_empty_events)
         [] (loader_for "run.dat"))
  = Ok ([[]; []], 2, [(1, 0); (2, 0)]) /\
  2 = Z.of_nat (List.length ([[]; []] : list (list Particle))) /\
  List.length [(1, 0); (2, 0)] = List.length ([[]; []] : list (list Particle)).
Proof.
  split; [vm_compute; reflexivity|].
  destruct (full_load_counts sample_table identity_filters []
              (disk "run.dat" two_empty_events) (loader_for "run.dat")
              {| PATH_JETSCAPE_ := "run.dat"; particle_type_ := "hadron";
                 particle_type_defining_string_ := "N_hadrons";
                 optional_arguments_ := [];
                 num_output_per_event_ := [(1, 0); (2, 0)];
                 num_events_ := 2 |}
              [[]; []] 2 [(1, 0); (2, 0)]) as (Hn & Hrows & _).
  - reflexivity.
  - vm_compute. reflexivity.
  - split; [exact Hn | exact Hrows].
Defined.

End LoadFacts.

Module SigmaFacts.
Import Py Particle JetscapeLoader Examples LoaderFacts LastLineFacts.

Local Open Scope nat_scope.

(** ** The last line *)

(** Scanning back from [p] over characters none of which is a newline runs
    into the start of the file. *)
Lemma seek_line_start_fails content : forall p,
  p < String.length content ->
  (forall j c, j <= p -> String.get j content = Some c ->
               Ascii.eqb c newline = false) ->
  seek_line_start content p = Raise (OSError "Invalid argument").
Proof.
  induction p as [|p IH]; intros Hlen Hbody.
  - destruct (get_in_range content 0 Hlen) as [c Hc].
    cbn [seek_line_start]. rewrite Hc.
    rewrite (Hbody 0 c) by (try lia; exact Hc). reflexivity.
  - destruct (get_in_range content (S p) Hlen) as [c Hc].
    cbn [seek_line_start]. rewrite Hc.
    rewrite (Hbody (S p) c) by (try lia; exact Hc).
    apply IH; [lia|]. intros j d Hj. apply Hbody. lia.
Qed.

(** X26.  On every file that consists of a single line, with or without
    its newline (the empty file included), [get_last_line] raises
    [OSError]: the backward scan finds no newline before the last line and
    seeks before the start of the file. *)
Theorem get_last_line_single_line fs path body tail :
  fs path = Some (body ++ tail) ->
  no_newline body = true ->
  tail = EmptyString \/ tail = String newline EmptyString ->
  get_last_line fs path = Raise (OSError "Invalid argument").
Proof.
  intros Hfs Hbody Htail. unfold get_last_line. rewrite Hfs.
  destruct (Nat.ltb_spec (String.length (body ++ tail)) 2) as [|Hsize];
    [reflexivity|].
  rewrite seek_line_start_fails; [reflexivity|lia|].
  intros j c Hj Hget. rewrite length_append in Hj, Hsize.
  destruct Htail as [->| ->].
  - rewrite append_empty in Hget. exact (get_no_newline _ _ _ Hbody Hget).
  - simpl in Hj, Hsize. rewrite get_append_left in Hget by lia.
    exact (get_no_newline _ _ _ Hbody Hget).
Qed.

(** A file that holds its header line only. *)
Lemma get_last_line_single_line_witness :
  get_last_line (disk "run.dat" ("# header" ++ String newline EmptyString))
    "run.dat"
  = Raise (OSError "Invalid argument").
Proof.
  apply (get_last_line_single_line
           (disk "run.dat" ("# header" ++ String newline EmptyString))
           "run.dat" "# header" (String newline EmptyString)).
  - reflexivity.
  - reflexivity.
  - right. reflexivity.
Defined.

Section TwoLines.

Context {float : Type} (py_float : string -> option float).

(** X27.  On every file of two lines or more, [get_sigmaGen] returns the
    first two words of the last line that [float] accepts, in their order
    on the line, and raises [IndexError] when the line holds fewer than
    two. *)
Theorem get_sigmaGen_last_line fs self content before body tail :
  fs (PATH_JETSCAPE_ self) = Some content ->
  two_or_more_lines content before body tail ->
  get_sigmaGen py_float fs self =
  match numbers_of py_float (split_whitespace body) with
  | first :: second :: _ => Ok (first, second)
  | _ => Raise index_out_of_range
  end.
Proof.
  intros Hfs Hlines.
  rewrite (get_sigmaGen_of_last_line py_float fs self _
             (get_last_line_spec fs _ _ _ _ _ Hfs Hlines)).
  rewrite split_whitespace_strip.
  destruct Hlines as (_ & _ & [-> | ->] & _).
  - rewrite append_empty. reflexivity.
  - rewrite split_whitespace_newline. reflexivity.
Qed.

End TwoLines.

(** A header and a line of three numbers. *)
Lemma get_sigmaGen_last_line_witness :
  get_sigmaGen whole_number
    (disk "run.dat" ("# sigma" ++ String newline ("7 x 8 9" ++ EmptyString)))
    (loader_for "run.dat")
  = Ok (7%Z, 8%Z).
Proof.
  apply (get_sigmaGen_last_line whole_number
           (disk "run.dat"
              ("# sigma" ++ String newline ("7 x 8 9" ++ EmptyString)))
           (loader_for "run.dat")
           ("# sigma" ++ String newline ("7 x 8 9" ++ EmptyString))
           "# sigma" "7 x 8 9" EmptyString).
  - reflexivity.
  - split; [reflexivity|]. split; [reflexivity|].
    split; [left; reflexivity | discriminate].
Defined.

End SigmaFacts.

Module IndexFacts.
Import Py Particle JetscapeLoader Examples LoaderFacts LoadFacts.

(** ** The index pass *)

Lemma index_lines_length defining lines : forall event_output,
  index_lines defining lines = Ok event_output ->
  List.length event_output =
  List.length (filter (is_event_header defining) lines).
Proof.
  induction lines as [|line rest IH]; intros event_output;
    cbn [index_lines filter].
  - intros H; injection H as <-. reflexivity.
  - unfold is_event_header at 1.
    destruct (contains "#" line && contains defining line); [|apply IH].
    destruct (list_get (tokens_of line) 2); cbn [bind]; [|discriminate].
    destruct (list_get (tokens_of line) 8); cbn [bind]; [|discriminate].
    destruct (index_lines defining rest) as [others|]; cbn [bind];
      [|discriminate].
    intros H; injection H as <-. simpl. rewrite (IH others eq_refl).
    reflexivity.
Qed.

Lemma as_int_table_length event_output : forall rows,
  as_int_table event_output = Ok rows ->
  List.length rows = List.length event_output.
Proof.
  induction event_output as [|[event num_output] rest IH]; intros rows;
    cbn [as_int_table].
  - intros H; injection H as <-. reflexivity.
  - destruct (py_int (PyStr event)); cbn [bind]; [|discriminate].
    destruct (py_int (PyStr num_output)); cbn [bind]; [|discriminate].
    destruct (as_int_table rest) as [others|]; cbn [bind]; [|discriminate].
    intros H; injection H as <-. simpl. rewrite (IH others eq_refl).
    reflexivity.
Qed.

(** X28.  When the index pass [set_num_output_per_event] succeeds, the
    event count it stores is the number of lines of the file that hold
    both ['#'] and the defining string of the particle type, the table has
    one row for each of them, and the path, the particle type and the
    stored arguments are unchanged. *)
Theorem index_pass_counts fs self self' :
  set_num_output_per_event fs self = (self', Ok tt) ->
  exists content,
    fs (PATH_JETSCAPE_ self) = Some content /\
    num_events_ self' =
      Z.of_nat (List.length
                  (filter (is_event_header (particle_type_defining_string_ self))
                          (lines_of content))) /\
    num_events_ self' = Z.of_nat (List.length (num_output_per_event_ self')) /\
    PATH_JETSCAPE_ self' = PATH_JETSCAPE_ self /\
    particle_type_ self' = particle_type_ self /\
    optional_arguments_ self' = optional_arguments_ self.
Proof.
  unfold set_num_output_per_event, open_lines.
  destruct (fs (PATH_JETSCAPE_ self)) as [content|]; cbn [bind];
    [|discriminate].
  destruct (index_lines _ _) as [event_output|] eqn:Hindex; cbn [bind];
    [|discriminate].
  destruct (as_int_table event_output) as [rows|] eqn:Hrows; [|discriminate].
  intros H; injection H as <-. exists content.
  cbn [set_num_events set_table num_events_ num_output_per_event_
       PATH_JETSCAPE_ particle_type_ optional_arguments_].
  rewrite (as_int_table_length _ _ Hrows), (index_lines_length _ _ _ Hindex).
  repeat split.
Qed.

(** The file of two pions: two event headers. *)
Lemma index_pass_counts_witness :
  exists content,
    disk "run.dat" two_pions (PATH_JETSCAPE_ indexed_loader) = Some content /\
    num_events_ indexed_loader =
      Z.of_nat (List.length
                  (filter
                     (is_event_header
                        (particle_type_defining_string_ indexed_loader))
                     (lines_of content))) /\
    num_events_ indexed_loader =
      Z.of_nat (List.length (num_output_per_event_ indexed_loader)) /\
    PATH_JETSCAPE_ indexed_loader = PATH_JETSCAPE_ indexed_loader /\
    particle_type_ indexed_loader = particle_type_ indexed_loader /\
    optional_arguments_ indexed_loader = optional_arguments_ indexed_loader.
Proof.
  apply (index_pass_counts (disk "run.dat" two_pions) indexed_loader
           indexed_loader).
  vm_compute. reflexivity.
Defined.

(** ** Filtered loads *)

Lemma nth_error_replace_nth_same {A} (l : list A) : forall k a,
  (k < List.length l)%nat -> nth_error (replace_nth l k a) k = Some a.
Proof.
  induction l as [|b rest IH]; intros k a Hk; simpl in Hk; [lia|].
  destruct k; cbn [replace_nth nth_error]; [reflexivity|].
  apply IH. lia.
Qed.

Lemma nth_error_replace_nth_other {A} (l : list A) : forall k i a,
  i <> k -> nth_error (replace_nth l k a) i = nth_error l i.
Proof.
  induction l as [|b rest IH]; intros k i a Hi; destruct k, i;
    cbn [replace_nth nth_error]; try reflexivity; try lia.
  apply IH. lia.
Qed.

Section Filtered.

Variable table : PDGTable.
Variable F : FilterLib (list (list Particle)).
Variable kwargs : list (string * pyval).
Variable filters : pyval.
Hypothesis filters_given : dict_get "filters" kwargs = Some filters.

Lemma close_event_counted st st' :
  filter_data F kwargs st = Ok st' ->
  counted st -> counted (append_data st').
Proof.
  unfold filter_data. rewrite filters_given.
  destruct (apply_kwargs_filters _ _ _) as [filtered|]; cbn [bind];
    [|discriminate].
  destruct (list_get filtered 0) as [data'|]; cbn [bind]; [|discriminate].
  unfold set_row.
  destruct (Nat.ltb_spec (List.length (particle_list st))
              (List.length (per_event st))) as [Hk|]; cbn [bind];
    [|discriminate].
  intros H; injection H as <-. intros Hst i Hi.
  cbn [append_data particle_list per_event data] in *.
  rewrite length_app in Hi. simpl in Hi.
  destruct (Nat.eq_dec i (List.length (particle_list st))) as [->|Hne].
  - rewrite nth_error_replace_nth_same by exact Hk.
    rewrite app_nth2, Nat.sub_diag by lia. reflexivity.
  - rewrite nth_error_replace_nth_other by exact Hne.
    rewrite app_nth1 by lia. apply Hst. lia.
Qed.

Lemma process_line_counted i line st st' :
  process_line table F kwargs i line st = Ok st' ->
  counted st -> counted st'.
Proof.
  unfold process_line.
  destruct (contains "#" line && contains "sigmaGen" line).
  { destruct (filter_data F kwargs st) as [s|] eqn:Hs; cbn [bind];
      [|discriminate].
    intros H; injection H as <-. exact (close_event_counted _ _ Hs). }
  destruct (Nat.eqb i 0 && negb (contains "#" line)
            && negb (contains "weight" line)); [discriminate|].
  destruct (contains "Event" line && contains "weight" line).
  - destruct (first_event_header kwargs); cbn [bind]; [|discriminate].
    destruct (list_get (tokens_of line) 2); cbn [bind]; [|discriminate].
    destruct (py_int (PyStr _)); cbn [bind]; [|discriminate].
    destruct (_ =? _); [intros H; injection H as <-; tauto|].
    destruct (filter_data F kwargs st) as [s|] eqn:Hs; cbn [bind];
      [|discriminate].
    intros H; injection H as <-. intros Hst.
    exact (close_event_counted _ _ Hs Hst).
  - destruct (particle_never_constructed table (tokens_of line)) as [e ->].
    discriminate.
Qed.

Lemma read_loop_counted n : forall i lines st,
  counted st -> counted (fst (read_loop table F kwargs n i lines st)).
Proof.
  induction n as [|n IH]; intros i lines st Hs; cbn [read_loop]; [exact Hs|].
  destruct lines as [|line rest]; [exact Hs|].
  destruct (process_line table F kwargs i line st) as [st'|e] eqn:Hp;
    [|exact Hs].
  apply IH. exact (process_line_counted _ _ _ _ Hp Hs).
Qed.

(** X29.  When a full-file load (no [events]) with filters returns, row
    [i] of the table it returns holds the number [i + 1] of event [i] and
    the length of that event as returned, that is, after the filters. *)
Theorem filtered_load_counts fs self self' particle_list n rows :
  dict_get "events" kwargs = None ->
  load table F fs kwargs self = (self', Ok (particle_list, n, rows)) ->
  forall i, (i < List.length particle_list)%nat ->
    nth_error rows i =
    Some (Z.of_nat i + 1, Z.of_nat (List.length (nth i particle_list []))).
Proof.
  intros He Hload.
  destruct (load_returns table F kwargs _ _ _ _ Hload)
    as (self2 & k & lines & st & Hargs & Hcount & Hst & Hrec & Hr).
  injection Hr as -> -> ->.
  unfold reconcile in Hrec. cbn [set_table optional_arguments_] in Hrec.
  rewrite Hargs in Hrec. unfold dict_has in Hrec. rewrite He in Hrec.
  rewrite orb_true_r in Hrec.
  destruct (negb _); [discriminate|]. injection Hrec as <-.
  cbn [set_table num_output_per_event_].
  assert (Hc : counted st).
  { rewrite Hst. apply read_loop_counted. intros i Hi. simpl in Hi. lia. }
  exact Hc.
Qed.

End Filtered.

(** The file of two empty events, loaded with the charge filter. *)
Lemma filtered_load_counts_witness :
  snd (load sample_table identity_filters (disk "run.dat" two_empty_events)
         [("filters", PyDict [("charged_particles", PyBool true)])]
         (loader_for "run.dat"))
  = Ok ([[]; []], 2, [(1, 0); (2, 0)]) /\
  nth_error [(1, 0); (2, 0)] 1 =
  Some (Z.of_nat 1 + 1,
        Z.of_nat (List.length (nth 1 ([[]; []] : list (list Particle)) []))).
Proof.
  split; [vm_compute; reflexivity|].
  apply (filtered_load_counts sample_table identity_filters
           [("filters", PyDict [("charged_particles", PyBool true)])]
           (PyDict [("charged_particles", PyBool true)]) eq_refl
           (disk "run.dat" two_empty_events) (loader_for "run.dat")
           {| PATH_JETSCAPE_ := "run.dat"; particle_type_ := "hadron";
              particle_type_defining_string_ := "N_hadrons";
              optional_arguments_ :=
                [("filters", PyDict [("charged_particles", PyBool true)])];
              num_output_per_event_ := [(1, 0); (2, 0)];
              num_events_ := 2 |}
           [[]; []] 2 [(1, 0); (2, 0)]).
  - reflexivity.
  - vm_compute. reflexivity.
  - simpl. lia.
Defined.

End IndexFacts.
